(** * multicall-decoder: a shallow embedding of the decoding pipeline

    The development follows the TypeScript sources:
    - [types.ts]              the records [MulticallCall] and [DecodedCall];
    - [signature-decoder.ts]  the 4byte-directory client [SignatureDecoder];
    - [etherscan-client.ts]   the Etherscan client [EtherscanClient];
    - [decoder.ts]            [MulticallDecoder], the envelope parser and the
                              per-call resolver.

    JavaScript exceptions, the mutable fields of the three classes, the wall
    clock, the outbound HTTP traffic and the console are explicit: a method
    is a function from the receiver object and the world to an outcome, a new
    receiver and a new world.  The libraries the program calls (viem, axios,
    JSON) are the fields of the class [Environment]. *)

From Stdlib Require Import ZArith Ascii String List Lia Bool HexString.
From stdpp Require Import base option gmap strings list fin_maps pretty.

Set Warnings "-register-all".
Local Open Scope string_scope.
Local Open Scope Z_scope.

(* ------------------------------------------------------------------ *)
(** ** JavaScript strings *)

Module JsString.

Definition lower_ascii (c : ascii) : ascii :=
  let n := nat_of_ascii c in
  if (Nat.leb 65 n && Nat.leb n 90)%bool then ascii_of_nat (n + 32) else c.

(** [s.toLowerCase()] on the ASCII range. *)
Fixpoint toLowerCase (s : string) : string :=
  match s with
  | EmptyString => EmptyString
  | String c s' => String (lower_ascii c) (toLowerCase s')
  end.

(** [s.startsWith(p)] *)
Fixpoint startsWith (s p : string) : bool :=
  match p, s with
  | EmptyString, _ => true
  | String _ _, EmptyString => false
  | String a p', String b s' => if Ascii.eqb a b then startsWith s' p' else false
  end.

(** [s.slice(n)] for a non-negative [n]. *)
Fixpoint slice_from (n : nat) (s : string) : string :=
  match n, s with
  | O, _ => s
  | S _, EmptyString => EmptyString
  | S n', String _ s' => slice_from n' s'
  end.

(** [s.slice(0, n)] for a non-negative [n]: at most [n] characters, no
    out-of-range read when [s] is shorter. *)
Fixpoint slice_to (n : nat) (s : string) : string :=
  match n, s with
  | O, _ => EmptyString
  | S _, EmptyString => EmptyString
  | S n', String c s' => String c (slice_to n' s')
  end.

(** [s.split(sep)[0]] for a one-character separator. *)
Fixpoint split_head (sep : ascii) (s : string) : string :=
  match s with
  | EmptyString => EmptyString
  | String c s' => if Ascii.eqb c sep then EmptyString else String c (split_head sep s')
  end.

(** [parts.join(sep)] *)
Fixpoint join (sep : string) (parts : list string) : string :=
  match parts with
  | [] => EmptyString
  | [p] => p
  | p :: rest => p ++ sep ++ join sep rest
  end.

(** Truthiness of a string: the empty string is falsy. *)
Definition truthy (s : string) : bool :=
  match s with EmptyString => false | String _ _ => true end.

End JsString.

(* ------------------------------------------------------------------ *)
(** ** Values *)

(** What viem's decoder produces: booleans, numbers and bigints, strings
    (addresses, hex byte strings, text), arrays, and objects for tuples with
    named components.  Neither [null] nor [undefined] is a decoded value. *)
Inductive AbiValue : Type :=
| VBool (b : bool)
| VNumber (n : Z)
| VBigInt (n : Z)
| VString (s : string)
| VArray (elems : list AbiValue)
| VObject (fields : list (string * AbiValue)).

(** A response body ([response.data], typed [any] in the sources). *)
Inductive Json : Type :=
| JNull
| JBool (b : bool)
| JNumber (n : Z)
| JString (s : string)
| JArray (elems : list Json)
| JObject (fields : list (string * Json)).

(** Lookup of a key in the field list of an object; [None] is [undefined]. *)
Fixpoint assoc {A : Type} (k : string) (fields : list (string * A)) : option A :=
  match fields with
  | [] => None
  | (k', v) :: rest => if String.eqb k k' then Some v else assoc k rest
  end.

(** [v.key] on a decoded value: [undefined] unless [v] is an object that has
    the key. *)
Definition prop (v : AbiValue) (key : string) : option AbiValue :=
  match v with
  | VObject fields => assoc key fields
  | _ => None
  end.

(** [Array.isArray(x)], with the elements when it holds. *)
Definition isArray (x : option AbiValue) : option (list AbiValue) :=
  match x with
  | Some (VArray elems) => Some elems
  | _ => None
  end.

(* ------------------------------------------------------------------ *)
(** ** Exceptions *)

Inductive JsError : Type :=
| Error (message : string)
| TypeError (message : string)
| LibraryError (name message : string).

Inductive Throws (A : Type) : Type :=
| Ok (a : A)
| Thrown (e : JsError).
Arguments Ok {A} a.
Arguments Thrown {A} e.

(** The two error conditions the specification names.  The first is the
    error [parseMulticallData] throws; the sources have no second one. *)
Definition UnrecognizedEnvelope : JsError :=
  Error "Unable to parse multicall data - unknown format".
Definition MalformedCallData : JsError :=
  Error "MalformedCallData".

(** [j.key] on a response body: a [TypeError] on [null], [undefined] when
    the key is absent. *)
Definition jprop (j : Json) (key : string) : Throws (option Json) :=
  match j with
  | JNull => Thrown (TypeError ("Cannot read properties of null (reading '" ++ key ++ "')"))
  | JObject fields => Ok (assoc key fields)
  | _ => Ok None
  end.

(** [x === s] for a string [s]. *)
Definition strictEq (x : option Json) (s : string) : bool :=
  match x with
  | Some (JString s') => String.eqb s' s
  | _ => false
  end.

Definition jtruthy (x : option Json) : bool :=
  match x with
  | None | Some JNull => false
  | Some (JBool b) => b
  | Some (JNumber n) => negb (n =? 0)
  | Some (JString s) => JsString.truthy s
  | Some (JArray _) | Some (JObject _) => true
  end.

(* ------------------------------------------------------------------ *)
(** ** types.ts and the viem types the sources use *)

(** viem's [Abi] is a type of TypeScript only.  The values the sources
    handle under it are JSON data: what [JSON.parse] gave for the [result]
    field of a reply of Etherscan, cast with [as Abi] whatever it is ([null],
    a number, a string, an object, an array of anything), and what viem's
    parsers built.  The sources read such a value as they read a response
    body (the callbacks take their argument as [any]). *)
Abbreviation Abi := Json (only parsing).

Module Decoded.
(** The result of viem's [decodeFunctionData]; [args] is [undefined] for a
    function without inputs. *)
Record t : Type := { functionName : string; args : option (list AbiValue) }.
End Decoded.

Module MulticallCall.
(** The fields are copied from the decoded tuple as they are
    ([call.target], [call.callData] on a value of type [any]). *)
Record t : Type := { target : option AbiValue; callData : option AbiValue }.
End MulticallCall.

Module DecodedCall.
Record t : Type :=
  { target : string;
    functionName : string;
    functionSignature : string;
    args : option (list AbiValue);
    rawCallData : string }.
End DecodedCall.

Module FunctionSignature.
Record t : Type := { name : string; signature : string }.
End FunctionSignature.

(* ------------------------------------------------------------------ *)
(** ** The world outside the process *)

Inductive Param : Type := PStr (s : string) | PNum (n : Z).

Record Request : Type :=
  { url : string; params : list (string * Param); timeout : Z }.

Record World : Type :=
  { now : Z;                          (* Date.now(), milliseconds *)
    outbound : list (Z * Request);    (* requests sent, with the time of sending *)
    console : list string }.          (* lines written by console.log / console.error *)

(** The libraries.  A library call that raises returns [Thrown].
    [axios_reply] is the outcome of an HTTP exchange and the time it takes,
    in milliseconds; it may depend on everything that happened before, so
    the same request can be answered differently at different moments.
    [parseAbi] is only applied to the four literal signatures of
    [parseMulticallData].  [JSON_parse] is [JSON.parse] applied to a value
    of a response body: it raises a [SyntaxError] or returns any JSON value,
    [null] included.  [ToString] is the conversion of a value to a string by
    the runtime, as [Array.prototype.join] applies it to an element. *)
Class Environment : Type :=
  { decodeFunctionData : Abi -> string -> Throws Decoded.t;
    parseAbi : list string -> Abi;
    parseAbiItem : string -> Throws Json;
    JSON_parse : Json -> Throws Json;
    ToString : Json -> Throws string;
    axios_reply : World -> Request -> Throws Json * N;
    ETHERSCAN_API_KEY : option string }.

(* ------------------------------------------------------------------ *)
(** ** Methods: receiver and world passing, with exceptions *)

Definition Js (S A : Type) : Type := S -> World -> Throws A * S * World.

Definition ret {S A} (a : A) : Js S A := fun s w => (Ok a, s, w).

Definition throw {S A} (e : JsError) : Js S A := fun s w => (Thrown e, s, w).

Definition bind {S A B} (m : Js S A) (k : A -> Js S B) : Js S B :=
  fun s w =>
    match m s w with
    | (Ok a, s', w') => k a s' w'
    | (Thrown e, s', w') => (Thrown e, s', w')
    end.

(** [try { m } catch (e) { h e }]: what [m] did to the receiver and to the
    world before raising stays done. *)
Definition try_catch {S A} (m : Js S A) (h : JsError -> Js S A) : Js S A :=
  fun s w =>
    match m s w with
    | (Ok a, s', w') => (Ok a, s', w')
    | (Thrown e, s', w') => h e s' w'
    end.

Definition lift {S A} (r : Throws A) : Js S A := fun s w => (r, s, w).

Definition this {S} : Js S S := fun s w => (Ok s, s, w).

Definition assign {S} (s' : S) : Js S unit := fun _ w => (Ok tt, s', w).

(** Run a method of a member object. *)
Definition on {S T A} (get : S -> T) (set : T -> S -> S) (m : Js T A) : Js S A :=
  fun s w => let '(r, t', w') := m (get s) w in (r, set t' s, w').

Notation "'let*' x ':=' m 'in' k" := (bind m (fun x => k))
  (at level 10, x name, m at level 100, k at level 200, only parsing).

Definition Date_now {S} : Js S Z := fun s w => (Ok (now w), s, w).

Definition console_error {S} (line : string) : Js S unit :=
  fun s w =>
    (Ok tt, s,
     {| now := now w; outbound := outbound w; console := (console w ++ [line])%list |}).

Definition console_log {S} (line : string) : Js S unit := console_error line.

(** [new Promise(resolve => setTimeout(resolve, ms))], awaited. *)
Definition sleep {S} (ms : Z) : Js S unit :=
  fun s w =>
    (Ok tt, s,
     {| now := now w + Z.max 0 ms; outbound := outbound w; console := console w |}).

(** [await axios.get(url, { params, timeout })]: the request leaves at the
    current time, the reply (or the failure) arrives after the exchange. *)
Definition axios_get {S} `{Environment} (req : Request) : Js S Json :=
  fun s w =>
    let '(reply, elapsed) := axios_reply w req in
    (reply, s,
     {| now := now w + Z.of_N elapsed;
        outbound := (outbound w ++ [(now w, req)])%list;
        console := console w |}).

(** [xs.map(f)] for a callback that may raise: the first exception stops
    the traversal. *)
Fixpoint map_throws {A B} (f : A -> Throws B) (xs : list A) : Throws (list B) :=
  match xs with
  | [] => Ok []
  | x :: rest =>
      match f x with
      | Ok y => match map_throws f rest with
                | Ok ys => Ok (y :: ys)
                | Thrown e => Thrown e
                end
      | Thrown e => Thrown e
      end
  end.

(** [xs.find(f)] for a callback that may raise. *)
Fixpoint find_throws {A} (f : A -> Throws bool) (xs : list A) : Throws (option A) :=
  match xs with
  | [] => Ok None
  | x :: rest =>
      match f x with
      | Ok true => Ok (Some x)
      | Ok false => find_throws f rest
      | Thrown e => Thrown e
      end
  end.

(** The text of an error on the console (the stack trace is left out). *)
Definition describe (e : JsError) : string :=
  match e with
  | Error m => "Error: " ++ m
  | TypeError m => "TypeError: " ++ m
  | LibraryError n m => n ++ ": " ++ m
  end.

(* ------------------------------------------------------------------ *)
(** ** signature-decoder.ts *)

Module SignatureDecoder.

Record t : Type := { cache : gmap string (list FunctionSignature.t) }.

Definition FOUR_BYTE_API : string := "https://www.4byte.directory/api/v1/signatures/".

(** The callback of [response.data.results.map]:
    [{ name: result.text_signature.split('(')[0], signature: result.text_signature }].
    Only a string has [split]. *)
Definition toSignature (result : Json) : Throws FunctionSignature.t :=
  match jprop result "text_signature" with
  | Ok (Some (JString text_signature)) =>
      Ok {| FunctionSignature.name := JsString.split_head "(" text_signature;
            FunctionSignature.signature := text_signature |}
  | Ok _ => Thrown (TypeError "result.text_signature.split is not a function")
  | Thrown e => Thrown e
  end.

(** [results.map(...)]: only an array has [map]. *)
Definition mapResults (results : option Json) : Throws (list FunctionSignature.t) :=
  match results with
  | Some (JArray elems) => map_throws toSignature elems
  | _ => Thrown (TypeError "response.data.results.map is not a function")
  end.

Definition normalize (selector : string) : string :=
  if JsString.startsWith (JsString.toLowerCase selector) "0x"
  then JsString.toLowerCase selector
  else "0x" ++ JsString.toLowerCase selector.

Section Methods.
Context `{Environment}.

Definition lookupSelector (selector : string) : Js t (list FunctionSignature.t) :=
  let normalizedSelector := normalize selector in
  let* self := this in
  match cache self !! normalizedSelector with
  | Some signatures => ret signatures
  | None =>
      try_catch
        (let* data := axios_get
                   {| url := FOUR_BYTE_API;
                      params := [("hex_signature", PStr normalizedSelector)];
                      timeout := 10000 |} in
         if jtruthy (Some data) then
           let* results := lift (jprop data "results") in
           if jtruthy results then
             let* signatures := lift (mapResults results) in
             let* self := this in
             let* _ := assign {| cache := <[normalizedSelector := signatures]> (cache self) |} in
             ret signatures
           else ret []
         else ret [])
        (fun error =>
           let* _ := console_error ("Failed to lookup selector " ++ normalizedSelector ++ ": "
                          ++ describe error) in
           ret [])
  end.

Definition clearCache : Js t unit := assign {| cache := ∅ |}.

End Methods.
End SignatureDecoder.

(* ------------------------------------------------------------------ *)
(** ** etherscan-client.ts *)

Module EtherscanConfig.
Record t : Type := { apiKey : option string; network : option string }.
End EtherscanConfig.

Module EtherscanClient.

Record t : Type :=
  { cache : gmap string Abi;
    nameCache : gmap string string;
    apiKey : option string;
    baseUrl : string;
    chainId : Z;
    verbose : bool;
    lastRequestTime : Z;
    minRequestInterval : Z }.

(** Truthiness of [string | undefined]. *)
Definition configured (key : option string) : bool :=
  match key with Some k => JsString.truthy k | None => false end.

Definition getBaseUrl (network : string) : string := "https://api.etherscan.io/v2/api".

Definition getChainId (network : string) : Z :=
  if String.eqb network "mainnet" then 1
  else if String.eqb network "goerli" then 5
  else if String.eqb network "sepolia" then 11155111
  else if String.eqb network "polygon" then 137
  else if String.eqb network "arbitrum" then 42161
  else if String.eqb network "optimism" then 10
  else if String.eqb network "base" then 8453
  else 1.

Definition set_cache (c : gmap string Abi) (self : t) : t :=
  {| cache := c; nameCache := nameCache self; apiKey := apiKey self;
     baseUrl := baseUrl self; chainId := chainId self; verbose := verbose self;
     lastRequestTime := lastRequestTime self;
     minRequestInterval := minRequestInterval self |}.

Definition set_lastRequestTime (time : Z) (self : t) : t :=
  {| cache := cache self; nameCache := nameCache self; apiKey := apiKey self;
     baseUrl := baseUrl self; chainId := chainId self; verbose := verbose self;
     lastRequestTime := time;
     minRequestInterval := minRequestInterval self |}.

Section Methods.
Context `{Environment}.

(** The constructor.  [verbose] is set to [false], so neither of its two
    log lines is written. *)
Definition new (config : EtherscanConfig.t) : t :=
  let apiKey := if configured (EtherscanConfig.apiKey config)
                then EtherscanConfig.apiKey config else ETHERSCAN_API_KEY in
  let network := match EtherscanConfig.network config with
                 | Some n => if JsString.truthy n then n else "mainnet"
                 | None => "mainnet"
                 end in
  {| cache := ∅;
     nameCache := ∅;
     apiKey := apiKey;
     baseUrl := getBaseUrl network;
     chainId := getChainId network;
     verbose := false;
     lastRequestTime := 0;
     minRequestInterval := if configured apiKey then 250 else 1000 |}.

Definition throttle : Js t unit :=
  let* now := Date_now in
  let* self := this in
  let timeSinceLastRequest := now - lastRequestTime self in
  let* _ :=
    if timeSinceLastRequest <? minRequestInterval self then
      let waitTime := minRequestInterval self - timeSinceLastRequest in
      let* _ := if verbose self
                then console_log ("Throttling: waiting " ++ pretty waitTime
                                  ++ "ms before next request")
                else ret tt in
      sleep waitTime
    else ret tt in
  let* now' := Date_now in
  let* self := this in
  assign (set_lastRequestTime now' self).

(** The cache is a [Map]: [has] tells whether the key is present, whatever
    the value stored under it, and [get] returns that value, [null]
    included.  The value returned is [JNull] for [null]. *)
Definition getContractAbi (address : string) : Js t Abi :=
  let normalizedAddress := JsString.toLowerCase address in
  let* self := this in
  match cache self !! normalizedAddress with
  | Some abi => ret abi
  | None =>
      try_catch
        (let params :=
           [("chainid", PNum (chainId self)); ("module", PStr "contract");
            ("action", PStr "getabi"); ("address", PStr normalizedAddress)] in
         let params :=
           match apiKey self with
           | Some key => if JsString.truthy key then (params ++ [("apikey", PStr key)])%list else params
           | None => params
           end in
         let* data := axios_get {| url := baseUrl self; params := params; timeout := 10000 |} in
         let* status := lift (jprop data "status") in
         if strictEq status "1" then
           let* result := lift (jprop data "result") in
           match result with
           | Some result =>
               if jtruthy (Some result) then
                 let* abi := lift (JSON_parse result) in
                 let* self := this in
                 let* _ := assign (set_cache (<[normalizedAddress := abi]> (cache self)) self) in
                 ret abi
               else ret JNull
           | None => ret JNull
           end
         else ret JNull)
        (fun error =>
           let* _ := console_error ("Failed to fetch ABI for " ++ address ++ ": " ++ describe error) in
           ret JNull)
  end.

End Methods.
End EtherscanClient.

(* ------------------------------------------------------------------ *)
(** ** decoder.ts *)

Module DecoderOptions.
Record t : Type :=
  { etherscanApiKey : option string; network : option string; verbose : option bool }.
End DecoderOptions.

Module MulticallDecoder.

Record t : Type :=
  { signatureDecoder : SignatureDecoder.t;
    etherscanClient : EtherscanClient.t;
    verbose : bool }.

Definition set_signatureDecoder (d : SignatureDecoder.t) (self : t) : t :=
  {| signatureDecoder := d; etherscanClient := etherscanClient self; verbose := verbose self |}.

Definition set_etherscanClient (c : EtherscanClient.t) (self : t) : t :=
  {| signatureDecoder := signatureDecoder self; etherscanClient := c; verbose := verbose self |}.

(** The four human-readable ABIs of [parseMulticallData], as written. *)
Definition aggregate3_signature : string :=
  "function aggregate3((address target, bool allowFailure, bytes callData)[] calls) external payable returns ((bool success, bytes returnData)[] returnData)".
Definition aggregate_signature : string :=
  "function aggregate((address target, bytes callData)[] calls) external returns (uint256 blockNumber, bytes[] returnData)".
Definition tryAggregate_signature : string :=
  "function tryAggregate(bool requireSuccess, (address target, bytes callData)[] calls) external returns ((bool success, bytes returnData)[] returnData)".
Definition tryBlockAndAggregate_signature : string :=
  "function tryBlockAndAggregate(bool requireSuccess, (address target, bytes callData)[] calls) external returns (uint256 blockNumber, bytes32 blockHash, (bool success, bytes returnData)[] returnData)".

(** [for (const call of elems) calls.push({ target: call.target, callData: call.callData })] *)
Definition push_calls (calls : list MulticallCall.t) (elems : list AbiValue)
  : list MulticallCall.t :=
  fold_left
    (fun calls call =>
       (calls ++ [{| MulticallCall.target := prop call "target";
                     MulticallCall.callData := prop call "callData" |}])%list)
    elems calls.

(** The body of each of the four inner [try] blocks after the decode:
    [if (decoded.functionName === name && decoded.args && Array.isArray(decoded.args[index]))]
    then push every call and return [calls]; [None] when control falls out
    of the [if]. *)
Definition extract (name : string) (index : nat) (decoded : Decoded.t)
    (calls : list MulticallCall.t) : option (list MulticallCall.t) :=
  if String.eqb (Decoded.functionName decoded) name then
    match Decoded.args decoded with
    | Some args =>
        match isArray (args !! index) with
        | Some elems => Some (push_calls calls elems)
        | None => None
        end
    | None => None
    end
  else None.

(** [item.type === 'function' && item.name === functionName], on an item
    of type [any]: reading a property of [null] raises. *)
Definition isFragment (functionName : string) (item : Json) : Throws bool :=
  match jprop item "type" with
  | Thrown e => Thrown e
  | Ok type =>
      if strictEq type "function" then
        match jprop item "name" with
        | Thrown e => Thrown e
        | Ok name => Ok (strictEq name functionName)
        end
      else Ok false
  end.

(** [abi.find((item: any) => item.type === 'function' && item.name === functionName)]:
    only an array has the method. *)
Definition findFragment (abi : Abi) (functionName : string) : Throws (option Json) :=
  match abi with
  | JArray items => find_throws (isFragment functionName) items
  | _ => Thrown (TypeError "abi.find is not a function")
  end.

Section Methods.
Context `{Environment}.

Definition new (options : DecoderOptions.t) : t :=
  {| signatureDecoder := {| SignatureDecoder.cache := ∅ |};
     etherscanClient :=
       EtherscanClient.new
         {| EtherscanConfig.apiKey := DecoderOptions.etherscanApiKey options;
            EtherscanConfig.network := DecoderOptions.network options |};
     verbose := match DecoderOptions.verbose options with Some b => b | None => false end |}.

(** One inner [try { decode; if (...) { ...; return calls } } catch (e) { }]:
    [Some calls] when the block returned, [None] when control goes on to the
    statement after it. *)
Definition attempt (signature name : string) (index : nat) (data : string)
    (calls : list MulticallCall.t) : Js t (option (list MulticallCall.t)) :=
  let abi := parseAbi [signature] in
  try_catch
    (let* decoded := lift (decodeFunctionData abi data) in
     ret (extract name index decoded calls))
    (fun e => ret None).

Definition parseMulticallData (data : string) : Js t (list MulticallCall.t) :=
  let calls : list MulticallCall.t := [] in
  try_catch
    (let* r := attempt aggregate3_signature "aggregate3" 0 data calls in
     match r with
     | Some calls => ret calls
     | None =>
     let* r := attempt aggregate_signature "aggregate" 0 data calls in
     match r with
     | Some calls => ret calls
     | None =>
     let* r := attempt tryAggregate_signature "tryAggregate" 1 data calls in
     match r with
     | Some calls => ret calls
     | None =>
     let* r := attempt tryBlockAndAggregate_signature "tryBlockAndAggregate" 1 data calls in
     match r with
     | Some calls => ret calls
     | None => throw (Error "Unable to parse multicall data - unknown format")
     end end end end)
    (fun error =>
       let* self := this in
       let* _ := if verbose self
                 then console_error ("Error parsing multicall data: " ++ describe error)
                 else ret tt in
       throw error).

(** An element of an array as [join] writes it: nothing for [undefined]
    and [null], a string as it is, any other value converted. *)
Definition joined (x : option Json) : Throws string :=
  match x with
  | None | Some JNull => Ok ""
  | Some (JString s) => Ok s
  | Some v => ToString v
  end.

(** [inputs.map((input: any) => input.type).join(',')]: only an array has
    [map]. *)
Definition inputTypes (inputs : Json) : Throws string :=
  match inputs with
  | JArray elems =>
      match map_throws (fun input => jprop input "type") elems with
      | Thrown e => Thrown e
      | Ok types =>
          match map_throws joined types with
          | Thrown e => Thrown e
          | Ok texts => Ok (JsString.join "," texts)
          end
      end
  | _ => Thrown (TypeError "functionFragment.inputs.map is not a function")
  end.

(** The signature the Etherscan branch reports:
    [let signature = decoded.functionName;
     if (functionFragment && functionFragment.inputs) { signature = ... }] *)
Definition signatureOf (decoded : Decoded.t) (functionFragment : option Json) : Throws string :=
  match functionFragment with
  | Some fragment =>
      if jtruthy (Some fragment) then
        match jprop fragment "inputs" with
        | Thrown e => Thrown e
        | Ok (Some inputs) =>
            if jtruthy (Some inputs) then
              match inputTypes inputs with
              | Thrown e => Thrown e
              | Ok inputTypes => Ok (Decoded.functionName decoded ++ "(" ++ inputTypes ++ ")")
              end
            else Ok (Decoded.functionName decoded)
        | Ok None => Ok (Decoded.functionName decoded)
        end
      else Ok (Decoded.functionName decoded)
  | None => Ok (Decoded.functionName decoded)
  end.

(** The [try] block of the Etherscan branch of [decodeCall]; it touches
    neither the decoder nor the world. *)
Definition decodeWithAbi (abi : Abi) (target callData : string) : Throws DecodedCall.t :=
  match decodeFunctionData abi callData with
  | Thrown e => Thrown e
  | Ok decoded =>
      match findFragment abi (Decoded.functionName decoded) with
      | Thrown e => Thrown e
      | Ok functionFragment =>
          match signatureOf decoded functionFragment with
          | Thrown e => Thrown e
          | Ok signature =>
              Ok {| DecodedCall.target := target;
                    DecodedCall.functionName := Decoded.functionName decoded;
                    DecodedCall.functionSignature := signature;
                    DecodedCall.args := Decoded.args decoded;
                    DecodedCall.rawCallData := callData |}
          end
      end
  end.

(** The [try] block inside the loop over the candidates of the 4byte
    directory. *)
Definition decodeWithSignature (sig : FunctionSignature.t) (target callData : string)
  : Throws DecodedCall.t :=
  match parseAbiItem ("function " ++ FunctionSignature.signature sig) with
  | Thrown e => Thrown e
  | Ok abiItem =>
      match decodeFunctionData (JArray [abiItem]) callData with
      | Thrown e => Thrown e
      | Ok decoded =>
          Ok {| DecodedCall.target := target;
                DecodedCall.functionName := FunctionSignature.name sig;
                DecodedCall.functionSignature := FunctionSignature.signature sig;
                DecodedCall.args := Some (default [] (Decoded.args decoded));
                DecodedCall.rawCallData := callData |}
      end
  end.

(** [for (const sig of signatures) { try { ...; return ... } catch (error) { continue } }]:
    [Some] when an iteration returned, [None] when the loop ran out. *)
Fixpoint trySignatures (signatures : list FunctionSignature.t) (target callData : string)
  : option DecodedCall.t :=
  match signatures with
  | [] => None
  | sig :: rest =>
      match decodeWithSignature sig target callData with
      | Ok call => Some call
      | Thrown error => trySignatures rest target callData
      end
  end.

Definition decodeCall (target callData : string) : Js t DecodedCall.t :=
  let selector := JsString.slice_to 10 callData in
  let* abi := on etherscanClient set_etherscanClient
                 (EtherscanClient.getContractAbi target) in
  let* r := if jtruthy (Some abi)
            then
              try_catch
                (let* call := lift (decodeWithAbi abi target callData) in ret (Some call))
                (fun error => ret None)
            else ret None in
  match r with
  | Some call => ret call
  | None =>
  let* signatures := on signatureDecoder set_signatureDecoder
                        (SignatureDecoder.lookupSelector selector) in
  match signatures with
  | [] =>
      ret {| DecodedCall.target := target;
             DecodedCall.functionName := "unknown";
             DecodedCall.functionSignature := selector;
             DecodedCall.args := Some [VString (JsString.slice_from 10 callData)];
             DecodedCall.rawCallData := callData |}
  | first :: _ =>
      match trySignatures signatures target callData with
      | Some call => ret call
      | None =>
          ret {| DecodedCall.target := target;
                 DecodedCall.functionName := FunctionSignature.name first;
                 DecodedCall.functionSignature := FunctionSignature.signature first;
                 DecodedCall.args := Some [VString (JsString.slice_from 10 callData)];
                 DecodedCall.rawCallData := callData |}
      end
  end
  end.

End Methods.
End MulticallDecoder.

(* ------------------------------------------------------------------ *)
(** ** A fixture environment

    A small stand-in for the libraries and the two web services, used to
    run the methods on concrete inputs.  Its decoder finds the function by
    the selector and decodes static 32-byte words (uint256, address, bool),
    as viem does; selectors come from a table, and the services answer from
    a script. *)

Module Fixture.

Fixpoint splitOn (sep : ascii) (s : string) : list string :=
  match s with
  | EmptyString => [EmptyString]
  | String c s' =>
      let r := splitOn sep s' in
      if Ascii.eqb c sep then EmptyString :: r
      else match r with
           | x :: xs => String c x :: xs
           | [] => [String c EmptyString]
           end
  end.

Definition hexDigit (c : ascii) : option Z :=
  let n := Z.of_nat (nat_of_ascii c) in
  if (48 <=? n) && (n <=? 57) then Some (n - 48)
  else if (97 <=? n) && (n <=? 102) then Some (n - 87)
  else if (65 <=? n) && (n <=? 70) then Some (n - 55)
  else None.

Fixpoint hexValue (acc : Z) (s : string) : option Z :=
  match s with
  | EmptyString => Some acc
  | String c s' =>
      match hexDigit c with
      | Some d => hexValue (16 * acc + d) s'
      | None => None
      end
  end.

Definition input (type : string) : Json :=
  JObject [("name", JString ""); ("type", JString type)].

Definition function (name : string) (types : list string) : Json :=
  JObject [("type", JString "function"); ("name", JString name);
           ("inputs", JArray (map input types))].

(** [function name(type,...)] with elementary types. *)
Definition parseFunction (text : string) : Throws Json :=
  if JsString.startsWith text "function " then
    let rest := JsString.slice_from 9 text in
    let name := JsString.split_head "(" rest in
    let inside := JsString.split_head ")" (JsString.slice_from (String.length name + 1) rest) in
    if JsString.truthy name && negb (String.eqb name rest) then
      Ok (function name (if JsString.truthy inside then splitOn "," inside else []))
    else Thrown (LibraryError "InvalidSignatureError" text)
  else Thrown (LibraryError "InvalidSignatureError" text).

Definition parseAbi (signatures : list string) : Abi :=
  match signatures with
  | [text] =>
      if String.eqb text MulticallDecoder.aggregate3_signature
      then JArray [function "aggregate3" ["tuple[]"]]
      else if String.eqb text MulticallDecoder.aggregate_signature
      then JArray [function "aggregate" ["tuple[]"]]
      else if String.eqb text MulticallDecoder.tryAggregate_signature
      then JArray [function "tryAggregate" ["bool"; "tuple[]"]]
      else if String.eqb text MulticallDecoder.tryBlockAndAggregate_signature
      then JArray [function "tryBlockAndAggregate" ["bool"; "tuple[]"]]
      else match parseFunction text with Ok item => JArray [item] | Thrown _ => JArray [] end
  | _ => JArray []
  end.

(** The string under a key of an item, and the declared input types. *)
Definition text (item : Json) (key : string) : string :=
  match jprop item key with
  | Ok (Some (JString s)) => s
  | _ => ""
  end.

Definition types (item : Json) : list string :=
  match jprop item "inputs" with
  | Ok (Some (JArray inputs)) => map (fun input => text input "type") inputs
  | _ => []
  end.

Definition canonical (item : Json) : string :=
  text item "name" ++ "(" ++ JsString.join "," (types item) ++ ")".

(** The selector of a canonical signature, for the signatures the fixture
    knows. *)
Definition selectors : list (string * string) :=
  [("transfer(address,uint256)", "0xa9059cbb");
   ("many_msg_babbage(bytes1)", "0xa9059cbb");
   ("balanceOf(address)", "0x70a08231");
   ("approve(address,uint256)", "0x095ea7b3");
   ("mint(uint256)", "0xa0712d68");
   ("mint(address,uint256)", "0x40c10f19");
   ("aggregate3(tuple[])", "0x82ad56cb");
   ("aggregate(tuple[])", "0x252dba42");
   ("tryAggregate(bool,tuple[])", "0xbce38bd7");
   ("tryBlockAndAggregate(bool,tuple[])", "0x399542e9")].

Definition hasSelector (selector : string) (item : Json) : bool :=
  String.eqb (text item "type") "function"
  && match assoc (canonical item) selectors with
     | Some s => String.eqb s selector
     | None => false
     end.

Definition decodeWord (type word : string) : Throws AbiValue :=
  if negb (Nat.eqb (String.length word) 64)
  then Thrown (LibraryError "AbiDecodingDataSizeTooSmallError" type)
  else
    match hexValue 0 word with
    | None => Thrown (LibraryError "InvalidHexValueError" word)
    | Some n =>
        if String.eqb type "uint256" then Ok (VBigInt n)
        else if String.eqb type "address" then Ok (VString ("0x" ++ JsString.slice_from 24 word))
        else if String.eqb type "bool" then Ok (VBool (negb (n =? 0)))
        else if String.eqb type "bytes1" then Ok (VString ("0x" ++ JsString.slice_to 2 word))
        else Thrown (LibraryError "InvalidAbiDecodingTypeError" type)
    end.

Fixpoint decodeWords (types : list string) (body : string) : Throws (list AbiValue) :=
  match types with
  | [] => Ok []
  | type :: rest =>
      match decodeWord type (JsString.slice_to 64 body) with
      | Thrown e => Thrown e
      | Ok v =>
          match decodeWords rest (JsString.slice_from 64 body) with
          | Thrown e => Thrown e
          | Ok vs => Ok (v :: vs)
          end
      end
  end.

(** An abbreviated [aggregate3] payload and the two calls it stands for. *)
Definition usdc : string := "0xa0b86991c6218b36c1d19d4a2e9eb0ce3606eb48".
Definition dai : string := "0x6b175474e89094c44da98b954eedeac495271d0f".
Definition unverified : string := "0x00000000000000000000000000000000000000aa".
Definition unreachable : string := "0x00000000000000000000000000000000000000ff".
Definition alice : string := "000000000000000000000000000000000000000000000000000000000000a11c".
Definition amount : string := "00000000000000000000000000000000000000000000000000000000000003e8".

Definition transferCall : string := "0xa9059cbb" ++ alice ++ amount.
Definition mintCall : string := "0x40c10f19" ++ alice ++ amount.
Definition truncatedCall : string := "0xa9059cbb" ++ "a11c".

Definition batch : list AbiValue :=
  [VObject [("target", VString usdc); ("allowFailure", VBool false);
            ("callData", VString transferCall)];
   VObject [("target", VString dai); ("allowFailure", VBool true);
            ("callData", VString mintCall)]].

Definition aggregate3Payload : string := "0x82ad56cb" ++ "..batch..".
Definition tryAggregatePayload : string := "0xbce38bd7" ++ "..batch..".

Definition pairs : list AbiValue :=
  [VObject [("target", VString usdc); ("callData", VString transferCall)];
   VObject [("target", VString dai); ("callData", VString mintCall)]].

Definition decodeArguments (item : Json) (data : string) : Throws (option (list AbiValue)) :=
  if String.eqb data aggregate3Payload then Ok (Some [VArray batch])
  else if String.eqb data tryAggregatePayload then Ok (Some [VBool false; VArray pairs])
  else
    match types item with
    | [] => Ok None
    | inputs =>
        match decodeWords inputs (JsString.slice_from 10 data) with
        | Ok vs => Ok (Some vs)
        | Thrown e => Thrown e
        end
    end.

Definition decodeFunctionData (abi : Abi) (data : string) : Throws Decoded.t :=
  match abi with
  | JArray items =>
      match List.find (hasSelector (JsString.slice_to 10 data)) items with
      | None =>
          Thrown (LibraryError "AbiFunctionSignatureNotFoundError" (JsString.slice_to 10 data))
      | Some item =>
          match decodeArguments item data with
          | Thrown e => Thrown e
          | Ok args => Ok {| Decoded.functionName := text item "name"; Decoded.args := args |}
          end
      end
  | _ => Thrown (TypeError "abi.find is not a function")
  end.

(** The verified interfaces the scripted Etherscan knows, by the text of
    its [result] field; the text [null] parses to [null]. *)
Definition JSON_parse (text : Json) : Throws Json :=
  match text with
  | JString "[balanceOf(address)]" => Ok (JArray [function "balanceOf" ["address"]])
  | JString "[mint(uint256),mint(address,uint256)]" =>
      Ok (JArray [function "mint" ["uint256"]; function "mint" ["address"; "uint256"]])
  | JString "null" => Ok JNull
  | _ => Thrown (LibraryError "SyntaxError" "Unexpected token in JSON")
  end.

(** The conversion of a JSON value to a string (integers below 10^21). *)
Fixpoint toText (v : Json) : string :=
  match v with
  | JNull => "null"
  | JBool b => if b then "true" else "false"
  | JNumber n => pretty n
  | JString s => s
  | JArray elems =>
      JsString.join "," (map (fun e => match e with JNull => "" | _ => toText e end) elems)
  | JObject _ => "[object Object]"
  end.

(** No object of the value hides [Object.prototype.toString] behind a
    property of its own, which is not callable. *)
Fixpoint convertible (v : Json) : bool :=
  match v with
  | JArray elems => forallb convertible elems
  | JObject fields => match assoc "toString" fields with Some _ => false | None => true end
  | _ => true
  end.

Definition ToString (v : Json) : Throws string :=
  if convertible v then Ok (toText v)
  else Thrown (TypeError "Cannot convert object to primitive value").

Definition etherscanReply (status message result : string) : Json :=
  JObject [("status", JString status); ("message", JString message); ("result", JString result)].

Definition fourByteReply (signatures : list string) : Json :=
  JObject [("count", JNumber (Z.of_nat (length signatures)));
           ("results", JArray (map (fun s => JObject [("text_signature", JString s)]) signatures))].

Definition paramIs (req : Request) (key value : string) : bool :=
  match assoc key (params req) with
  | Some (PStr v) => String.eqb v value
  | _ => false
  end.

Definition axios_reply (w : World) (req : Request) : Throws Json * N :=
  if String.eqb (url req) SignatureDecoder.FOUR_BYTE_API then
    if paramIs req "hex_signature" "0xa9059cbb"
    then (Ok (fourByteReply ["many_msg_babbage(bytes1)"; "transfer(address,uint256)"]), 80%N)
    else if paramIs req "hex_signature" "0x40c10f19"
    then (Ok (fourByteReply ["mint(address,uint256)"]), 80%N)
    else (Ok (fourByteReply []), 80%N)
  else
    if paramIs req "address" usdc
    then (Ok (etherscanReply "1" "OK" "[balanceOf(address)]"), 20%N)
    else if paramIs req "address" dai
    then (Ok (etherscanReply "1" "OK" "[mint(uint256),mint(address,uint256)]"), 20%N)
    else if paramIs req "address" unreachable
    then (Thrown (LibraryError "AxiosError" "timeout of 10000ms exceeded"), 10000%N)
    else (Ok (etherscanReply "0" "NOTOK" "Contract source code not verified"), 20%N).

Definition environment : Environment :=
  Build_Environment decodeFunctionData parseAbi parseFunction JSON_parse ToString axios_reply
    (Some "YourApiKeyToken").

Definition decoder : MulticallDecoder.t :=
  @MulticallDecoder.new environment
    {| DecoderOptions.etherscanApiKey := None; DecoderOptions.network := None;
       DecoderOptions.verbose := None |}.

Definition etherscan : EtherscanClient.t := MulticallDecoder.etherscanClient decoder.
Definition directory : SignatureDecoder.t := MulticallDecoder.signatureDecoder decoder.

Definition world : World := {| now := 1700000000000; outbound := []; console := [] |}.

End Fixture.

(* ------------------------------------------------------------------ *)
(** ** Notions used in the statements *)

Section Notions.
Context `{Environment}.

(** The envelope shapes in the order in which [parseMulticallData] tries
    them: the human-readable ABI, the function name and the position of the
    calls array among the arguments. *)
Definition shapes : list (string * string * nat) :=
  [(MulticallDecoder.aggregate3_signature, "aggregate3", 0%nat);
   (MulticallDecoder.aggregate_signature, "aggregate", 0%nat);
   (MulticallDecoder.tryAggregate_signature, "tryAggregate", 1%nat);
   (MulticallDecoder.tryBlockAndAggregate_signature, "tryBlockAndAggregate", 1%nat)].

(** A probe succeeds when viem decodes the payload against the shape's ABI
    and the result is the shape's function with an array of calls at the
    shape's position; it then yields that array. *)
Definition probe (shape : string * string * nat) (data : string) : option (list AbiValue) :=
  let '(signature, name, index) := shape in
  match decodeFunctionData (parseAbi [signature]) data with
  | Ok decoded =>
      if String.eqb (Decoded.functionName decoded) name then
        match Decoded.args decoded with
        | Some args => isArray (args !! index)
        | None => None
        end
      else None
  | Thrown _ => None
  end.

(** The pair kept from one element of the calls array. *)
Definition toCall (call : AbiValue) : MulticallCall.t :=
  {| MulticallCall.target := prop call "target";
     MulticallCall.callData := prop call "callData" |}.

(** What the catch clause of [parseMulticallData] leaves behind when it
    rethrows: a line on the console of a verbose decoder. *)
Definition reported (d : MulticallDecoder.t) (w : World) : World :=
  if MulticallDecoder.verbose d
  then {| now := now w; outbound := outbound w;
          console := console w
                     ++ [("Error parsing multicall data: " ++ describe UnrecognizedEnvelope)%string] |}
  else w.

(** The outcome of the Etherscan branch of [decodeCall]: a call when the
    registry gave a truthy value and the [try] block ran to its [return]. *)
Definition viaRegistry (abi : Abi) (target callData : string) : option DecodedCall.t :=
  if jtruthy (Some abi) then
    match MulticallDecoder.decodeWithAbi abi target callData with
    | Ok call => Some call
    | Thrown _ => None
    end
  else None.

(** A call reported with its undecoded payload: the text after the first
    ten characters ("0x" and the eight digits of the selector) as the only
    argument. *)
Definition rawCall (name signature target callData : string) : DecodedCall.t :=
  {| DecodedCall.target := target;
     DecodedCall.functionName := name;
     DecodedCall.functionSignature := signature;
     DecodedCall.args := Some [VString (JsString.slice_from 10 callData)];
     DecodedCall.rawCallData := callData |}.

(** The outcome of the 4byte branch of [decodeCall] for the candidates the
    directory gave. *)
Definition viaDirectory (signatures : list FunctionSignature.t) (target callData : string)
  : DecodedCall.t :=
  match signatures with
  | [] => rawCall "unknown" (JsString.slice_to 10 callData) target callData
  | first :: _ =>
      match MulticallDecoder.trySignatures signatures target callData with
      | Some call => call
      | None => rawCall (FunctionSignature.name first) (FunctionSignature.signature first)
                        target callData
      end
  end.

(** The registry gave an interface that decodes the payload: the value is
    truthy, viem decodes the payload against it, and the declared types of
    the function are read from it without an exception. *)
Definition registryDecodes (abi : Abi) (callData : string) : bool :=
  jtruthy (Some abi)
  && match decodeFunctionData abi callData with
     | Ok decoded =>
         match MulticallDecoder.findFragment abi (Decoded.functionName decoded) with
         | Ok functionFragment =>
             match MulticallDecoder.signatureOf decoded functionFragment with
             | Ok _ => true
             | Thrown _ => false
             end
         | Thrown _ => false
         end
     | Thrown _ => false
     end.

(** The signature of a candidate parses and viem decodes the payload
    against it. *)
Definition candidateDecodes (callData : string) (sig : FunctionSignature.t) : bool :=
  match parseAbiItem ("function " ++ FunctionSignature.signature sig) with
  | Ok abiItem =>
      match decodeFunctionData (JArray [abiItem]) callData with
      | Ok _ => true
      | Thrown _ => false
      end
  | Thrown _ => false
  end.

(** Resolution could not decode the parameters: the registry gave nothing
    that decodes the payload, and neither did the directory (no candidate at
    all, or none that decodes). *)
Definition couldNotDecode (abi : Abi) (signatures : list FunctionSignature.t)
    (callData : string) : bool :=
  negb (registryDecodes abi callData)
  && negb (existsb (candidateDecodes callData) signatures).

(** The caches of a decoder hold what resolving the pair reads: the
    interface of the target and, unless that interface decodes the call
    data (the directory is then not consulted), the candidates of the
    selector. *)
Definition populated (d : MulticallDecoder.t) (target callData : string) : Prop :=
  ∃ abi,
    EtherscanClient.cache (MulticallDecoder.etherscanClient d)
      !! JsString.toLowerCase target = Some abi
    ∧ (registryDecodes abi callData = true
       ∨ is_Some (SignatureDecoder.cache (MulticallDecoder.signatureDecoder d)
                    !! SignatureDecoder.normalize (JsString.slice_to 10 callData))).

End Notions.

(** The same libraries with the network down: every HTTP exchange fails. *)
Definition offline (E : Environment) : Environment :=
  {| decodeFunctionData := @decodeFunctionData E;
     parseAbi := @parseAbi E;
     parseAbiItem := @parseAbiItem E;
     JSON_parse := @JSON_parse E;
     ToString := @ToString E;
     axios_reply := fun _ _ => (Thrown (LibraryError "AxiosError" "Network Error"), 0%N);
     ETHERSCAN_API_KEY := @ETHERSCAN_API_KEY E |}.

(** Pacing of a log of outbound requests: every request leaves at least
    [interval] milliseconds after the one before it. *)
Fixpoint paced (interval : Z) (log : list (Z * Request)) : bool :=
  match log with
  | (t1, _) :: (((t2, _) :: _) as rest) => (interval <=? t2 - t1) && paced interval rest
  | _ => true
  end.

(* ------------------------------------------------------------------ *)
(** ** signature-decoder.ts: selectors from signatures *)

(** viem's [keccak256] and [toHex]. *)
Class Hashing : Type :=
  { keccak256 : string -> string;
    toHex : string -> string }.

Module Selector.
Section Methods.
Context `{Hashing}.

Definition generateSelector (signature : string) : string :=
  let hash := keccak256 (toHex signature) in
  JsString.slice_to 10 hash.

Definition verifySignature (signature selector : string) : bool :=
  String.eqb (generateSelector signature) (JsString.toLowerCase selector).

End Methods.
End Selector.

(* ------------------------------------------------------------------ *)
(** ** etherscan-client.ts: the other methods *)

(** What the JavaScript runtime does with values whose conversion is not
    spelled out here: [v > 0] for a string, an array or an object (the
    conversion of an object to a number may raise), [String(n)] for a
    number, [JSON.stringify] (with the bigint replacer of the sources) for a
    decoded object, and [error.response?.status] for a caught error. *)
Class Runtime : Type :=
  { greaterThanZero : Json -> Throws bool;
    numberToString : Z -> string;
    stringify : AbiValue -> string;
    responseStatus : JsError -> option Z }.

(** [x.length] on a response value. *)
Definition jlength (x : Json) : Throws (option Json) :=
  match x with
  | JNull => Thrown (TypeError "Cannot read properties of null (reading 'length')")
  | JString s => Ok (Some (JNumber (Z.of_nat (String.length s))))
  | JArray elems => Ok (Some (JNumber (Z.of_nat (length elems))))
  | JObject fields => Ok (assoc "length" fields)
  | _ => Ok None
  end.

(** [v > 0] *)
Definition positive `{Runtime} (v : option Json) : Throws bool :=
  match v with
  | None | Some JNull => Ok false
  | Some (JBool b) => Ok b
  | Some (JNumber n) => Ok (0 <? n)
  | Some v => greaterThanZero v
  end.

(** A value of a response body in a template literal. *)
Definition template `{Environment} (v : option Json) : Throws string :=
  match v with
  | None => Ok "undefined"
  | Some (JString s) => Ok s
  | Some v => ToString v
  end.

(** [x[0]] on a value that is not [null]. *)
Definition jfirst (x : Json) : option Json :=
  match x with
  | JArray elems => head elems
  | JString (String c _) => Some (JString (String c EmptyString))
  | JObject fields => assoc "0" fields
  | _ => None
  end.

(** [hay.includes(needle)] on strings. *)
Fixpoint contains (hay needle : string) : bool :=
  if JsString.startsWith hay needle then true
  else match hay with
       | EmptyString => false
       | String _ rest => contains rest needle
       end.

(** [x.includes(needle)] for a string [needle]: strings and arrays have the
    method, nothing else does. *)
Definition jincludes (x : option Json) (needle : string) : Throws bool :=
  match x with
  | Some (JString s) => Ok (contains s needle)
  | Some (JArray elems) =>
      Ok (existsb (fun e => match e with
                            | JString s => String.eqb s needle
                            | _ => false
                            end) elems)
  | _ => Thrown (TypeError "includes is not a function")
  end.

(** [error.message] *)
Definition messageOf (e : JsError) : string :=
  match e with
  | Error m | TypeError m | LibraryError _ m => m
  end.

Module Registry.

Definition set_apiKey (key : option string) (self : EtherscanClient.t) : EtherscanClient.t :=
  {| EtherscanClient.cache := EtherscanClient.cache self;
     EtherscanClient.nameCache := EtherscanClient.nameCache self;
     EtherscanClient.apiKey := key;
     EtherscanClient.baseUrl := EtherscanClient.baseUrl self;
     EtherscanClient.chainId := EtherscanClient.chainId self;
     EtherscanClient.verbose := EtherscanClient.verbose self;
     EtherscanClient.lastRequestTime := EtherscanClient.lastRequestTime self;
     EtherscanClient.minRequestInterval := EtherscanClient.minRequestInterval self |}.

Definition set_caches (abis : gmap string Abi) (names : gmap string string)
    (self : EtherscanClient.t) : EtherscanClient.t :=
  {| EtherscanClient.cache := abis;
     EtherscanClient.nameCache := names;
     EtherscanClient.apiKey := EtherscanClient.apiKey self;
     EtherscanClient.baseUrl := EtherscanClient.baseUrl self;
     EtherscanClient.chainId := EtherscanClient.chainId self;
     EtherscanClient.verbose := EtherscanClient.verbose self;
     EtherscanClient.lastRequestTime := EtherscanClient.lastRequestTime self;
     EtherscanClient.minRequestInterval := EtherscanClient.minRequestInterval self |}.

(** [this.cache.clear(); this.nameCache.clear()] *)
Definition clearCache : Js EtherscanClient.t unit :=
  let* self := this in
  assign (set_caches ∅ ∅ self).

(** [this.apiKey = apiKey]; nothing else is assigned. *)
Definition setApiKey (apiKey : string) : Js EtherscanClient.t unit :=
  let* self := this in
  assign (set_apiKey (Some apiKey) self).

Section Methods.
Context `{Environment} `{Runtime}.

Definition isContractVerified (address : string) : Js EtherscanClient.t bool :=
  let* abi := EtherscanClient.getContractAbi address in
  ret (match abi with JNull => false | _ => true end).

(** The report of a reply that is not a source record: the second [if] of
    [getSourceCodeInfo]. *)
Definition reportReply (address : string) (data : Json) : Js EtherscanClient.t unit :=
  let* status := lift (jprop data "status") in
  let* message := lift (jprop data "message") in
  if strictEq status "0" && jtruthy message then
    let* rateLimited := lift (jincludes message "rate limit") in
    if rateLimited then
      console_error ("⚠️  Rate limit reached for " ++ address)
    else
      let* result := lift (jprop data "result") in
      let* invalidKey := if jtruthy result
                         then lift (jincludes result "Invalid API Key")
                         else ret false in
      if invalidKey then
        console_error "❌ Invalid Etherscan API key"
      else
        let* text := lift (template message) in
        console_error ("⚠️  Etherscan API error: " ++ text)
  else ret tt.

(** What [getSourceCodeInfo] does with the reply: the first element of a
    non-empty [result] of a reply with status 1 is returned as it is
    ([None] for [undefined]); any other reply is reported and gives
    [null]. *)
Definition readReply (address : string) (data : Json) : Js EtherscanClient.t (option Json) :=
  let* status := lift (jprop data "status") in
  let* found :=
    if strictEq status "1" then
      let* result := lift (jprop data "result") in
      match result with
      | Some result =>
          if jtruthy (Some result) then
            let* len := lift (jlength result) in
            let* some := lift (positive len) in
            ret (if some then Some (jfirst result) else None)
          else ret None
      | None => ret None
      end
    else ret None in
  match found with
  | Some first => ret first
  | None =>
      let* _ := reportReply address data in
      ret (Some JNull)
  end.

(** The [catch] clause of [getSourceCodeInfo]. *)
Definition reportFailure (address : string) (error : JsError)
  : Js EtherscanClient.t (option Json) :=
  let* _ :=
    if bool_decide (responseStatus error = Some 429)
    then console_error ("⚠️  Rate limit reached for " ++ address)
    else console_error ("Failed to fetch contract info for " ++ address ++ ": "
                        ++ messageOf error) in
  ret (Some JNull).

Definition getSourceCodeInfo (address : string) : Js EtherscanClient.t (option Json) :=
  let normalizedAddress := JsString.toLowerCase address in
  let* _ := EtherscanClient.throttle in
  try_catch
    (let* self := this in
     let params :=
       [("chainid", PNum (EtherscanClient.chainId self)); ("module", PStr "contract");
        ("action", PStr "getsourcecode"); ("address", PStr normalizedAddress)] in
     let params :=
       match EtherscanClient.apiKey self with
       | Some key =>
           if JsString.truthy key then (params ++ [("apikey", PStr key)])%list else params
       | None => params
       end in
     let* data := axios_get {| url := EtherscanClient.baseUrl self;
                               params := params; timeout := 10000 |} in
     readReply address data)
    (reportFailure address).

End Methods.
End Registry.

(* ------------------------------------------------------------------ *)
(** ** decoder.ts: decodeMulticall *)

Module Batch.
Section Methods.
Context `{Environment}.

(** [this.decodeCall(call.target, call.callData)] on the fields as they were
    copied from the decoded tuple.  viem gives strings for an address and
    for bytes.  Any other value ends in a [TypeError]: [callData.slice] is
    missing on everything but a string or an array, [address.toLowerCase]
    in [getContractAbi] is missing on everything but a string, and an array
    as call data gets through [slice] and the registry lookup (viem finds
    no selector in it) and fails at [selector.toLowerCase] in
    [lookupSelector]. *)
Definition decodeCallOf (call : MulticallCall.t) : Js MulticallDecoder.t DecodedCall.t :=
  let missing (method : string) :=
    TypeError ("Cannot read properties of undefined (reading '" ++ method ++ "')") in
  match MulticallCall.callData call with
  | Some (VString callData) =>
      match MulticallCall.target call with
      | Some (VString target) => MulticallDecoder.decodeCall target callData
      | Some _ => throw (TypeError "address.toLowerCase is not a function")
      | None => throw (missing "toLowerCase")
      end
  | Some (VArray _) =>
      match MulticallCall.target call with
      | Some (VString target) =>
          let* _ := on MulticallDecoder.etherscanClient MulticallDecoder.set_etherscanClient
                       (EtherscanClient.getContractAbi target) in
          throw (TypeError "selector.toLowerCase is not a function")
      | Some _ => throw (TypeError "address.toLowerCase is not a function")
      | None => throw (missing "toLowerCase")
      end
  | Some _ => throw (TypeError "callData.slice is not a function")
  | None => throw (missing "slice")
  end.

(** [for (const call of calls) { decodedCalls.push(await this.decodeCall(...)) }] *)
Fixpoint decodeEach (calls : list MulticallCall.t) (decodedCalls : list DecodedCall.t)
  : Js MulticallDecoder.t (list DecodedCall.t) :=
  match calls with
  | [] => ret decodedCalls
  | call :: rest =>
      let* decoded := decodeCallOf call in
      decodeEach rest (decodedCalls ++ [decoded])%list
  end.

Definition decodeMulticall (data : string) : Js MulticallDecoder.t (list DecodedCall.t) :=
  let* calls := MulticallDecoder.parseMulticallData data in
  decodeEach calls [].

End Methods.

(** Both fields of an extracted call are strings. *)
Definition wellTyped (call : MulticallCall.t) : bool :=
  match MulticallCall.target call, MulticallCall.callData call with
  | Some (VString _), Some (VString _) => true
  | _, _ => false
  end.

(** A decoded call answers an extracted call: same target, same call data. *)
Definition answers (call : MulticallCall.t) (decoded : DecodedCall.t) : Prop :=
  MulticallCall.target call = Some (VString (DecodedCall.target decoded))
  ∧ MulticallCall.callData call = Some (VString (DecodedCall.rawCallData decoded)).

End Batch.

(* ------------------------------------------------------------------ *)
(** ** The command line: truncateString and formatArgument *)

(** The styles of chalk the sources use. *)
Class Chalk : Type :=
  { gray : string -> string;
    bold_cyan : string -> string;
    bold_blue : string -> string;
    bold_yellow : string -> string }.

Module Cli.

(** The position an integer argument of [slice] stands for in a string of
    length [len]: negative arguments count from the end. *)
Definition position (len i : Z) : Z :=
  if i <? 0 then Z.max (len + i) 0 else Z.min i len.

(** [s.slice(start, end)] *)
Definition slice (s : string) (start end_ : Z) : string :=
  let len := Z.of_nat (String.length s) in
  let from := position len start in
  let to := position len end_ in
  JsString.slice_to (Z.to_nat (to - from)) (JsString.slice_from (Z.to_nat from) s).

(** [s.slice(start)] *)
Definition sliceFrom (s : string) (start : Z) : string :=
  slice s start (Z.of_nat (String.length s)).

Definition truncateString (str : string) (maxLength : Z) : string :=
  if Z.of_nat (String.length str) <=? maxLength then str
  else
    let half := (maxLength - 3) / 2 in
    slice str 0 half ++ "..." ++ sliceFrom str (- half).

(** [n.toString(16)] for a bigint. *)
Definition toString16 (n : Z) : string :=
  match n with
  | Z0 => "0"
  | Zpos p => JsString.slice_from 2 (HexString.of_Z (Zpos p))
  | Zneg p => "-" ++ JsString.slice_from 2 (HexString.of_Z (Zpos p))
  end.

Section Methods.
Context `{Runtime} `{Chalk}.

Fixpoint formatArgument (arg : AbiValue) : string :=
  match arg with
  | VBigInt n => pretty n ++ " (" ++ gray ("0x" ++ toString16 n) ++ ")"
  | VString s =>
      if JsString.startsWith s "0x" && (50 <? Z.of_nat (String.length s))
      then truncateString s 50
      else s
  | VArray elems =>
      match elems with
      | [] => "[]"
      | a :: b :: c :: _ :: _ =>
          "[" ++ JsString.join ", " [formatArgument a; formatArgument b; formatArgument c]
          ++ ", ... " ++ pretty (Z.of_nat (length elems) - 3) ++ " more]"
      | _ => "[" ++ JsString.join ", " (map formatArgument elems) ++ "]"
      end
  | VObject _ => stringify arg
  | VBool b => if b then "true" else "false"
  | VNumber n => numberToString n
  end.

End Methods.
End Cli.

(* ------------------------------------------------------------------ *)
(** ** explainer.ts: formatOutput *)

Module Explainer.

(** [s.split(sep)] for a one-character separator. *)
Fixpoint split (sep : ascii) (s : string) : list string :=
  match s with
  | EmptyString => [EmptyString]
  | String c s' =>
      if Ascii.eqb c sep then EmptyString :: split sep s'
      else match split sep s' with
           | line :: lines => String c line :: lines
           | [] => [String c EmptyString]
           end
  end.

(** [s.replace(pattern, replacement)] for a string pattern: the first
    occurrence is replaced. *)
Fixpoint replace (s pattern replacement : string) : string :=
  if JsString.startsWith s pattern
  then replacement ++ JsString.slice_from (String.length pattern) s
  else match s with
       | EmptyString => EmptyString
       | String c s' => String c (replace s' pattern replacement)
       end.

Definition newline : ascii := ascii_of_nat 10.

Section Methods.
Context `{Chalk}.

(** The body of the loop of [formatOutput]. *)
Definition formatLine (line : string) : string :=
  if JsString.startsWith line "## " then bold_cyan (replace line "## " "")
  else if JsString.startsWith line "# " then bold_blue (replace line "# " "")
  else if JsString.startsWith line "### " then bold_yellow (replace line "### " "")
  else line.

Definition formatOutput (text : string) : string :=
  let lines := split newline text in
  JsString.join (String newline EmptyString) (map formatLine lines).

End Methods.

(** A line that [formatOutput] takes for a header. *)
Definition isHeader (line : string) : bool :=
  JsString.startsWith line "## " || JsString.startsWith line "# "
  || JsString.startsWith line "### ".

End Explainer.

(* ------------------------------------------------------------------ *)
(** ** Further notions used in the statements *)

(** A selector without its 0x prefix, if it has one. *)
Definition strip0x (s : string) : string :=
  if JsString.startsWith s "0x" then JsString.slice_from 2 s else s.

(** Two spellings of one selector: equal up to the case of the letters and
    an optional 0x prefix. *)
Definition spelledAlike (s s' : string) : Prop :=
  strip0x (JsString.toLowerCase s) = strip0x (JsString.toLowerCase s').

(** The time at which the last request of a log was sent is not after [t]. *)
Definition lastSentBy (t : Z) (log : list (Z * Request)) : Prop :=
  match last log with
  | Some (sent, _) => sent <= t
  | None => True
  end.

(** The pacing invariant of a client: the log is paced at the interval of
    the client, and the client has recorded a time that is not before the
    last request. *)
Definition wellPaced (c : EtherscanClient.t) (w : World) : Prop :=
  0 <= EtherscanClient.minRequestInterval c
  ∧ paced (EtherscanClient.minRequestInterval c) (outbound w) = true
  ∧ lastSentBy (EtherscanClient.lastRequestTime c) (outbound w).

(** A request of the Etherscan client for [address], with the key when one
    is configured. *)
Definition etherscanRequest (c : EtherscanClient.t) (action address : string) : Request :=
  {| url := EtherscanClient.baseUrl c;
     params :=
       [("chainid", PNum (EtherscanClient.chainId c)); ("module", PStr "contract");
        ("action", PStr action); ("address", PStr (JsString.toLowerCase address))]
       ++ (if EtherscanClient.configured (EtherscanClient.apiKey c)
           then [("apikey", PStr (default "" (EtherscanClient.apiKey c)))]
           else []);
     timeout := 10000 |}.

(** The request of the directory client for a selector. *)
Definition directoryRequest (selector : string) : Request :=
  {| url := SignatureDecoder.FOUR_BYTE_API;
     params := [("hex_signature", PStr (SignatureDecoder.normalize selector))];
     timeout := 10000 |}.

(** The world after an HTTP exchange that took [elapsed] milliseconds. *)
Definition exchanged (w : World) (req : Request) (elapsed : N) : World :=
  {| now := now w + Z.of_N elapsed;
     outbound := outbound w ++ [(now w, req)];
     console := console w |}.

(** The world after one more line on the console. *)
Definition printed (w : World) (line : string) : World :=
  {| now := now w; outbound := outbound w; console := console w ++ [line] |}.

(** The candidate made of a text signature of the directory. *)
Definition candidate (text_signature : string) : FunctionSignature.t :=
  {| FunctionSignature.name := JsString.split_head "(" text_signature;
     FunctionSignature.signature := text_signature |}.

(** One cache extends another: every entry of the first is in the second,
    unchanged. *)
Definition extends {V} (m m' : gmap string V) : Prop :=
  ∀ k v, m !! k = Some v → m' !! k = Some v.

(** A computation that changes nothing but the console. *)
Definition quiet {S A} (m : Js S A) : Prop :=
  ∀ s w, ∃ r w', m s w = (r, s, w') ∧ now w' = now w ∧ outbound w' = outbound w.

(** A computation that does not throw. *)
Definition returns {S A} (m : Js S A) : Prop :=
  ∀ s w, ∃ a s' w', m s w = (Ok a, s', w').

(** A second fixture: hashing, runtime conversions and styles. *)
Module Fixture2.

Definition hexPair (c : ascii) : string :=
  let n := nat_of_ascii c in
  let digit (d : nat) : ascii :=
    if Nat.ltb d 10 then ascii_of_nat (48 + d) else ascii_of_nat (87 + d) in
  String (digit (Nat.div n 16)) (String (digit (Nat.modulo n 16)) EmptyString).

Fixpoint hexOf (s : string) : string :=
  match s with
  | EmptyString => EmptyString
  | String c s' => hexPair c ++ hexOf s'
  end.

Definition toHex (s : string) : string := "0x" ++ hexOf s.

Definition keccak256 (hex : string) : string :=
  if String.eqb hex (toHex "transfer(address,uint256)")
  then "0xa9059cbb2ab09eb219583f4a59a5d0623ade346d962bcd4e46b11da047c9049b"
  else "0x0000000000000000000000000000000000000000000000000000000000000000".

Definition hashing : Hashing := Build_Hashing keccak256 toHex.

Definition runtime : Runtime :=
  Build_Runtime
    (fun _ => Ok false)
    (fun n => pretty n)
    (fun _ => "{}")
    (fun e => match e with
              | LibraryError _ "Request failed with status code 429" => Some 429
              | _ => None
              end).

Definition chalk : Chalk := Build_Chalk id id id id.

Definition proxy : string := "0x00000000000000000000000000000000000000cc".

(** A directory whose answer has one entry without a text signature. *)
Definition garbled : Environment :=
  Build_Environment Fixture.decodeFunctionData Fixture.parseAbi Fixture.parseFunction
    Fixture.JSON_parse Fixture.ToString
    (fun _ _ =>
       (Ok (JObject [("results",
                      JArray [JObject [("text_signature", JString "transfer(address,uint256)")];
                              JObject [("id", JNumber 5)]])]), 80%N))
    None.

(** An Etherscan that knows three more contracts; its replies for them
    have status 1, with results that parse to an interface with one function
    without parameters, to [null], and to an object. *)
Definition pausable : string := "0x00000000000000000000000000000000000000d1".
Definition nullified : string := "0x00000000000000000000000000000000000000d2".
Definition objected : string := "0x00000000000000000000000000000000000000d3".

Definition pauseCall : string := "0x8456cb59".

Definition JSON_parse (text : Json) : Throws Json :=
  match text with
  | JString "[pause()]" => Ok (JArray [Fixture.function "pause" []])
  | JString "{}" => Ok (JObject [])
  | _ => Fixture.JSON_parse text
  end.

Definition decodeFunctionData (abi : Abi) (data : string) : Throws Decoded.t :=
  match abi with
  | JArray items =>
      if String.eqb data pauseCall
         && existsb (fun item => String.eqb (Fixture.canonical item) "pause()") items
      then Ok {| Decoded.functionName := "pause"; Decoded.args := None |}
      else Fixture.decodeFunctionData abi data
  | _ => Fixture.decodeFunctionData abi data
  end.

Definition axios_reply (w : World) (req : Request) : Throws Json * N :=
  if String.eqb (url req) SignatureDecoder.FOUR_BYTE_API then Fixture.axios_reply w req
  else if Fixture.paramIs req "address" pausable
  then (Ok (Fixture.etherscanReply "1" "OK" "[pause()]"), 20%N)
  else if Fixture.paramIs req "address" nullified
  then (Ok (Fixture.etherscanReply "1" "OK" "null"), 20%N)
  else if Fixture.paramIs req "address" objected
  then (Ok (Fixture.etherscanReply "1" "OK" "{}"), 20%N)
  else Fixture.axios_reply w req.

Definition oddities : Environment :=
  Build_Environment decodeFunctionData Fixture.parseAbi Fixture.parseFunction
    JSON_parse Fixture.ToString axios_reply (Some "YourApiKeyToken").

End Fixture2.

(* ------------------------------------------------------------------ *)
(** ** The envelope detector *)

Section EnvelopeDetector.
Context `{Environment}.

Lemma push_calls_app calls elems :
  MulticallDecoder.push_calls calls elems = (calls ++ map toCall elems)%list.
Proof.
  unfold MulticallDecoder.push_calls.
  revert calls; induction elems as [|call elems IH]; intros calls; simpl.
  - by rewrite app_nil_r.
  - rewrite IH. by rewrite <- app_assoc.
Qed.

Lemma push_calls_nil elems : MulticallDecoder.push_calls [] elems = map toCall elems.
Proof. by rewrite push_calls_app. Qed.

Lemma attempt_probe signature name index data calls d w :
  MulticallDecoder.attempt signature name index data calls d w
  = (Ok match probe (signature, name, index) data with
        | Some elems => Some (MulticallDecoder.push_calls calls elems)
        | None => None
        end, d, w).
Proof.
  unfold MulticallDecoder.attempt, probe, try_catch, bind, lift, ret,
    MulticallDecoder.extract.
  destruct (decodeFunctionData (parseAbi [signature]) data) as [decoded|e]; [|done].
  destruct (String.eqb _ name); [|done].
  destruct (Decoded.args decoded) as [args|]; [|done].
  by destruct (isArray (args !! index)).
Qed.

Lemma parseMulticallData_eq data d w :
  MulticallDecoder.parseMulticallData data d w =
  match probe (MulticallDecoder.aggregate3_signature, "aggregate3", 0%nat) data with
  | Some elems => (Ok (map toCall elems), d, w)
  | None =>
  match probe (MulticallDecoder.aggregate_signature, "aggregate", 0%nat) data with
  | Some elems => (Ok (map toCall elems), d, w)
  | None =>
  match probe (MulticallDecoder.tryAggregate_signature, "tryAggregate", 1%nat) data with
  | Some elems => (Ok (map toCall elems), d, w)
  | None =>
  match probe (MulticallDecoder.tryBlockAndAggregate_signature, "tryBlockAndAggregate", 1%nat) data with
  | Some elems => (Ok (map toCall elems), d, w)
  | None => (Thrown UnrecognizedEnvelope, d, reported d w)
  end end end end.
Proof.
  unfold MulticallDecoder.parseMulticallData, try_catch.
  unfold bind at 1. rewrite attempt_probe.
  destruct (probe (_, "aggregate3", _) data) as [e0|]; cbv beta iota.
  { unfold ret. by rewrite push_calls_nil. }
  unfold bind at 1. rewrite attempt_probe.
  destruct (probe (_, "aggregate", _) data) as [e1|]; cbv beta iota.
  { unfold ret. by rewrite push_calls_nil. }
  unfold bind at 1. rewrite attempt_probe.
  destruct (probe (_, "tryAggregate", _) data) as [e2|]; cbv beta iota.
  { unfold ret. by rewrite push_calls_nil. }
  unfold bind at 1. rewrite attempt_probe.
  destruct (probe (_, "tryBlockAndAggregate", _) data) as [e3|]; cbv beta iota.
  { unfold ret. by rewrite push_calls_nil. }
  unfold throw, bind, this, reported, UnrecognizedEnvelope, console_error, ret.
  by destruct (MulticallDecoder.verbose d).
Qed.

(** C1. [parseMulticallData] tries the shapes aggregate3, aggregate,
    tryAggregate, tryBlockAndAggregate in this order.  If the probe of a
    shape succeeds and the probes of all earlier shapes fail, the method
    returns the (target, callData) pairs of that shape's calls array, in
    the order of the array and as many as the array has, whatever the later
    shapes would have given, and leaves the decoder and the world as they
    were.  It never throws anything but the unknown-format error, and it
    throws that error exactly when all four probes fail. *)
Theorem parseMulticallData_first_probe data d w :
  (∀ (k : nat) shape elems,
      shapes !! k = Some shape →
      probe shape data = Some elems →
      (∀ (j : nat) earlier, (j < k)%nat → shapes !! j = Some earlier →
                            probe earlier data = None) →
      MulticallDecoder.parseMulticallData data d w = (Ok (map toCall elems), d, w)
      ∧ length (map toCall elems) = length elems)
  ∧ (∀ e d' w', MulticallDecoder.parseMulticallData data d w = (Thrown e, d', w') →
                e = UnrecognizedEnvelope)
  ∧ ((∃ d' w', MulticallDecoder.parseMulticallData data d w
               = (Thrown UnrecognizedEnvelope, d', w'))
     ↔ ∀ shape, shape ∈ shapes → probe shape data = None).
Proof.
  rewrite parseMulticallData_eq. unfold shapes.
  split; [|split].
  - intros k shape elems Hk Hp Hearlier.
    split; [|by rewrite length_map].
    destruct k as [|[|[|[|k]]]]; simpl in Hk; [| | | |done];
      injection Hk as <-.
    + by rewrite Hp.
    + rewrite (Hearlier 0%nat _ ltac:(lia) eq_refl). by rewrite Hp.
    + rewrite (Hearlier 0%nat _ ltac:(lia) eq_refl).
      rewrite (Hearlier 1%nat _ ltac:(lia) eq_refl). by rewrite Hp.
    + rewrite (Hearlier 0%nat _ ltac:(lia) eq_refl).
      rewrite (Hearlier 1%nat _ ltac:(lia) eq_refl).
      rewrite (Hearlier 2%nat _ ltac:(lia) eq_refl). by rewrite Hp.
  - intros e d' w'.
    repeat (match goal with |- context [probe ?s data] => destruct (probe s data) end;
            [discriminate|]).
    congruence.
  - split.
    + intros (d' & w' & Hthrow) shape Hin.
      repeat (match type of Hthrow with context [probe ?s data] =>
                destruct (probe s data) eqn:? end; [discriminate|]).
      repeat (apply elem_of_cons in Hin as [->|Hin]; [done|]).
      by apply elem_of_nil in Hin.
    + intros Hall.
      rewrite !Hall by (repeat ((by left) || right)).
      eauto.
Qed.

End EnvelopeDetector.

(* ------------------------------------------------------------------ *)
(** ** The two gateways *)

Section Gateways.
Context `{Environment}.

Ltac run :=
  unfold try_catch, bind, lift, ret, this, assign, throw, on, axios_get,
    console_error, console_log, Date_now, sleep in *.

(** A path that returns without writing to the cache. *)
Ltac uncached := do 3 eexists; (split; [reflexivity|]); congruence.

(** A path on which the request has left. *)
Ltac sent := do 4 eexists; (split; [reflexivity|]); by split.

Lemma getContractAbi_hit address c w abi :
  EtherscanClient.cache c !! JsString.toLowerCase address = Some abi →
  EtherscanClient.getContractAbi address c w = (Ok abi, c, w).
Proof.
  intros Hhit. unfold EtherscanClient.getContractAbi. run. by rewrite Hhit.
Qed.

(** [getContractAbi] never throws, and whenever the cache holds an interface
    for the address afterwards, that interface is what was returned. *)
Lemma getContractAbi_spec address c w :
  ∃ r c' w',
    EtherscanClient.getContractAbi address c w = (Ok r, c', w')
    ∧ ∀ abi, EtherscanClient.cache c' !! JsString.toLowerCase address = Some abi →
             r = abi.
Proof.
  destruct (EtherscanClient.cache c !! JsString.toLowerCase address) as [abi|] eqn:Hc.
  { rewrite (getContractAbi_hit _ _ _ _ Hc). uncached. }
  unfold EtherscanClient.getContractAbi. run. rewrite Hc.
  destruct (axios_reply w _) as [[data|e] elapsed]; cbv beta iota.
  2: uncached.
  destruct (jprop data "status") as [status|e]; cbv beta iota.
  2: uncached.
  destruct (strictEq status "1"); cbv beta iota.
  2: uncached.
  destruct (jprop data "result") as [[result|]|e]; cbv beta iota.
  2,3: uncached.
  destruct (jtruthy (Some result)); cbv beta iota.
  2: uncached.
  destruct (JSON_parse result) as [abi|e]; cbv beta iota.
  2: uncached.
  do 3 eexists. split; [done|]. simpl. intros abi'.
  rewrite lookup_insert_eq. congruence.
Qed.

Lemma lookupSelector_hit selector sd w signatures :
  SignatureDecoder.cache sd !! SignatureDecoder.normalize selector = Some signatures →
  SignatureDecoder.lookupSelector selector sd w = (Ok signatures, sd, w).
Proof.
  intros Hhit. unfold SignatureDecoder.lookupSelector. run. by rewrite Hhit.
Qed.

(** [lookupSelector] never throws, and whenever the cache holds candidates
    for the selector afterwards, they are what was returned. *)
Lemma lookupSelector_spec selector sd w :
  ∃ r sd' w',
    SignatureDecoder.lookupSelector selector sd w = (Ok r, sd', w')
    ∧ ∀ signatures,
        SignatureDecoder.cache sd' !! SignatureDecoder.normalize selector = Some signatures →
        r = signatures.
Proof.
  destruct (SignatureDecoder.cache sd !! SignatureDecoder.normalize selector)
    as [signatures|] eqn:Hc.
  { rewrite (lookupSelector_hit _ _ _ _ Hc). uncached. }
  unfold SignatureDecoder.lookupSelector. run. rewrite Hc.
  destruct (axios_reply w _) as [[data|e] elapsed]; cbv beta iota.
  2: uncached.
  destruct (jtruthy (Some data)); cbv beta iota.
  2: uncached.
  destruct (jprop data "results") as [results|e]; cbv beta iota.
  2: uncached.
  destruct (jtruthy results); cbv beta iota.
  2: uncached.
  destruct (SignatureDecoder.mapResults results) as [signatures|e]; cbv beta iota.
  2: uncached.
  do 3 eexists. split; [done|]. simpl. intros signatures'.
  rewrite lookup_insert_eq. congruence.
Qed.

(** The pacing gate: [throttle] returns no earlier than one interval after
    the last recorded request, records the time at which it returns, and
    sends nothing itself. *)
Lemma throttle_spec c w :
  ∃ c' w',
    EtherscanClient.throttle c w = (Ok tt, c', w')
    ∧ EtherscanClient.minRequestInterval c
      <= now w' - EtherscanClient.lastRequestTime c
    ∧ EtherscanClient.lastRequestTime c' = now w'
    ∧ EtherscanClient.minRequestInterval c' = EtherscanClient.minRequestInterval c
    ∧ outbound w' = outbound w.
Proof.
  unfold EtherscanClient.throttle. run.
  destruct (_ <? _) eqn:Hlt.
  - apply Z.ltb_lt in Hlt. destruct (EtherscanClient.verbose c);
      do 2 eexists; (split; [reflexivity|]); simpl; split_and!; try done; lia.
  - apply Z.ltb_ge in Hlt.
    do 2 eexists; (split; [reflexivity|]); simpl; split_and!; try done; lia.
Qed.

(** The interval chosen by the constructor: 250 ms with an API key, 1000 ms
    without. *)
Lemma minRequestInterval_new config :
  EtherscanClient.minRequestInterval (EtherscanClient.new config)
  = if EtherscanClient.configured (EtherscanClient.apiKey (EtherscanClient.new config))
    then 250 else 1000.
Proof. done. Qed.

(** [getContractAbi] does not go through the gate: on a cache miss the
    request leaves at once, whatever the time of the last request, and the
    recorded time of the last request stays as it was. *)
Lemma getContractAbi_sends_at_once address c w :
  EtherscanClient.cache c !! JsString.toLowerCase address = None →
  ∃ r c' w' req,
    EtherscanClient.getContractAbi address c w = (r, c', w')
    ∧ outbound w' = (outbound w ++ [(now w, req)])%list
    ∧ EtherscanClient.lastRequestTime c' = EtherscanClient.lastRequestTime c.
Proof.
  intros Hmiss. unfold EtherscanClient.getContractAbi. run. rewrite Hmiss.
  destruct (axios_reply w _) as [[data|e] elapsed]; cbv beta iota.
  2: sent.
  destruct (jprop data "status") as [status|e]; cbv beta iota.
  2: sent.
  destruct (strictEq status "1"); cbv beta iota.
  2: sent.
  destruct (jprop data "result") as [[result|]|e]; cbv beta iota.
  2,3: sent.
  destruct (jtruthy (Some result)); cbv beta iota.
  2: sent.
  destruct (JSON_parse result) as [abi|e]; cbv beta iota; sent.
Qed.

End Gateways.

(* ------------------------------------------------------------------ *)
(** ** The call resolver *)

Section CallResolver.
Context `{Environment}.

(** [decodeCall] in terms of what the two gateways do: the registry is
    asked first; the directory is asked only when the registry branch gives
    no call, and it starts from the world the registry left. *)
Lemma decodeCall_eq target callData d w :
  MulticallDecoder.decodeCall target callData d w =
  let '(r, c', w1) :=
    EtherscanClient.getContractAbi target (MulticallDecoder.etherscanClient d) w in
  let d1 := MulticallDecoder.set_etherscanClient c' d in
  match r with
  | Thrown e => (Thrown e, d1, w1)
  | Ok abi =>
      match viaRegistry abi target callData with
      | Some call => (Ok call, d1, w1)
      | None =>
          let '(r2, sd', w2) :=
            SignatureDecoder.lookupSelector (JsString.slice_to 10 callData)
              (MulticallDecoder.signatureDecoder d) w1 in
          let d2 := MulticallDecoder.set_signatureDecoder sd' d1 in
          match r2 with
          | Thrown e => (Thrown e, d2, w2)
          | Ok signatures => (Ok (viaDirectory signatures target callData), d2, w2)
          end
      end
  end.
Proof.
  unfold MulticallDecoder.decodeCall, bind at 1, on at 1.
  destruct (EtherscanClient.getContractAbi _ _ _) as [[[abi|e] c'] w1]; [|done].
  cbv zeta. unfold bind at 1.
  assert (Hreg :
    (if jtruthy (Some abi)
     then
       try_catch
         (let* call := lift (MulticallDecoder.decodeWithAbi abi target callData)
          in ret (Some call))
         (λ _ : JsError, ret None)
     else ret None) (MulticallDecoder.set_etherscanClient c' d) w1
    = (Ok (viaRegistry abi target callData), MulticallDecoder.set_etherscanClient c' d, w1)).
  { unfold viaRegistry, try_catch, bind, lift, ret. destruct (jtruthy (Some abi)); [|done].
    by destruct (MulticallDecoder.decodeWithAbi abi target callData). }
  rewrite Hreg. clear Hreg.
  destruct (viaRegistry abi target callData) as [call|]; [done|].
  unfold bind at 1, on at 1. simpl MulticallDecoder.signatureDecoder.
  destruct (SignatureDecoder.lookupSelector _ _ _) as [[[signatures|e] sd'] w2]; [|done].
  unfold viaDirectory, rawCall, ret.
  destruct signatures as [|first rest]; [done|].
  by destruct (MulticallDecoder.trySignatures _ _ _).
Qed.

Lemma slice_to_from n s : (JsString.slice_to n s ++ JsString.slice_from n s)%string = s.
Proof.
  revert s; induction n as [|n IH]; intros [|c s]; try done.
  change (String c (JsString.slice_to n s ++ JsString.slice_from n s) = String c s).
  by rewrite IH.
Qed.

Lemma slice_short n s :
  (String.length s <= n)%nat → JsString.slice_to n s = s ∧ JsString.slice_from n s = "".
Proof.
  revert s; induction n as [|n IH]; intros [|c s]; simpl; intros Hlen; try done; try lia.
  destruct (IH s) as [-> ->]; [lia|done].
Qed.

Lemma viaRegistry_None abi target callData :
  viaRegistry abi target callData = None ↔ registryDecodes abi callData = false.
Proof.
  unfold viaRegistry, registryDecodes, MulticallDecoder.decodeWithAbi.
  destruct (jtruthy (Some abi)); [|done].
  destruct (decodeFunctionData abi callData) as [decoded|e]; [|done].
  destruct (MulticallDecoder.findFragment abi _) as [functionFragment|e]; [|done].
  by destruct (MulticallDecoder.signatureOf decoded functionFragment).
Qed.

Lemma viaRegistry_Some abi target callData call :
  viaRegistry abi target callData = Some call →
  ∃ decoded,
    jtruthy (Some abi) = true ∧ decodeFunctionData abi callData = Ok decoded
    ∧ DecodedCall.target call = target
    ∧ DecodedCall.functionName call = Decoded.functionName decoded
    ∧ DecodedCall.args call = Decoded.args decoded
    ∧ DecodedCall.rawCallData call = callData.
Proof.
  unfold viaRegistry, MulticallDecoder.decodeWithAbi.
  destruct (jtruthy (Some abi)); [|done].
  destruct (decodeFunctionData abi callData) as [decoded|e] eqn:Hd; [|done].
  destruct (MulticallDecoder.findFragment abi _) as [functionFragment|e]; [|done].
  destruct (MulticallDecoder.signatureOf decoded functionFragment) as [signature|e]; [|done].
  intros [= <-]. by exists decoded.
Qed.

Lemma trySignatures_None signatures target callData :
  MulticallDecoder.trySignatures signatures target callData = None
  ↔ existsb (candidateDecodes callData) signatures = false.
Proof.
  induction signatures as [|sig rest IH]; simpl; [done|].
  unfold MulticallDecoder.decodeWithSignature, candidateDecodes at 1.
  destruct (parseAbiItem _) as [abiItem|e]; [|by rewrite IH].
  destruct (decodeFunctionData (JArray [abiItem]) callData) as [decoded|e]; [done|by rewrite IH].
Qed.

Lemma trySignatures_Some signatures target callData call :
  MulticallDecoder.trySignatures signatures target callData = Some call →
  ∃ sig abiItem decoded,
    sig ∈ signatures
    ∧ parseAbiItem ("function " ++ FunctionSignature.signature sig) = Ok abiItem
    ∧ decodeFunctionData (JArray [abiItem]) callData = Ok decoded
    ∧ call = {| DecodedCall.target := target;
                DecodedCall.functionName := FunctionSignature.name sig;
                DecodedCall.functionSignature := FunctionSignature.signature sig;
                DecodedCall.args := Some (default [] (Decoded.args decoded));
                DecodedCall.rawCallData := callData |}.
Proof.
  induction signatures as [|sig rest IH]; simpl; [done|].
  unfold MulticallDecoder.decodeWithSignature at 1.
  destruct (parseAbiItem _) as [abiItem|e] eqn:Hp.
  - destruct (decodeFunctionData (JArray [abiItem]) callData) as [decoded|e] eqn:Hd.
    + intros [= <-]. exists sig, abiItem, decoded. split_and!; [by left|done..].
    + intros (sig' & ? & ? & ? & ? & ? & ?)%IH.
      eexists sig', _, _. split_and!; [by right|done..].
  - intros (sig' & ? & ? & ? & ? & ? & ?)%IH.
    eexists sig', _, _. split_and!; [by right|done..].
Qed.

(** The loop over the candidates returns at the first candidate that parses
    and decodes: no candidate before it does. *)
Lemma trySignatures_first signatures target callData call :
  MulticallDecoder.trySignatures signatures target callData = Some call →
  ∃ before sig after abiItem decoded,
    signatures = (before ++ sig :: after)%list
    ∧ existsb (candidateDecodes callData) before = false
    ∧ parseAbiItem ("function " ++ FunctionSignature.signature sig) = Ok abiItem
    ∧ decodeFunctionData (JArray [abiItem]) callData = Ok decoded
    ∧ call = {| DecodedCall.target := target;
                DecodedCall.functionName := FunctionSignature.name sig;
                DecodedCall.functionSignature := FunctionSignature.signature sig;
                DecodedCall.args := Some (default [] (Decoded.args decoded));
                DecodedCall.rawCallData := callData |}.
Proof.
  induction signatures as [|sig rest IH]; simpl; [done|].
  unfold MulticallDecoder.decodeWithSignature at 1.
  destruct (parseAbiItem _) as [abiItem|e] eqn:Hp.
  - destruct (decodeFunctionData (JArray [abiItem]) callData) as [decoded|e] eqn:Hd.
    + intros [= <-]. by exists [], sig, rest, abiItem, decoded.
    + intros (before & sig' & after & abiItem' & decoded' & -> & Hnone & ? & ? & ?)%IH.
      exists (sig :: before), sig', after, abiItem', decoded'.
      split_and!; try done. simpl. unfold candidateDecodes at 1. by rewrite Hp, Hd.
  - intros (before & sig' & after & abiItem' & decoded' & -> & Hnone & ? & ? & ?)%IH.
    exists (sig :: before), sig', after, abiItem', decoded'.
    split_and!; try done. simpl. unfold candidateDecodes at 1. by rewrite Hp.
Qed.

Lemma viaDirectory_frame signatures target callData :
  DecodedCall.target (viaDirectory signatures target callData) = target
  ∧ DecodedCall.rawCallData (viaDirectory signatures target callData) = callData.
Proof.
  unfold viaDirectory. destruct signatures as [|first rest]; [done|].
  destruct (MulticallDecoder.trySignatures _ _ _) as [call|] eqn:Htry; [|done].
  apply trySignatures_Some in Htry as (? & ? & ? & _ & _ & _ & ->). done.
Qed.

(** [decodeCall] returns, and the call it returns carries the two inputs. *)
Lemma decodeCall_returns target callData d w :
  ∃ call d' w',
    MulticallDecoder.decodeCall target callData d w = (Ok call, d', w')
    ∧ DecodedCall.target call = target
    ∧ DecodedCall.rawCallData call = callData.
Proof.
  rewrite decodeCall_eq.
  destruct (getContractAbi_spec target (MulticallDecoder.etherscanClient d) w)
    as (abi & c' & w1 & -> & _).
  cbv zeta.
  destruct (viaRegistry abi target callData) as [call|] eqn:Hreg.
  { apply viaRegistry_Some in Hreg as (? & _ & _ & ? & _ & _ & ?). eauto 6. }
  destruct (lookupSelector_spec (JsString.slice_to 10 callData)
              (MulticallDecoder.signatureDecoder d) w1) as (signatures & sd' & w2 & -> & _).
  destruct (viaDirectory_frame signatures target callData). eauto 6.
Qed.

(** C3. [decodeCall] never fails: for every target and call data, and
    whatever the libraries and the two services do (answers, empty answers,
    exceptions), it returns a [DecodedCall] and throws nothing.  In
    particular, with the network down a fresh decoder still answers, with
    the function name "unknown", the selector as signature and the
    undecoded payload as the only argument. *)
Theorem decodeCall_never_fails target callData d w :
  (∃ call d' w', MulticallDecoder.decodeCall target callData d w = (Ok call, d', w'))
  ∧ (∀ e d' w', MulticallDecoder.decodeCall target callData d w ≠ (Thrown e, d', w'))
  ∧ (∀ options, ∃ w',
       @MulticallDecoder.decodeCall (offline H) target callData
         (@MulticallDecoder.new (offline H) options) w
       = (Ok (rawCall "unknown" (JsString.slice_to 10 callData) target callData),
          @MulticallDecoder.new (offline H) options, w')).
Proof.
  destruct (decodeCall_returns target callData d w) as (call & d' & w' & Hrun & _).
  split_and!.
  - eauto.
  - intros e d'' w''. rewrite Hrun. congruence.
  - intros options.
    unfold MulticallDecoder.decodeCall, EtherscanClient.getContractAbi,
      SignatureDecoder.lookupSelector.
    unfold bind, on, this, try_catch, axios_get, console_error, ret, lift, assign.
    cbn. rewrite !lookup_empty. cbn. eauto.
Qed.

(** C10. On every return path of [decodeCall] the returned call has the
    input target as [target] and the input call data as [rawCallData]. *)
Theorem decodeCall_keeps_inputs target callData d w :
  ∃ call d' w',
    MulticallDecoder.decodeCall target callData d w = (Ok call, d', w')
    ∧ DecodedCall.target call = target
    ∧ DecodedCall.rawCallData call = callData.
Proof. apply decodeCall_returns. Qed.

(** What [decodeCall] does once the registry branch has given no call. *)
Lemma decodeCall_directory target callData d w abi c' w1 signatures sd' w2 :
  EtherscanClient.getContractAbi target (MulticallDecoder.etherscanClient d) w
    = (Ok abi, c', w1) →
  registryDecodes abi callData = false →
  SignatureDecoder.lookupSelector (JsString.slice_to 10 callData)
    (MulticallDecoder.signatureDecoder d) w1 = (Ok signatures, sd', w2) →
  MulticallDecoder.decodeCall target callData d w
  = (Ok (viaDirectory signatures target callData),
     MulticallDecoder.set_signatureDecoder sd' (MulticallDecoder.set_etherscanClient c' d),
     w2).
Proof.
  intros Habi Hreg Hdir. rewrite decodeCall_eq, Habi. cbv zeta.
  apply (viaRegistry_None abi target) in Hreg. by rewrite Hreg, Hdir.
Qed.

(** C6. If the registry yields no interface that decodes the call data and
    the directory returns no candidate for the selector, [decodeCall]
    returns the function name "unknown", the selector (the first ten
    characters of the call data) as signature, and as [args] the list whose
    only element is the rest of the call data, which is not the empty
    list. *)
Theorem decodeCall_unknown target callData d w abi c' w1 sd' w2 :
  EtherscanClient.getContractAbi target (MulticallDecoder.etherscanClient d) w
    = (Ok abi, c', w1) →
  registryDecodes abi callData = false →
  SignatureDecoder.lookupSelector (JsString.slice_to 10 callData)
    (MulticallDecoder.signatureDecoder d) w1 = (Ok [], sd', w2) →
  ∃ call d',
    MulticallDecoder.decodeCall target callData d w = (Ok call, d', w2)
    ∧ DecodedCall.functionName call = "unknown"
    ∧ DecodedCall.functionSignature call = JsString.slice_to 10 callData
    ∧ DecodedCall.args call = Some [VString (JsString.slice_from 10 callData)]
    ∧ DecodedCall.args call ≠ Some []
    ∧ (DecodedCall.functionSignature call ++ JsString.slice_from 10 callData)%string
      = callData.
Proof.
  intros Habi Hreg Hdir.
  rewrite (decodeCall_directory _ _ _ _ _ _ _ _ _ _ Habi Hreg Hdir).
  do 2 eexists. split; [done|].
  unfold viaDirectory, rawCall.
  cbn [DecodedCall.functionName DecodedCall.functionSignature DecodedCall.args].
  split_and!; try done. apply slice_to_from.
Qed.

(** C5. If the directory returns one or more candidates for the selector
    and none of them decodes the call data, [decodeCall] returns the name
    and the signature of the first candidate of the list, and as [args] the
    list whose only element is the call data without its first ten
    characters (the 0x prefix and the four selector bytes). *)
Theorem decodeCall_first_candidate target callData d w abi c' w1 first rest sd' w2 :
  EtherscanClient.getContractAbi target (MulticallDecoder.etherscanClient d) w
    = (Ok abi, c', w1) →
  registryDecodes abi callData = false →
  SignatureDecoder.lookupSelector (JsString.slice_to 10 callData)
    (MulticallDecoder.signatureDecoder d) w1 = (Ok (first :: rest), sd', w2) →
  existsb (candidateDecodes callData) (first :: rest) = false →
  ∃ call d',
    MulticallDecoder.decodeCall target callData d w = (Ok call, d', w2)
    ∧ DecodedCall.functionName call = FunctionSignature.name first
    ∧ DecodedCall.functionSignature call = FunctionSignature.signature first
    ∧ DecodedCall.args call = Some [VString (JsString.slice_from 10 callData)]
    ∧ (JsString.slice_to 10 callData ++ JsString.slice_from 10 callData)%string = callData.
Proof.
  intros Habi Hreg Hdir Hnone.
  rewrite (decodeCall_directory _ _ _ _ _ _ _ _ _ _ Habi Hreg Hdir).
  do 2 eexists. split; [done|]. unfold viaDirectory.
  apply (trySignatures_None _ target) in Hnone. rewrite Hnone. unfold rawCall.
  cbn [DecodedCall.functionName DecodedCall.functionSignature DecodedCall.args].
  split_and!; try done. apply slice_to_from.
Qed.

(** C7, as the code has it.  For call data shorter than ten characters
    (fewer than four bytes after the 0x prefix) [decodeCall] raises no
    error: the selector it works with is the whole call data, read without
    going out of range, and a [DecodedCall] is returned; when neither
    gateway resolves the call, the function name is "unknown", the signature
    is the call data itself and the only argument is the empty string. *)
Theorem decodeCall_short_callData target callData d w :
  (String.length callData < 10)%nat →
  JsString.slice_to 10 callData = callData
  ∧ (∃ call d' w', MulticallDecoder.decodeCall target callData d w = (Ok call, d', w'))
  ∧ (∀ e d' w', MulticallDecoder.decodeCall target callData d w ≠ (Thrown e, d', w'))
  ∧ (∀ abi c' w1 sd' w2,
       EtherscanClient.getContractAbi target (MulticallDecoder.etherscanClient d) w
         = (Ok abi, c', w1) →
       registryDecodes abi callData = false →
       SignatureDecoder.lookupSelector callData (MulticallDecoder.signatureDecoder d) w1
         = (Ok [], sd', w2) →
       ∃ d', MulticallDecoder.decodeCall target callData d w
             = (Ok {| DecodedCall.target := target;
                      DecodedCall.functionName := "unknown";
                      DecodedCall.functionSignature := callData;
                      DecodedCall.args := Some [VString ""];
                      DecodedCall.rawCallData := callData |}, d', w2)).
Proof.
  intros Hshort.
  destruct (slice_short 10 callData) as [Hto Hfrom]; [lia|].
  destruct (decodeCall_returns target callData d w) as (call & d' & w' & Hrun & _).
  split_and!.
  - done.
  - eauto.
  - intros e d'' w''. rewrite Hrun. congruence.
  - intros abi c' w1 sd' w2 Habi Hreg Hdir.
    rewrite <- Hto in Hdir at 1.
    rewrite (decodeCall_directory _ _ _ _ _ _ _ _ _ _ Habi Hreg Hdir).
    unfold viaDirectory, rawCall. rewrite Hto, Hfrom. eauto.
Qed.

(** C2, as the code has it.  [args] is never the empty list when
    resolution could not decode the parameters (the registry gives nothing
    that decodes the call data, and the directory gives no candidate, or
    none that decodes): it is then the list whose only element is the call
    data without its first ten characters.  When the interface of the
    registry decodes the call data, [args] is what viem returned, as it is:
    the decoded values, or [undefined] (no list at all) for a function
    without parameters.  Otherwise [args] is what viem decoded for the first
    candidate, in the order of the directory's answer, that parses and
    decodes - no candidate before it does - with the empty list when viem
    returns no arguments. *)
Theorem decodeCall_args target callData d w abi c' w1 signatures sd' w2 :
  EtherscanClient.getContractAbi target (MulticallDecoder.etherscanClient d) w
    = (Ok abi, c', w1) →
  SignatureDecoder.lookupSelector (JsString.slice_to 10 callData)
    (MulticallDecoder.signatureDecoder d) w1 = (Ok signatures, sd', w2) →
  ∃ call d' w',
    MulticallDecoder.decodeCall target callData d w = (Ok call, d', w')
    ∧ (couldNotDecode abi signatures callData = true →
       DecodedCall.args call = Some [VString (JsString.slice_from 10 callData)]
       ∧ DecodedCall.args call ≠ Some [])
    ∧ (registryDecodes abi callData = true →
       ∃ decoded,
         decodeFunctionData abi callData = Ok decoded
         ∧ DecodedCall.args call = Decoded.args decoded
         ∧ (Decoded.args decoded = None → DecodedCall.args call ≠ Some []))
    ∧ (registryDecodes abi callData = false →
       existsb (candidateDecodes callData) signatures = true →
       ∃ before sig after abiItem decoded,
         signatures = (before ++ sig :: after)%list
         ∧ existsb (candidateDecodes callData) before = false
         ∧ parseAbiItem ("function " ++ FunctionSignature.signature sig) = Ok abiItem
         ∧ decodeFunctionData (JArray [abiItem]) callData = Ok decoded
         ∧ DecodedCall.functionName call = FunctionSignature.name sig
         ∧ DecodedCall.functionSignature call = FunctionSignature.signature sig
         ∧ DecodedCall.args call = Some (default [] (Decoded.args decoded))).
Proof.
  intros Habi Hdir. rewrite decodeCall_eq, Habi. cbv zeta. unfold couldNotDecode.
  destruct (viaRegistry abi target callData) as [call|] eqn:Hreg.
  - do 3 eexists. split; [done|].
    assert (registryDecodes abi callData = true) as Hyes.
    { apply not_false_iff_true. rewrite <- (viaRegistry_None _ target). congruence. }
    apply viaRegistry_Some in Hreg as (decoded & _ & Hd & _ & _ & Hargs & _).
    rewrite Hyes. split_and!; [done| |done].
    intros _. exists decoded. split_and!; [done..|]. intros Hnone. congruence.
  - rewrite Hdir. do 3 eexists. split; [done|].
    apply viaRegistry_None in Hreg. rewrite Hreg. cbn [negb andb].
    unfold viaDirectory. destruct signatures as [|first rest]; [by split_and!|].
    destruct (MulticallDecoder.trySignatures _ _ _) as [call|] eqn:Htry.
    + assert (existsb (candidateDecodes callData) (first :: rest) = true) as ->.
      { apply not_false_iff_true. rewrite <- (trySignatures_None _ target). congruence. }
      split_and!; [done..|]. intros _ _.
      apply trySignatures_first in Htry
        as (before & sig & after & abiItem & decoded & ? & ? & ? & ? & ->).
      by exists before, sig, after, abiItem, decoded.
    + apply trySignatures_None in Htry. rewrite Htry. by split_and!.
Qed.

(** C8. Resolve a pair, and suppose that afterwards the caches of the
    decoder are populated for it: the interface cache holds the target, and
    the signature cache holds the selector (or the interface decodes the
    call data, so that the directory is not consulted).  Resolving the same
    pair again returns the same result and changes neither the decoder nor
    the world: no request is added to the outbound traffic. *)
Theorem decodeCall_again target callData d w r d1 w1 :
  MulticallDecoder.decodeCall target callData d w = (r, d1, w1) →
  populated d1 target callData →
  MulticallDecoder.decodeCall target callData d1 w1 = (r, d1, w1)
  ∧ ∀ r' d2 w2, MulticallDecoder.decodeCall target callData d1 w1 = (r', d2, w2) →
                r' = r ∧ outbound w2 = outbound w1.
Proof.
  intros Hfirst (a & Ha & Hs).
  enough (MulticallDecoder.decodeCall target callData d1 w1 = (r, d1, w1)) as Hsecond.
  { split; [done|]. intros r' d2 w2. rewrite Hsecond. by intros [= <- <- <-]. }
  rewrite decodeCall_eq in Hfirst. rewrite decodeCall_eq.
  destruct (getContractAbi_spec target (MulticallDecoder.etherscanClient d) w)
    as (abi & c' & wa & Habi & Hcached).
  rewrite Habi in Hfirst. cbv zeta in Hfirst.
  destruct (viaRegistry abi target callData) as [call|] eqn:Hreg.
  - injection Hfirst as <- <- <-. simpl in Ha.
    rewrite (Hcached _ Ha) in Hreg.
    rewrite (getContractAbi_hit _ _ _ _ Ha). cbv zeta. rewrite Hreg.
    by destruct d.
  - destruct (lookupSelector_spec (JsString.slice_to 10 callData)
                (MulticallDecoder.signatureDecoder d) wa)
      as (sigs & sd' & wb & Hdir & Hkept).
    rewrite Hdir in Hfirst. injection Hfirst as <- <- <-.
    simpl in Ha. rewrite (Hcached _ Ha) in Hreg.
    destruct Hs as [Hdecodes|[signatures Hs]].
    { apply viaRegistry_None in Hreg. congruence. }
    simpl in Hs. simpl MulticallDecoder.etherscanClient.
    rewrite (getContractAbi_hit _ _ _ _ Ha). cbv zeta. rewrite Hreg.
    simpl MulticallDecoder.signatureDecoder.
    rewrite (lookupSelector_hit _ _ _ _ Hs). rewrite (Hkept _ Hs).
    by destruct d.
Qed.

Lemma map_throws_Forall2 {A B} (f : A → Throws B) xs ys :
  Forall2 (fun x y => f x = Ok y) xs ys → map_throws f xs = Ok ys.
Proof. induction 1 as [|x y xs ys Hx _ IH]; simpl; [done|]. by rewrite Hx, IH. Qed.

(** The declared types of a fragment whose inputs all have a string as
    [type]. *)
Lemma inputTypes_strings inputs types :
  Forall2 (fun input type => jprop input "type" = Ok (Some (JString type))) inputs types →
  MulticallDecoder.inputTypes (JArray inputs) = Ok (JsString.join "," types).
Proof.
  intros Htypes. unfold MulticallDecoder.inputTypes.
  rewrite (map_throws_Forall2 _ inputs (map (fun type => Some (JString type)) types)).
  - rewrite (map_throws_Forall2 _ _ types); [done|].
    clear. induction types; constructor; done.
  - induction Htypes; constructor; done.
Qed.

(** The registry branch.  When the registry gives an interface, viem
    decodes the call data against it, and the first function item of the
    interface that bears the decoded name declares its inputs with their
    types, [decodeCall] returns the decoded name and arguments, and builds
    the signature from those declared types; the directory is not asked. *)
Lemma decodeCall_registry target callData d w abi c' w1 decoded fragment inputs types :
  EtherscanClient.getContractAbi target (MulticallDecoder.etherscanClient d) w
    = (Ok abi, c', w1) →
  jtruthy (Some abi) = true →
  decodeFunctionData abi callData = Ok decoded →
  MulticallDecoder.findFragment abi (Decoded.functionName decoded) = Ok (Some fragment) →
  jprop fragment "inputs" = Ok (Some (JArray inputs)) →
  Forall2 (fun input type => jprop input "type" = Ok (Some (JString type))) inputs types →
  MulticallDecoder.decodeCall target callData d w
  = (Ok {| DecodedCall.target := target;
           DecodedCall.functionName := Decoded.functionName decoded;
           DecodedCall.functionSignature :=
             Decoded.functionName decoded ++ "(" ++ JsString.join "," types ++ ")";
           DecodedCall.args := Decoded.args decoded;
           DecodedCall.rawCallData := callData |},
     MulticallDecoder.set_etherscanClient c' d, w1).
Proof.
  intros Habi Htruthy Hd Hfind Hinputs Htypes. rewrite decodeCall_eq, Habi. cbv zeta.
  unfold viaRegistry, MulticallDecoder.decodeWithAbi. rewrite Htruthy, Hd, Hfind.
  unfold MulticallDecoder.signatureOf.
  assert (jtruthy (Some fragment) = true) as -> by (by destruct fragment).
  rewrite Hinputs. cbn [jtruthy]. by rewrite (inputTypes_strings _ _ Htypes).
Qed.

(** The example of the specification: an interface with the one function
    f(uint256,address), and call data that viem decodes against it. *)
Lemma decodeCall_registry_f target callData d w c' w1 a b :
  let f := JObject [("type", JString "function"); ("name", JString "f");
                    ("inputs",
                     JArray [JObject [("name", JString "amount"); ("type", JString "uint256")];
                             JObject [("name", JString "to"); ("type", JString "address")]])] in
  EtherscanClient.getContractAbi target (MulticallDecoder.etherscanClient d) w
    = (Ok (JArray [f]), c', w1) →
  decodeFunctionData (JArray [f]) callData
    = Ok {| Decoded.functionName := "f"; Decoded.args := Some [a; b] |} →
  ∃ call d',
    MulticallDecoder.decodeCall target callData d w = (Ok call, d', w1)
    ∧ DecodedCall.functionName call = "f"
    ∧ DecodedCall.functionSignature call = "f(uint256,address)"
    ∧ length <$> DecodedCall.args call = Some 2%nat.
Proof.
  intros f Habi Hd.
  erewrite (decodeCall_registry _ _ _ _ _ _ _ _ f _ ["uint256"; "address"]);
    [|done|done|done|done|done|by repeat constructor].
  do 2 eexists. by split.
Qed.

End CallResolver.

(* ------------------------------------------------------------------ *)
(** ** Runs on the fixture *)

Section Runs.
Local Existing Instance Fixture.environment.

(** The sample aggregate3 payload yields its two calls, in order. *)
Lemma parseMulticallData_first_probe_witness :
  MulticallDecoder.parseMulticallData Fixture.aggregate3Payload Fixture.decoder Fixture.world
  = (Ok (map toCall Fixture.batch), Fixture.decoder, Fixture.world)
  ∧ length (map toCall Fixture.batch) = 2%nat.
Proof.
  destruct (parseMulticallData_first_probe Fixture.aggregate3Payload Fixture.decoder Fixture.world)
    as [Hfirst _].
  apply (Hfirst 0%nat (MulticallDecoder.aggregate3_signature, "aggregate3", 0%nat)).
  - reflexivity.
  - vm_compute. reflexivity.
  - intros j earlier Hj. lia.
Defined.

(** An unverified contract and a selector the directory does not know. *)
Lemma decodeCall_unknown_witness :
  ∃ call d' w',
    MulticallDecoder.decodeCall Fixture.unverified "0x12345678aabb" Fixture.decoder Fixture.world
    = (Ok call, d', w')
    ∧ DecodedCall.functionName call = "unknown"
    ∧ DecodedCall.functionSignature call = "0x12345678"
    ∧ DecodedCall.args call = Some [VString "aabb"].
Proof.
  pose (first := EtherscanClient.getContractAbi Fixture.unverified Fixture.etherscan Fixture.world).
  pose (second := SignatureDecoder.lookupSelector "0x12345678" Fixture.directory first.2).
  destruct (decodeCall_unknown Fixture.unverified "0x12345678aabb" Fixture.decoder Fixture.world
              JNull first.1.2 first.2 second.1.2 second.2)
    as (call & d' & Hrun & Hname & Hsig & Hargs & _).
  - vm_compute. reflexivity.
  - vm_compute. reflexivity.
  - vm_compute. reflexivity.
  - exists call, d', second.2. split; [exact Hrun|]. split; [exact Hname|].
    split; [exact Hsig|exact Hargs].
Defined.

(** A verified contract whose interface does not have the function, and a
    truncated payload that neither candidate of the directory decodes: the
    first candidate is reported. *)
Lemma decodeCall_first_candidate_witness :
  ∃ call d' w',
    MulticallDecoder.decodeCall Fixture.usdc Fixture.truncatedCall Fixture.decoder Fixture.world
    = (Ok call, d', w')
    ∧ DecodedCall.functionName call = "many_msg_babbage"
    ∧ DecodedCall.functionSignature call = "many_msg_babbage(bytes1)"
    ∧ DecodedCall.args call = Some [VString "a11c"].
Proof.
  pose (first := EtherscanClient.getContractAbi Fixture.usdc Fixture.etherscan Fixture.world).
  pose (second := SignatureDecoder.lookupSelector "0xa9059cbb" Fixture.directory first.2).
  destruct (decodeCall_first_candidate Fixture.usdc Fixture.truncatedCall
              Fixture.decoder Fixture.world
              (JArray [Fixture.function "balanceOf" ["address"]]) first.1.2 first.2
              {| FunctionSignature.name := "many_msg_babbage";
                 FunctionSignature.signature := "many_msg_babbage(bytes1)" |}
              [{| FunctionSignature.name := "transfer";
                  FunctionSignature.signature := "transfer(address,uint256)" |}]
              second.1.2 second.2)
    as (call & d' & Hrun & Hname & Hsig & Hargs & _).
  - vm_compute. reflexivity.
  - vm_compute. reflexivity.
  - vm_compute. reflexivity.
  - vm_compute. reflexivity.
  - exists call, d', second.2. split; [exact Hrun|]. split; [exact Hname|].
    split; [exact Hsig|exact Hargs].
Defined.

(** Call data of one byte: the call is resolved like any other. *)
Lemma decodeCall_short_callData_witness :
  JsString.slice_to 10 "0x12" = "0x12"
  ∧ ∃ call d' w',
      MulticallDecoder.decodeCall Fixture.unverified "0x12" Fixture.decoder Fixture.world
      = (Ok call, d', w').
Proof.
  destruct (decodeCall_short_callData Fixture.unverified "0x12" Fixture.decoder Fixture.world)
    as (Hsel & Hreturns & _).
  - simpl. lia.
  - split; [exact Hsel|exact Hreturns].
Defined.

(** C7, counterexample.  The call data "0x12" is shorter than four bytes,
    and [decodeCall] does not fail with [MalformedCallData]: it returns a
    call whose signature is the truncated selector. *)
Lemma short_callData_not_rejected :
  (String.length "0x12" < 10)%nat
  ∧ (∃ d' w',
       MulticallDecoder.decodeCall Fixture.unverified "0x12" Fixture.decoder Fixture.world
       = (Ok {| DecodedCall.target := Fixture.unverified;
                DecodedCall.functionName := "unknown";
                DecodedCall.functionSignature := "0x12";
                DecodedCall.args := Some [VString ""];
                DecodedCall.rawCallData := "0x12" |}, d', w'))
  ∧ ∀ d' w',
      MulticallDecoder.decodeCall Fixture.unverified "0x12" Fixture.decoder Fixture.world
      ≠ (Thrown MalformedCallData, d', w').
Proof.
  pose (run := MulticallDecoder.decodeCall Fixture.unverified "0x12"
                 Fixture.decoder Fixture.world).
  assert (Hrun : run = (Ok {| DecodedCall.target := Fixture.unverified;
                              DecodedCall.functionName := "unknown";
                              DecodedCall.functionSignature := "0x12";
                              DecodedCall.args := Some [VString ""];
                              DecodedCall.rawCallData := "0x12" |}, run.1.2, run.2))
    by (vm_compute; reflexivity).
  split_and!.
  - simpl. lia.
  - exists run.1.2, run.2. exact Hrun.
  - intros d' w'. fold run. rewrite Hrun. discriminate.
Qed.

(** Both caches are filled by the first resolution of a call the registry
    cannot decode; the second resolution repeats the first and sends
    nothing. *)
Lemma decodeCall_again_witness :
  ∃ r d1 w1,
    MulticallDecoder.decodeCall Fixture.usdc Fixture.transferCall Fixture.decoder Fixture.world
    = (r, d1, w1)
    ∧ populated d1 Fixture.usdc Fixture.transferCall
    ∧ MulticallDecoder.decodeCall Fixture.usdc Fixture.transferCall d1 w1 = (r, d1, w1)
    ∧ length (outbound w1) = 2%nat.
Proof.
  pose (run := MulticallDecoder.decodeCall Fixture.usdc Fixture.transferCall
                 Fixture.decoder Fixture.world).
  assert (Hrun : run = (run.1.1, run.1.2, run.2)) by (by destruct run as [[? ?] ?]).
  assert (Hpop : populated run.1.2 Fixture.usdc Fixture.transferCall).
  { exists (JArray [Fixture.function "balanceOf" ["address"]]).
    split; [vm_compute; reflexivity|]. right. vm_compute. eexists. reflexivity. }
  exists run.1.1, run.1.2, run.2.
  split; [exact Hrun|]. split; [exact Hpop|].
  split; [exact (proj1 (decodeCall_again _ _ _ _ _ _ _ Hrun Hpop))|].
  vm_compute. reflexivity.
Defined.

(** C2, counterexample.  For an unverified contract and a selector the
    directory does not know, resolution could not decode the parameters, and
    [args] holds one element: it is empty neither as a list nor by being
    absent, so "empty exactly when resolution could not decode" fails. *)
Lemma unknown_call_args_not_empty :
  ∃ c' w1 sd' w2 call d' w',
    EtherscanClient.getContractAbi Fixture.unverified Fixture.etherscan Fixture.world
    = (Ok JNull, c', w1)
    ∧ SignatureDecoder.lookupSelector "0x12345678" Fixture.directory w1 = (Ok [], sd', w2)
    ∧ MulticallDecoder.decodeCall Fixture.unverified "0x12345678aabb"
        Fixture.decoder Fixture.world = (Ok call, d', w')
    ∧ DecodedCall.args call = Some [VString "aabb"]
    ∧ ¬ ((DecodedCall.args call = Some [] ∨ DecodedCall.args call = None)
         ↔ couldNotDecode JNull [] "0x12345678aabb" = true).
Proof.
  pose (first := EtherscanClient.getContractAbi Fixture.unverified Fixture.etherscan
                   Fixture.world).
  pose (second := SignatureDecoder.lookupSelector "0x12345678" Fixture.directory first.2).
  pose (run := MulticallDecoder.decodeCall Fixture.unverified "0x12345678aabb"
                 Fixture.decoder Fixture.world).
  exists first.1.2, first.2, second.1.2, second.2,
    (rawCall "unknown" "0x12345678" Fixture.unverified "0x12345678aabb"), run.1.2, run.2.
  split_and!; try (vm_compute; reflexivity).
  intros [_ Hclaim]. destruct Hclaim; [vm_compute; reflexivity|discriminate..].
Qed.

(** Resolution that could not decode, and resolution that could. *)
Lemma decodeCall_args_witness :
  ∃ call d' w',
    MulticallDecoder.decodeCall Fixture.usdc Fixture.truncatedCall Fixture.decoder Fixture.world
    = (Ok call, d', w')
    ∧ DecodedCall.args call = Some [VString "a11c"].
Proof.
  pose (first := EtherscanClient.getContractAbi Fixture.usdc Fixture.etherscan Fixture.world).
  pose (second := SignatureDecoder.lookupSelector "0xa9059cbb" Fixture.directory first.2).
  destruct (decodeCall_args Fixture.usdc Fixture.truncatedCall Fixture.decoder Fixture.world
              (JArray [Fixture.function "balanceOf" ["address"]]) first.1.2 first.2
              [{| FunctionSignature.name := "many_msg_babbage";
                  FunctionSignature.signature := "many_msg_babbage(bytes1)" |};
               {| FunctionSignature.name := "transfer";
                  FunctionSignature.signature := "transfer(address,uint256)" |}]
              second.1.2 second.2)
    as (call & d' & w' & Hrun & Hraw & _).
  - vm_compute. reflexivity.
  - vm_compute. reflexivity.
  - exists call, d', w'. split; [exact Hrun|].
    apply Hraw. vm_compute. reflexivity.
Defined.

(** C4, the failing input.  The interface of the contract declares
    mint(uint256) and mint(address,uint256), in this order.  The call data
    carries the selector of mint(address,uint256) and decodes to two
    arguments, and [decodeCall] reports the signature "mint(uint256)": the
    parameter types of the first function of that name, not those of the
    function that matched. *)
Theorem decodeCall_overloaded_signature :
  (∃ d' w',
     MulticallDecoder.decodeCall Fixture.dai Fixture.mintCall Fixture.decoder Fixture.world
     = (Ok {| DecodedCall.target := Fixture.dai;
              DecodedCall.functionName := "mint";
              DecodedCall.functionSignature := "mint(uint256)";
              DecodedCall.args :=
                Some [VString "0x000000000000000000000000000000000000a11c"; VBigInt 1000];
              DecodedCall.rawCallData := Fixture.mintCall |}, d', w'))
  ∧ List.find (Fixture.hasSelector (JsString.slice_to 10 Fixture.mintCall))
      [Fixture.function "mint" ["uint256"]; Fixture.function "mint" ["address"; "uint256"]]
    = Some (Fixture.function "mint" ["address"; "uint256"])
  ∧ Fixture.canonical (Fixture.function "mint" ["address"; "uint256"])
    = "mint(address,uint256)".
Proof.
  pose (run := MulticallDecoder.decodeCall Fixture.dai Fixture.mintCall
                 Fixture.decoder Fixture.world).
  split_and!; [|vm_compute; reflexivity..].
  exists run.1.2, run.2. vm_compute. reflexivity.
Qed.

(** C9, the failing input.  Two interfaces are fetched one after the other
    through one client whose interval is 250 ms.  Both requests go out, 20 ms
    apart, and the time of the last request recorded by the client is still
    its initial value: [getContractAbi] does not pass through [throttle]. *)
Theorem getContractAbi_not_paced :
  ∃ r1 c1 w1 r2 c2 w2,
    EtherscanClient.getContractAbi Fixture.usdc Fixture.etherscan Fixture.world
    = (r1, c1, w1)
    ∧ EtherscanClient.getContractAbi Fixture.dai c1 w1 = (r2, c2, w2)
    ∧ EtherscanClient.minRequestInterval Fixture.etherscan = 250
    ∧ map fst (outbound w2) = [1700000000000; 1700000000020]
    ∧ paced 250 (outbound w2) = false
    ∧ EtherscanClient.lastRequestTime c2 = 0.
Proof.
  pose (first := EtherscanClient.getContractAbi Fixture.usdc Fixture.etherscan Fixture.world).
  pose (second := EtherscanClient.getContractAbi Fixture.dai first.1.2 first.2).
  exists first.1.1, first.1.2, first.2, second.1.1, second.1.2, second.2.
  split_and!; vm_compute; reflexivity.
Qed.

(** The sample tryAggregate payload is recognised by the third probe, and
    the success flag in front of the calls is left out. *)
Example parseMulticallData_tryAggregate :
  MulticallDecoder.parseMulticallData Fixture.tryAggregatePayload Fixture.decoder Fixture.world
  = (Ok (map toCall Fixture.pairs), Fixture.decoder, Fixture.world).
Proof. vm_compute. reflexivity. Qed.

(** A plain function call is no envelope. *)
Example parseMulticallData_transfer :
  MulticallDecoder.parseMulticallData Fixture.transferCall Fixture.decoder Fixture.world
  = (Thrown UnrecognizedEnvelope, Fixture.decoder, Fixture.world).
Proof. vm_compute. reflexivity. Qed.

(** The directory is tried in the order of its answer: the first candidate
    that decodes is reported, here with one argument. *)
Example decodeCall_first_decoding_candidate :
  (MulticallDecoder.decodeCall Fixture.usdc Fixture.transferCall
     Fixture.decoder Fixture.world).1.1
  = Ok {| DecodedCall.target := Fixture.usdc;
          DecodedCall.functionName := "many_msg_babbage";
          DecodedCall.functionSignature := "many_msg_babbage(bytes1)";
          DecodedCall.args := Some [VString "0x00"];
          DecodedCall.rawCallData := Fixture.transferCall |}.
Proof. vm_compute. reflexivity. Qed.

(** Nothing is cached for a contract Etherscan does not know: resolving the
    same call again asks Etherscan again (the empty answer of the directory
    was cached). *)
Example decodeCall_again_unverified :
  ∃ r1 d1 w1 r2 d2 w2,
    MulticallDecoder.decodeCall Fixture.unverified "0x12345678aabb"
      Fixture.decoder Fixture.world = (r1, d1, w1)
    ∧ MulticallDecoder.decodeCall Fixture.unverified "0x12345678aabb" d1 w1 = (r2, d2, w2)
    ∧ r2 = r1
    ∧ length (outbound w1) = 2%nat
    ∧ length (outbound w2) = 3%nat.
Proof.
  pose (first := MulticallDecoder.decodeCall Fixture.unverified "0x12345678aabb"
                   Fixture.decoder Fixture.world).
  pose (second := MulticallDecoder.decodeCall Fixture.unverified "0x12345678aabb"
                    first.1.2 first.2).
  exists first.1.1, first.1.2, first.2, second.1.1, second.1.2, second.2.
  split_and!; vm_compute; reflexivity.
Qed.

(** When the interface decodes the call, the second resolution is served by
    the interface cache alone. *)
Example decodeCall_again_registry :
  ∃ r d1 w1,
    MulticallDecoder.decodeCall Fixture.dai Fixture.mintCall Fixture.decoder Fixture.world
    = (r, d1, w1)
    ∧ MulticallDecoder.decodeCall Fixture.dai Fixture.mintCall d1 w1 = (r, d1, w1)
    ∧ SignatureDecoder.cache (MulticallDecoder.signatureDecoder d1) = ∅
    ∧ length (outbound w1) = 1%nat.
Proof.
  pose (run := MulticallDecoder.decodeCall Fixture.dai Fixture.mintCall
                 Fixture.decoder Fixture.world).
  exists run.1.1, run.1.2, run.2. split_and!; vm_compute; reflexivity.
Qed.

End Runs.

(* ------------------------------------------------------------------ *)
(** ** More on strings *)

Ltac js :=
  unfold try_catch, bind, lift, ret, this, assign, throw, on, axios_get,
    console_error, console_log, Date_now, sleep in *.

Lemma lower_ascii_idem c : JsString.lower_ascii (JsString.lower_ascii c) = JsString.lower_ascii c.
Proof. destruct c as [[] [] [] [] [] [] [] []]; reflexivity. Qed.

Lemma toLowerCase_idem s : JsString.toLowerCase (JsString.toLowerCase s) = JsString.toLowerCase s.
Proof. induction s as [|c s IH]; simpl; [done|]. by rewrite lower_ascii_idem, IH. Qed.

Lemma toLowerCase_slice_to n s :
  JsString.toLowerCase (JsString.slice_to n s) = JsString.slice_to n (JsString.toLowerCase s).
Proof.
  revert s; induction n as [|n IH]; intros [|c s]; simpl; try done. by rewrite IH.
Qed.

Lemma startsWith_split s p :
  JsString.startsWith s p = true → s = (p ++ JsString.slice_from (String.length p) s)%string.
Proof.
  revert s; induction p as [|a p IH]; intros s Hp; [done|].
  destruct s as [|b s]; [done|]. simpl in Hp.
  destruct (Ascii.eqb a b) eqn:Hab; [|done]. apply Ascii.eqb_eq in Hab as ->.
  change (String b s = String b (p ++ JsString.slice_from (String.length p) s)).
  f_equal. by apply IH.
Qed.

Lemma startsWith_app p s : JsString.startsWith (p ++ s) p = true.
Proof.
  induction p as [|a p IH]; [by destruct s|].
  change (JsString.startsWith (String a (p ++ s)) (String a p) = true).
  simpl. by rewrite Ascii.eqb_refl.
Qed.

Lemma app_inj_head (p s s' : string) : (p ++ s = p ++ s')%string → s = s'.
Proof.
  induction p as [|a p IH]; [done|].
  change (String a (p ++ s) = String a (p ++ s') → s = s'). intros [= Heq]. auto.
Qed.

(** The normal form of a selector: 0x followed by the lower-case digits. *)
Lemma normalize_strip selector :
  SignatureDecoder.normalize selector
  = ("0x" ++ strip0x (JsString.toLowerCase selector))%string.
Proof.
  unfold SignatureDecoder.normalize, strip0x.
  destruct (JsString.startsWith _ "0x") eqn:Hp; [|done].
  by apply (startsWith_split _ "0x").
Qed.

Lemma extends_refl {V} (m : gmap string V) : extends m m.
Proof. by intros k v. Qed.

Lemma extends_insert {V} (m : gmap string V) k v : m !! k = None → extends m (<[k:=v]> m).
Proof. intros Hk k' v' Hk'. rewrite lookup_insert_ne; [done|]. congruence. Qed.

Lemma extends_trans {V} (m1 m2 m3 : gmap string V) :
  extends m1 m2 → extends m2 m3 → extends m1 m3.
Proof. intros H12 H23 k v Hk. auto. Qed.

Lemma normalize_alike s s' :
  spelledAlike s s' ↔ SignatureDecoder.normalize s = SignatureDecoder.normalize s'.
Proof.
  unfold spelledAlike. rewrite !normalize_strip. split; [by intros ->|].
  apply (app_inj_head "0x").
Qed.

(* ------------------------------------------------------------------ *)
(** ** The directory client *)

Section DirectoryClient.
Context `{Environment}.

Lemma split_head_prefix sep s :
  JsString.startsWith s (JsString.split_head sep s) = true.
Proof.
  induction s as [|c s IH]; simpl; [done|].
  destruct (Ascii.eqb c sep); simpl; [done|]. by rewrite Ascii.eqb_refl.
Qed.

Lemma split_head_free sep s :
  contains (JsString.split_head sep s) (String sep EmptyString) = false.
Proof.
  induction s as [|c s IH]; simpl; [done|].
  destruct (Ascii.eqb c sep) eqn:Hc; simpl; [done|].
  rewrite Ascii.eqb_sym, Hc. exact IH.
Qed.

Lemma map_throws_candidates elems texts :
  Forall2 (fun elem text => jprop elem "text_signature" = Ok (Some (JString text)))
    elems texts →
  map_throws SignatureDecoder.toSignature elems = Ok (map candidate texts).
Proof.
  induction 1 as [|elem text elems texts Helem _ IH]; simpl; [done|].
  unfold SignatureDecoder.toSignature at 1. by rewrite Helem, IH.
Qed.

(** X1. Once the cache holds the candidates of a selector, a lookup of any
    other spelling of it (other letter case, with or without the 0x prefix)
    is answered from the cache: same candidates, no request, nothing
    changed. *)
Theorem lookupSelector_any_spelling selector selector' sd w r sd1 w1 :
  SignatureDecoder.lookupSelector selector sd w = (r, sd1, w1) →
  is_Some (SignatureDecoder.cache sd1 !! SignatureDecoder.normalize selector) →
  spelledAlike selector selector' →
  SignatureDecoder.lookupSelector selector' sd1 w1 = (r, sd1, w1).
Proof.
  intros Hrun [signatures Hcached] Halike.
  destruct (lookupSelector_spec selector sd w) as (r' & sd' & w' & Hspec & Hkept).
  rewrite Hrun in Hspec. injection Hspec as -> -> ->.
  rewrite (Hkept _ Hcached).
  apply lookupSelector_hit. apply normalize_alike in Halike. by rewrite <- Halike.
Qed.

Ltac unchanged_directory Hmiss :=
  do 3 eexists; (split; [reflexivity|]); simpl;
  split_and!; [done|apply extends_refl|by intros ?%Hmiss|done|done].

(** What a lookup does to the cache and to the world. *)
Lemma lookupSelector_effects selector sd w :
  ∃ r sd' w',
    SignatureDecoder.lookupSelector selector sd w = (Ok r, sd', w')
    ∧ (∀ k, k ≠ SignatureDecoder.normalize selector →
            SignatureDecoder.cache sd' !! k = SignatureDecoder.cache sd !! k)
    ∧ extends (SignatureDecoder.cache sd) (SignatureDecoder.cache sd')
    ∧ (is_Some (SignatureDecoder.cache sd !! SignatureDecoder.normalize selector) →
       sd' = sd ∧ w' = w)
    ∧ (SignatureDecoder.cache sd !! SignatureDecoder.normalize selector = None →
       outbound w' = (outbound w ++ [(now w, directoryRequest selector)])%list)
    ∧ (r ≠ [] → SignatureDecoder.cache sd' !! SignatureDecoder.normalize selector = Some r).
Proof.
  destruct (SignatureDecoder.cache sd !! SignatureDecoder.normalize selector)
    as [signatures|] eqn:Hc.
  { rewrite (lookupSelector_hit _ _ _ _ Hc). do 3 eexists. split; [done|].
    split_and!; try done. apply extends_refl. }
  assert (Hmiss : ¬ is_Some (@None (list FunctionSignature.t))) by (by intros [? ?]).
  unfold SignatureDecoder.lookupSelector. js. rewrite Hc.
  fold (directoryRequest selector).
  destruct (axios_reply w _) as [[data|e] elapsed]; cbv beta iota;
    [|unchanged_directory Hmiss].
  destruct (jtruthy (Some data)); cbv beta iota; [|unchanged_directory Hmiss].
  destruct (jprop data "results") as [results|e]; cbv beta iota;
    [|unchanged_directory Hmiss].
  destruct (jtruthy results); cbv beta iota; [|unchanged_directory Hmiss].
  destruct (SignatureDecoder.mapResults results) as [signatures|e]; cbv beta iota;
    [|unchanged_directory Hmiss].
  do 3 eexists. split; [reflexivity|]. simpl. split_and!.
  - intros k Hk. by rewrite lookup_insert_ne.
  - by apply extends_insert.
  - by intros ?%Hmiss.
  - done.
  - intros _. by rewrite lookup_insert_eq.
Qed.

(** X2. [lookupSelector] never throws.  It touches no cache entry but the
    one of the normalised selector and overwrites none; on a hit it changes
    nothing; on a miss it sends exactly one request, to the directory, for
    the normalised selector; and an answer that is not the empty list is in
    the cache afterwards. *)
Theorem lookupSelector_frame selector sd w :
  ∃ r sd' w',
    SignatureDecoder.lookupSelector selector sd w = (Ok r, sd', w')
    ∧ (∀ k, k ≠ SignatureDecoder.normalize selector →
            SignatureDecoder.cache sd' !! k = SignatureDecoder.cache sd !! k)
    ∧ extends (SignatureDecoder.cache sd) (SignatureDecoder.cache sd')
    ∧ (is_Some (SignatureDecoder.cache sd !! SignatureDecoder.normalize selector) →
       sd' = sd ∧ w' = w)
    ∧ (SignatureDecoder.cache sd !! SignatureDecoder.normalize selector = None →
       outbound w' = (outbound w ++ [(now w, directoryRequest selector)])%list)
    ∧ (r ≠ [] → SignatureDecoder.cache sd' !! SignatureDecoder.normalize selector = Some r).
Proof. apply lookupSelector_effects. Qed.

(** X3. When the directory answers with an array of results that all have a
    text signature, [lookupSelector] returns one candidate per result, in
    the order of the answer, and caches the list (the empty list too).  The
    name of each candidate is its signature up to the first opening
    parenthesis. *)
Theorem lookupSelector_reply selector sd w data elapsed elems texts :
  SignatureDecoder.cache sd !! SignatureDecoder.normalize selector = None →
  axios_reply w (directoryRequest selector) = (Ok data, elapsed) →
  jtruthy (Some data) = true →
  jprop data "results" = Ok (Some (JArray elems)) →
  Forall2 (fun elem text => jprop elem "text_signature" = Ok (Some (JString text)))
    elems texts →
  SignatureDecoder.lookupSelector selector sd w
  = (Ok (map candidate texts),
     {| SignatureDecoder.cache :=
          <[SignatureDecoder.normalize selector := map candidate texts]>
            (SignatureDecoder.cache sd) |},
     exchanged w (directoryRequest selector) elapsed)
  ∧ Forall (fun c => JsString.startsWith (FunctionSignature.signature c)
                       (FunctionSignature.name c) = true
                     ∧ contains (FunctionSignature.name c) "(" = false)
      (map candidate texts).
Proof.
  intros Hc Hreply Hdata Hresults Helems. split.
  - unfold SignatureDecoder.lookupSelector. js. rewrite Hc.
    fold (directoryRequest selector). rewrite Hreply. cbv beta iota.
    rewrite Hdata, Hresults. cbn [jtruthy]. unfold SignatureDecoder.mapResults.
    by rewrite (map_throws_candidates _ _ Helems).
  - apply Forall_forall. intros c (text & -> & _)%list_elem_of_fmap. split.
    + apply split_head_prefix.
    + apply (split_head_free "(").
Qed.

(** X4. When the exchange with the directory fails, [lookupSelector]
    returns the empty list, writes one line on the console and caches
    nothing: the next lookup of the selector asks the directory again. *)
Theorem lookupSelector_failure selector sd w e elapsed :
  SignatureDecoder.cache sd !! SignatureDecoder.normalize selector = None →
  axios_reply w (directoryRequest selector) = (Thrown e, elapsed) →
  let w' := printed (exchanged w (directoryRequest selector) elapsed)
              ("Failed to lookup selector " ++ SignatureDecoder.normalize selector ++ ": "
               ++ describe e) in
  SignatureDecoder.lookupSelector selector sd w = (Ok [], sd, w')
  ∧ ∃ r sd'' w'',
      SignatureDecoder.lookupSelector selector sd w' = (Ok r, sd'', w'')
      ∧ length (outbound w'') = S (S (length (outbound w))).
Proof.
  intros Hc Hreply w'.
  assert (Hfirst : SignatureDecoder.lookupSelector selector sd w = (Ok [], sd, w')).
  { unfold SignatureDecoder.lookupSelector. js. rewrite Hc.
    fold (directoryRequest selector). by rewrite Hreply. }
  split; [done|].
  destruct (lookupSelector_effects selector sd w')
    as (r & sd'' & w'' & Hsecond & _ & _ & _ & Hsent & _).
  exists r, sd'', w''. split; [done|].
  rewrite (Hsent Hc). subst w'. simpl. rewrite !length_app. simpl. lia.
Qed.

Lemma map_throws_fails {A B} (f : A → Throws B) xs :
  Exists (fun x => ∀ y, f x ≠ Ok y) xs → ∃ e, map_throws f xs = Thrown e.
Proof.
  induction 1 as [x xs Hx|x xs _ IH]; simpl.
  - destruct (f x) as [y|e] eqn:Hfx; [by destruct (Hx y)|eauto].
  - destruct (f x) as [y|e]; [|eauto]. destruct IH as [e ->]. eauto.
Qed.

(** X24. One entry without a string [text_signature] in the answer of the
    directory spoils the whole answer: [lookupSelector] returns the empty
    list, writes one line on the console and caches nothing, whatever the
    other entries are. *)
Theorem lookupSelector_malformed selector sd w data elapsed elems :
  SignatureDecoder.cache sd !! SignatureDecoder.normalize selector = None →
  axios_reply w (directoryRequest selector) = (Ok data, elapsed) →
  jtruthy (Some data) = true →
  jprop data "results" = Ok (Some (JArray elems)) →
  Exists (fun elem => ∀ text, jprop elem "text_signature" ≠ Ok (Some (JString text))) elems →
  ∃ w',
    SignatureDecoder.lookupSelector selector sd w = (Ok [], sd, w')
    ∧ length (console w') = S (length (console w))
    ∧ outbound w' = (outbound w ++ [(now w, directoryRequest selector)])%list.
Proof.
  intros Hc Hreply Hdata Hresults Hbad.
  destruct (map_throws_fails SignatureDecoder.toSignature elems) as [e He].
  { eapply Exists_impl; [exact Hbad|]. intros elem Helem sig.
    unfold SignatureDecoder.toSignature.
    destruct (jprop elem "text_signature") as [[[| | |text| |]|]|] eqn:Hj; try done.
    exfalso. by apply (Helem text). }
  unfold SignatureDecoder.lookupSelector. js. rewrite Hc.
  fold (directoryRequest selector). rewrite Hreply. cbv beta iota.
  rewrite Hdata, Hresults. cbn [jtruthy]. unfold SignatureDecoder.mapResults. rewrite He.
  eexists. split; [reflexivity|]. simpl. split; [|done].
  rewrite length_app. simpl. lia.
Qed.

(** X25. After [clearCache] the signature cache is empty, and every lookup
    sends a request to the directory, whatever was cached before. *)
Theorem directory_clearCache_refetch selector sd w :
  ∃ sd0,
    SignatureDecoder.clearCache sd w = (Ok tt, sd0, w)
    ∧ SignatureDecoder.cache sd0 = ∅
    ∧ ∃ r sd' w',
        SignatureDecoder.lookupSelector selector sd0 w = (Ok r, sd', w')
        ∧ outbound w' = (outbound w ++ [(now w, directoryRequest selector)])%list.
Proof.
  eexists. split; [reflexivity|]. split; [done|].
  destruct (lookupSelector_effects selector {| SignatureDecoder.cache := ∅ |} w)
    as (r & sd' & w' & Hrun & _ & _ & _ & Hsent & _).
  exists r, sd', w'. split; [done|]. by apply Hsent.
Qed.

End DirectoryClient.

(* ------------------------------------------------------------------ *)
(** ** Selectors from signatures *)

Section Selectors.
Context `{Hashing}.

Lemma startsWith_slice_to s p n :
  JsString.startsWith s p = true → (String.length p <= n)%nat →
  JsString.startsWith (JsString.slice_to n s) p = true.
Proof.
  revert s n; induction p as [|a p IH]; intros s n Hp Hn;
    [by destruct (JsString.slice_to n s)|].
  destruct s as [|b s]; [done|]. destruct n as [|n]; [simpl in Hn; lia|].
  simpl in *. destruct (Ascii.eqb a b); [|done]. apply IH; [done|lia].
Qed.

(** X5. When viem's hash is a lower-case hex string that starts with 0x,
    [verifySignature] accepts the selector that [generateSelector] gives
    for the same signature, and it accepts no selector that is written
    without the 0x prefix (which [lookupSelector] does accept). *)
Theorem verifySignature_generated signature :
  (∀ x, JsString.toLowerCase (keccak256 x) = keccak256 x) →
  (∀ x, JsString.startsWith (keccak256 x) "0x" = true) →
  Selector.verifySignature signature (Selector.generateSelector signature) = true
  ∧ ∀ selector,
      Selector.verifySignature signature selector = true →
      JsString.startsWith (JsString.toLowerCase selector) "0x" = true.
Proof.
  intros Hlower Hprefix. unfold Selector.verifySignature, Selector.generateSelector.
  split.
  - rewrite toLowerCase_slice_to, Hlower. apply String.eqb_refl.
  - intros selector Heq. apply String.eqb_eq in Heq. rewrite <- Heq.
    apply startsWith_slice_to; [apply Hprefix|simpl; lia].
Qed.

End Selectors.

(* ------------------------------------------------------------------ *)
(** ** The Etherscan client *)

Section RegistryClient.
Context `{Environment} `{Runtime}.

Lemma etherscanRequest_params c action address :
  {| url := EtherscanClient.baseUrl c;
     params :=
       match EtherscanClient.apiKey c with
       | Some key =>
           if JsString.truthy key
           then ([("chainid", PNum (EtherscanClient.chainId c)); ("module", PStr "contract");
                  ("action", PStr action);
                  ("address", PStr (JsString.toLowerCase address))]
                 ++ [("apikey", PStr key)])%list
           else [("chainid", PNum (EtherscanClient.chainId c)); ("module", PStr "contract");
                 ("action", PStr action);
                 ("address", PStr (JsString.toLowerCase address))]
       | None => [("chainid", PNum (EtherscanClient.chainId c)); ("module", PStr "contract");
                  ("action", PStr action);
                  ("address", PStr (JsString.toLowerCase address))]
       end;
     timeout := 10000 |}
  = etherscanRequest c action address.
Proof.
  unfold etherscanRequest, EtherscanClient.configured.
  destruct (EtherscanClient.apiKey c) as [key|]; [|done].
  by destruct (JsString.truthy key).
Qed.

Ltac unchanged_registry Hmiss Hc c :=
  do 3 eexists; (split; [reflexivity|]); simpl;
  split_and!; [by rewrite Hc|done|apply extends_refl|by destruct c|by intros ?%Hmiss|done].

(** What [getContractAbi] does to the client and to the world. *)
Lemma getContractAbi_effects address c w :
  ∃ r c' w',
    EtherscanClient.getContractAbi address c w = (Ok r, c', w')
    ∧ r = default JNull (EtherscanClient.cache c' !! JsString.toLowerCase address)
    ∧ (∀ k, k ≠ JsString.toLowerCase address →
            EtherscanClient.cache c' !! k = EtherscanClient.cache c !! k)
    ∧ extends (EtherscanClient.cache c) (EtherscanClient.cache c')
    ∧ c' = EtherscanClient.set_cache (EtherscanClient.cache c') c
    ∧ (is_Some (EtherscanClient.cache c !! JsString.toLowerCase address) →
       c' = c ∧ w' = w)
    ∧ (EtherscanClient.cache c !! JsString.toLowerCase address = None →
       outbound w' = (outbound w ++ [(now w, etherscanRequest c "getabi" address)])%list).
Proof.
  destruct (EtherscanClient.cache c !! JsString.toLowerCase address) as [abi|] eqn:Hc.
  { rewrite (getContractAbi_hit _ _ _ _ Hc). do 3 eexists. split; [done|].
    split_and!; try done; [by rewrite Hc|apply extends_refl|by destruct c]. }
  assert (Hmiss : ¬ is_Some (@None Json)) by (by intros [? ?]).
  unfold EtherscanClient.getContractAbi. js. rewrite Hc.
  rewrite etherscanRequest_params.
  destruct (axios_reply w _) as [[data|e] elapsed]; cbv beta iota;
    [|unchanged_registry Hmiss Hc c].
  destruct (jprop data "status") as [status|e]; cbv beta iota;
    [|unchanged_registry Hmiss Hc c].
  destruct (strictEq status "1"); cbv beta iota; [|unchanged_registry Hmiss Hc c].
  destruct (jprop data "result") as [[result|]|e]; cbv beta iota;
    [|unchanged_registry Hmiss Hc c..].
  destruct (jtruthy (Some result)); cbv beta iota; [|unchanged_registry Hmiss Hc c].
  destruct (JSON_parse result) as [abi|e]; cbv beta iota; [|unchanged_registry Hmiss Hc c].
  do 3 eexists. split; [reflexivity|]. simpl. split_and!.
  - by rewrite lookup_insert_eq.
  - intros k Hk. by rewrite lookup_insert_ne.
  - by apply extends_insert.
  - done.
  - by intros ?%Hmiss.
  - done.
Qed.

(** X6. [getContractAbi] never throws.  What it returns is the value the
    cache holds for the lower-cased address afterwards, whatever that value
    is, and [null] when the cache holds nothing for the address.  It changes
    no field of the client but the interface cache, where it touches the
    entry of that address only and overwrites nothing; on a hit it changes
    nothing at all; on a miss it sends exactly one request, for the
    lower-cased address and with the key when one is configured. *)
Theorem getContractAbi_frame address c w :
  ∃ r c' w',
    EtherscanClient.getContractAbi address c w = (Ok r, c', w')
    ∧ r = default JNull (EtherscanClient.cache c' !! JsString.toLowerCase address)
    ∧ (∀ k, k ≠ JsString.toLowerCase address →
            EtherscanClient.cache c' !! k = EtherscanClient.cache c !! k)
    ∧ extends (EtherscanClient.cache c) (EtherscanClient.cache c')
    ∧ c' = EtherscanClient.set_cache (EtherscanClient.cache c') c
    ∧ (is_Some (EtherscanClient.cache c !! JsString.toLowerCase address) →
       c' = c ∧ w' = w)
    ∧ (EtherscanClient.cache c !! JsString.toLowerCase address = None →
       outbound w' = (outbound w ++ [(now w, etherscanRequest c "getabi" address)])%list).
Proof. apply getContractAbi_effects. Qed.

(** X7. Once the cache holds the interface of an address, a lookup of the
    same address in any letter case is answered from the cache: same
    interface, no request, nothing changed. *)
Theorem getContractAbi_any_case address address' c w r c1 w1 :
  EtherscanClient.getContractAbi address c w = (r, c1, w1) →
  is_Some (EtherscanClient.cache c1 !! JsString.toLowerCase address) →
  JsString.toLowerCase address' = JsString.toLowerCase address →
  EtherscanClient.getContractAbi address' c1 w1 = (r, c1, w1).
Proof.
  intros Hrun [abi Hcached] Hcase.
  destruct (getContractAbi_spec address c w) as (r' & c' & w' & Hspec & Hkept).
  rewrite Hrun in Hspec. injection Hspec as -> -> ->.
  rewrite (Hkept _ Hcached). apply getContractAbi_hit. by rewrite Hcase.
Qed.

(** What [getContractAbi] does on a miss when the reply is not one of a
    verified contract: nothing but the exchange. *)
Lemma getContractAbi_not_verified address c w data elapsed status :
  EtherscanClient.cache c !! JsString.toLowerCase address = None →
  axios_reply w (etherscanRequest c "getabi" address) = (Ok data, elapsed) →
  jprop data "status" = Ok status →
  strictEq status "1" = false →
  EtherscanClient.getContractAbi address c w
  = (Ok JNull, c, exchanged w (etherscanRequest c "getabi" address) elapsed).
Proof.
  intros Hmiss Hreply Hstatus Hno.
  unfold EtherscanClient.getContractAbi. js. rewrite Hmiss, etherscanRequest_params.
  by rewrite Hreply, Hstatus, Hno.
Qed.

(** X8. A reply of Etherscan whose status is not the string 1 (the contract
    is not verified) is not remembered: the lookup returns [null], writes
    nothing and leaves the client exactly as it was, and the next lookup of
    the address sends a request again. *)
Theorem getContractAbi_unverified_not_cached address c w data elapsed status :
  EtherscanClient.cache c !! JsString.toLowerCase address = None →
  axios_reply w (etherscanRequest c "getabi" address) = (Ok data, elapsed) →
  jprop data "status" = Ok status →
  strictEq status "1" = false →
  let w' := exchanged w (etherscanRequest c "getabi" address) elapsed in
  EtherscanClient.getContractAbi address c w = (Ok JNull, c, w')
  ∧ ∃ r c'' w'',
      EtherscanClient.getContractAbi address c w' = (Ok r, c'', w'')
      ∧ outbound w''
        = (outbound w ++ [(now w, etherscanRequest c "getabi" address);
                          (now w', etherscanRequest c "getabi" address)])%list.
Proof.
  intros Hmiss Hreply Hstatus Hno w'.
  split; [by apply (getContractAbi_not_verified address c w data elapsed status)|].
  destruct (getContractAbi_effects address c w')
    as (r & c2 & w2 & Hrun2 & _ & _ & _ & _ & _ & Hsent).
  exists r, c2, w2. split; [done|]. rewrite (Hsent Hmiss). simpl.
  by rewrite <- app_assoc.
Qed.

(** What [getContractAbi] does on a miss when the reply carries a text that
    [JSON.parse] accepts. *)
Lemma getContractAbi_parsed address c w data elapsed status result abi :
  EtherscanClient.cache c !! JsString.toLowerCase address = None →
  axios_reply w (etherscanRequest c "getabi" address) = (Ok data, elapsed) →
  jprop data "status" = Ok status →
  strictEq status "1" = true →
  jprop data "result" = Ok (Some result) →
  jtruthy (Some result) = true →
  JSON_parse result = Ok abi →
  EtherscanClient.getContractAbi address c w
  = (Ok abi,
     EtherscanClient.set_cache (<[JsString.toLowerCase address := abi]> (EtherscanClient.cache c)) c,
     exchanged w (etherscanRequest c "getabi" address) elapsed).
Proof.
  intros Hmiss Hreply Hstatus Hyes Hresult Htruthy Hparse.
  unfold EtherscanClient.getContractAbi. js. rewrite Hmiss, etherscanRequest_params.
  by rewrite Hreply, Hstatus, Hyes, Hresult, Htruthy, Hparse.
Qed.

(** X27. Whatever [JSON.parse] returns for the result of a reply with
    status 1 is stored and returned as the interface, [null] and any other
    value that is no interface included.  The next lookup of the address is
    then answered from the cache with that very value and sends nothing; a
    [null] returned by [getContractAbi] can therefore come from the
    cache. *)
Theorem getContractAbi_parsed_cached address c w data elapsed status result abi :
  EtherscanClient.cache c !! JsString.toLowerCase address = None →
  axios_reply w (etherscanRequest c "getabi" address) = (Ok data, elapsed) →
  jprop data "status" = Ok status →
  strictEq status "1" = true →
  jprop data "result" = Ok (Some result) →
  jtruthy (Some result) = true →
  JSON_parse result = Ok abi →
  ∃ c' w',
    EtherscanClient.getContractAbi address c w = (Ok abi, c', w')
    ∧ EtherscanClient.cache c' !! JsString.toLowerCase address = Some abi
    ∧ outbound w' = (outbound w ++ [(now w, etherscanRequest c "getabi" address)])%list
    ∧ EtherscanClient.getContractAbi address c' w' = (Ok abi, c', w').
Proof.
  intros Hmiss Hreply Hstatus Hyes Hresult Htruthy Hparse.
  do 2 eexists. split.
  { by apply (getContractAbi_parsed address c w data elapsed status result abi). }
  assert (Hhit : EtherscanClient.cache
            (EtherscanClient.set_cache
               (<[JsString.toLowerCase address := abi]> (EtherscanClient.cache c)) c)
            !! JsString.toLowerCase address = Some abi)
    by (simpl; by rewrite lookup_insert_eq).
  split_and!; [done|done|]. by apply getContractAbi_hit.
Qed.

(** X28. When the exchange with Etherscan fails, or [JSON.parse] rejects the
    result of a reply with status 1, [getContractAbi] returns [null], writes
    one line on the console and stores nothing: the client is exactly as it
    was. *)
Theorem getContractAbi_failure address c w reply elapsed e :
  EtherscanClient.cache c !! JsString.toLowerCase address = None →
  axios_reply w (etherscanRequest c "getabi" address) = (reply, elapsed) →
  (reply = Thrown e
   ∨ ∃ data status result,
       reply = Ok data ∧ jprop data "status" = Ok status ∧ strictEq status "1" = true
       ∧ jprop data "result" = Ok (Some result) ∧ jtruthy (Some result) = true
       ∧ JSON_parse result = Thrown e) →
  EtherscanClient.getContractAbi address c w
  = (Ok JNull, c,
     printed (exchanged w (etherscanRequest c "getabi" address) elapsed)
       ("Failed to fetch ABI for " ++ address ++ ": " ++ describe e)).
Proof.
  intros Hmiss Hreply Hcause.
  unfold EtherscanClient.getContractAbi. js. rewrite Hmiss, etherscanRequest_params.
  rewrite Hreply.
  destruct Hcause
    as [->|(data & status & result & -> & Hstatus & Hyes & Hresult & Htruthy & Hparse)].
  - by destruct c.
  - rewrite Hstatus, Hyes, Hresult, Htruthy, Hparse. by destruct c.
Qed.

(** X9. [isContractVerified] never throws, and it answers [true] exactly
    when the cache afterwards holds, for the address, a value other than
    [null]: a cached [null] gives [false]. *)
Theorem isContractVerified_cached address c w :
  ∃ b c' w',
    Registry.isContractVerified address c w = (Ok b, c', w')
    ∧ (b = true ↔ ∃ abi, EtherscanClient.cache c' !! JsString.toLowerCase address = Some abi
                         ∧ abi ≠ JNull).
Proof.
  unfold Registry.isContractVerified. js.
  destruct (getContractAbi_effects address c w) as (r & c' & w' & -> & Hr & _).
  do 3 eexists. split; [reflexivity|].
  destruct (EtherscanClient.cache c' !! JsString.toLowerCase address) as [abi|];
    simpl in Hr; subst r.
  - destruct abi; split; try done; try (intros _; eexists; by split);
      by intros (? & [= <-] & ?).
  - split; [done|]. by intros (? & ? & ?).
Qed.

(** X10. [clearCache] empties both caches and keeps the key, the interval
    and the recorded time of the last request; after it, every lookup of an
    interface sends a request, whatever was cached before. *)
Theorem clearCache_refetch address c w :
  ∃ c0,
    Registry.clearCache c w = (Ok tt, c0, w)
    ∧ EtherscanClient.cache c0 = ∅
    ∧ EtherscanClient.nameCache c0 = ∅
    ∧ EtherscanClient.apiKey c0 = EtherscanClient.apiKey c
    ∧ EtherscanClient.minRequestInterval c0 = EtherscanClient.minRequestInterval c
    ∧ EtherscanClient.lastRequestTime c0 = EtherscanClient.lastRequestTime c
    ∧ ∃ r c' w',
        EtherscanClient.getContractAbi address c0 w = (Ok r, c', w')
        ∧ outbound w' = (outbound w ++ [(now w, etherscanRequest c "getabi" address)])%list.
Proof.
  eexists. split; [reflexivity|]. split_and!; try done.
  destruct (getContractAbi_effects address (Registry.set_caches ∅ ∅ c) w)
    as (r & c' & w' & Hrun & _ & _ & _ & _ & _ & Hsent).
  exists r, c', w'. split; [done|]. by apply Hsent.
Qed.

(** X11. [setApiKey] changes the key that later requests carry and nothing
    else: the interval between requests stays the one the constructor
    chose. *)
Theorem setApiKey_requests apiKey address c w :
  JsString.truthy apiKey = true →
  ∃ c1,
    Registry.setApiKey apiKey c w = (Ok tt, c1, w)
    ∧ EtherscanClient.minRequestInterval c1 = EtherscanClient.minRequestInterval c
    ∧ EtherscanClient.cache c1 = EtherscanClient.cache c
    ∧ (EtherscanClient.cache c !! JsString.toLowerCase address = None →
       ∃ r c' w' req,
         EtherscanClient.getContractAbi address c1 w = (Ok r, c', w')
         ∧ outbound w' = (outbound w ++ [(now w, req)])%list
         ∧ assoc "apikey" (params req) = Some (PStr apiKey)).
Proof.
  intros Hkey. eexists. split; [reflexivity|]. split_and!; try done.
  intros Hmiss.
  destruct (getContractAbi_effects address (Registry.set_apiKey (Some apiKey) c) w)
    as (r & c' & w' & Hrun & _ & _ & _ & _ & _ & Hsent).
  exists r, c', w', (etherscanRequest (Registry.set_apiKey (Some apiKey) c) "getabi" address).
  split; [done|]. split; [by apply Hsent|].
  unfold etherscanRequest, EtherscanClient.configured. simpl. by rewrite Hkey.
Qed.

End RegistryClient.

(* ------------------------------------------------------------------ *)
(** ** The pacing gate at work *)

Section Pacing.
Context `{Environment} `{Runtime}.

(** The time at which [throttle] returns. *)
Lemma throttle_exact c w :
  ∃ w1,
    EtherscanClient.throttle c w
    = (Ok tt,
       EtherscanClient.set_lastRequestTime
         (Z.max (now w)
            (EtherscanClient.lastRequestTime c + EtherscanClient.minRequestInterval c)) c,
       w1)
    ∧ now w1 = Z.max (now w)
                 (EtherscanClient.lastRequestTime c + EtherscanClient.minRequestInterval c)
    ∧ outbound w1 = outbound w.
Proof.
  unfold EtherscanClient.throttle. js.
  destruct (_ <? _) eqn:Hlt.
  - apply Z.ltb_lt in Hlt.
    assert (now w + Z.max 0 (EtherscanClient.minRequestInterval c
                             - (now w - EtherscanClient.lastRequestTime c))
            = Z.max (now w) (EtherscanClient.lastRequestTime c
                             + EtherscanClient.minRequestInterval c)) as Ht by lia.
    destruct (EtherscanClient.verbose c); simpl; rewrite Ht; eauto.
  - apply Z.ltb_ge in Hlt.
    assert (now w = Z.max (now w) (EtherscanClient.lastRequestTime c
                                   + EtherscanClient.minRequestInterval c)) as Ht by lia.
    simpl. rewrite <- Ht. eauto.
Qed.

Lemma quiet_ret {S A} (a : A) : quiet (ret (S:=S) a).
Proof. intros s w. by exists (Ok a), w. Qed.

Lemma quiet_lift {S A} (r : Throws A) : quiet (lift (S:=S) r).
Proof. intros s w. by exists r, w. Qed.

Lemma quiet_console_error {S} line : quiet (console_error (S:=S) line).
Proof. intros s w. by eexists (Ok tt), _. Qed.

Lemma quiet_bind {S A B} (m : Js S A) (k : A → Js S B) :
  quiet m → (∀ a, quiet (k a)) → quiet (bind m k).
Proof.
  intros Hm Hk s w. unfold bind.
  destruct (Hm s w) as ([a|e] & w1 & -> & Hnow & Hout); [|eauto].
  destruct (Hk a s w1) as (r & w2 & -> & Hnow2 & Hout2).
  exists r, w2. split; [done|]. split; congruence.
Qed.

Lemma quiet_try_catch {S A} (m : Js S A) (h : JsError → Js S A) :
  quiet m → (∀ e, quiet (h e)) → quiet (try_catch m h).
Proof.
  intros Hm Hh s w. unfold try_catch.
  destruct (Hm s w) as ([a|e] & w1 & -> & Hnow & Hout); [eauto|].
  destruct (Hh e s w1) as (r & w2 & -> & Hnow2 & Hout2).
  exists r, w2. split; [done|]. split; congruence.
Qed.

(** The report of a reply writes to the console only. *)
Lemma reportReply_quiet address data : quiet (Registry.reportReply address data).
Proof.
  unfold Registry.reportReply.
  apply quiet_bind; [apply quiet_lift|intros status].
  apply quiet_bind; [apply quiet_lift|intros message].
  destruct (strictEq status "0" && jtruthy message); [|apply quiet_ret].
  apply quiet_bind; [apply quiet_lift|intros [|]]; [apply quiet_console_error|].
  apply quiet_bind; [apply quiet_lift|intros result].
  apply quiet_bind.
  - destruct (jtruthy result); [apply quiet_lift|apply quiet_ret].
  - intros [|]; [apply quiet_console_error|].
    apply quiet_bind; [apply quiet_lift|intros text; apply quiet_console_error].
Qed.

Lemma readReply_quiet address data : quiet (Registry.readReply address data).
Proof.
  unfold Registry.readReply.
  apply quiet_bind; [apply quiet_lift|intros status].
  apply quiet_bind.
  - destruct (strictEq status "1"); [|apply quiet_ret].
    apply quiet_bind; [apply quiet_lift|intros [result|]]; [|apply quiet_ret].
    destruct (jtruthy (Some result)); [|apply quiet_ret].
    apply quiet_bind; [apply quiet_lift|intros len].
    apply quiet_bind; [apply quiet_lift|intros some; apply quiet_ret].
  - intros [first|]; [apply quiet_ret|].
    apply quiet_bind; [apply reportReply_quiet|intros _; apply quiet_ret].
Qed.

Lemma reportFailure_quiet address error :
  quiet (Registry.reportFailure address error)
  ∧ returns (Registry.reportFailure address error).
Proof.
  unfold Registry.reportFailure. split.
  - apply quiet_bind; [|intros _; apply quiet_ret].
    destruct (bool_decide _); apply quiet_console_error.
  - intros s w. js. destruct (bool_decide _); eauto.
Qed.

(** What [getSourceCodeInfo] does to the client and to the world. *)
Lemma getSourceCodeInfo_effects address c w :
  let sent := Z.max (now w)
                (EtherscanClient.lastRequestTime c + EtherscanClient.minRequestInterval c) in
  ∃ r w',
    Registry.getSourceCodeInfo address c w
    = (Ok r, EtherscanClient.set_lastRequestTime sent c, w')
    ∧ outbound w'
      = (outbound w ++ [(sent, etherscanRequest c "getsourcecode" address)])%list.
Proof.
  intros sent. unfold Registry.getSourceCodeInfo. unfold bind at 1.
  destruct (throttle_exact c w) as (w1 & -> & Hnow & Hout). fold sent in Hnow |- *.
  set (c1 := EtherscanClient.set_lastRequestTime sent c).
  unfold try_catch. unfold bind at 1, this at 1. unfold bind at 1, axios_get at 1.
  cbv zeta. rewrite (etherscanRequest_params c1 "getsourcecode" address).
  change (etherscanRequest c1 "getsourcecode" address)
    with (etherscanRequest c "getsourcecode" address).
  destruct (axios_reply w1 _) as [reply elapsed]. rewrite Hnow, Hout.
  set (w2 := {| now := sent + Z.of_N elapsed; outbound := _; console := console w1 |}).
  assert (Hcatch : ∀ error (w3 : World),
    outbound w3 = outbound w2 →
    ∃ r w', Registry.reportFailure address error c1 w3 = (Ok r, c1, w')
            ∧ outbound w' = outbound w2).
  { intros error w3 Hw3.
    destruct (reportFailure_quiet address error) as [Hquiet Hreturns].
    destruct (Hquiet c1 w3) as (r & w' & Heq & _ & Hout').
    destruct (Hreturns c1 w3) as (a & s' & w'' & Heq'). rewrite Heq in Heq'.
    injection Heq' as -> <- <-. exists a, w'. split; [done|]. congruence. }
  destruct reply as [data|e]; [|by apply Hcatch].
  destruct (readReply_quiet address data c1 w2) as ([r|e] & w3 & -> & _ & Hw3).
  - eauto.
  - by apply Hcatch.
Qed.

(** X12. [getSourceCodeInfo] never throws and sends exactly one request.
    The request leaves no earlier than one interval after the time the
    client had recorded for its last request, and that time is replaced by
    the time of this request; no other field of the client changes. *)
Theorem getSourceCodeInfo_paced address c w :
  ∃ r c' w' sent,
    Registry.getSourceCodeInfo address c w = (Ok r, c', w')
    ∧ outbound w'
      = (outbound w ++ [(sent, etherscanRequest c "getsourcecode" address)])%list
    ∧ EtherscanClient.lastRequestTime c + EtherscanClient.minRequestInterval c <= sent
    ∧ now w <= sent
    ∧ c' = EtherscanClient.set_lastRequestTime sent c.
Proof.
  destruct (getSourceCodeInfo_effects address c w) as (r & w' & Hrun & Hout).
  do 4 eexists. split; [exact Hrun|]. split; [exact Hout|]. split_and!; [lia|lia|done].
Qed.

Lemma paced_snoc interval log sent req :
  paced interval log = true → 
  match last log with Some (t, _) => interval <= sent - t | None => True end →
  paced interval (log ++ [(sent, req)]) = true.
Proof.
  induction log as [|[t1 r1] log IH]; [done|].
  destruct log as [|[t2 r2] log].
  - simpl. intros _ Hlast. apply andb_true_iff. split; [by apply Z.leb_le|done].
  - intros Hp Hlast.
    change (paced interval ((t1, r1) :: (t2, r2) :: log)) with
      ((interval <=? t2 - t1) && paced interval ((t2, r2) :: log)) in Hp.
    apply andb_true_iff in Hp as [H12 Hp].
    change (((interval <=? t2 - t1)
             && paced interval (((t2, r2) :: log) ++ [(sent, req)])) = true).
    apply andb_true_iff. split; [done|]. apply IH; [done|].
    by rewrite last_cons_cons in Hlast.
Qed.

(** X13. The pacing invariant is kept by [getSourceCodeInfo]: if every
    request of the log left at least one interval after the one before it,
    and none after the time recorded by the client, this is still so after
    the call.  (It is [getContractAbi] that breaks the invariant.) *)
Theorem getSourceCodeInfo_keeps_pace address c w r c' w' :
  wellPaced c w →
  Registry.getSourceCodeInfo address c w = (r, c', w') →
  wellPaced c' w'.
Proof.
  intros (Hinterval & Hpaced & Hlast) Hrun.
  destruct (getSourceCodeInfo_effects address c w) as (r1 & w1 & Hrun1 & Hout).
  rewrite Hrun in Hrun1. injection Hrun1 as -> -> ->.
  unfold wellPaced. rewrite Hout. simpl. split_and!.
  - done.
  - apply paced_snoc; [done|]. unfold lastSentBy in Hlast.
    destruct (last (outbound w)) as [[t ?]|]; [lia|done].
  - unfold lastSentBy. by rewrite last_snoc.
Qed.

End Pacing.

(* ------------------------------------------------------------------ *)
(** ** More on the call resolver *)

Section CallResolverTraffic.
Context `{Environment}.

Lemma trySignatures_skip before rest target callData :
  existsb (candidateDecodes callData) before = false →
  MulticallDecoder.trySignatures (before ++ rest)%list target callData
  = MulticallDecoder.trySignatures rest target callData.
Proof.
  induction before as [|sig before IH]; [done|].
  simpl. intros [Hsig Hbefore]%orb_false_iff.
  unfold candidateDecodes in Hsig. unfold MulticallDecoder.decodeWithSignature.
  destruct (parseAbiItem _) as [abiItem|e]; [|by apply IH].
  destruct (decodeFunctionData (JArray [abiItem]) callData); [done|by apply IH].
Qed.

(** X14. When the registry gives no call and some candidate of the
    directory decodes the call data, [decodeCall] reports the first such
    candidate in the order of the directory's answer: its name, its
    signature and the decoded arguments (the empty list when viem gives
    none). *)
Theorem decodeCall_decoding_candidate target callData d w abi c' w1 before sig after
    sd' w2 abiItem decoded :
  EtherscanClient.getContractAbi target (MulticallDecoder.etherscanClient d) w
    = (Ok abi, c', w1) →
  registryDecodes abi callData = false →
  SignatureDecoder.lookupSelector (JsString.slice_to 10 callData)
    (MulticallDecoder.signatureDecoder d) w1 = (Ok (before ++ sig :: after)%list, sd', w2) →
  existsb (candidateDecodes callData) before = false →
  parseAbiItem ("function " ++ FunctionSignature.signature sig) = Ok abiItem →
  decodeFunctionData (JArray [abiItem]) callData = Ok decoded →
  MulticallDecoder.decodeCall target callData d w
  = (Ok {| DecodedCall.target := target;
           DecodedCall.functionName := FunctionSignature.name sig;
           DecodedCall.functionSignature := FunctionSignature.signature sig;
           DecodedCall.args := Some (default [] (Decoded.args decoded));
           DecodedCall.rawCallData := callData |},
     MulticallDecoder.set_signatureDecoder sd' (MulticallDecoder.set_etherscanClient c' d),
     w2).
Proof.
  intros Habi Hreg Hdir Hbefore Hparse Hdecode.
  rewrite (decodeCall_directory _ _ _ _ _ _ _ _ _ _ Habi Hreg Hdir).
  unfold viaDirectory.
  assert (MulticallDecoder.trySignatures (before ++ sig :: after)%list target callData
          = Some {| DecodedCall.target := target;
                    DecodedCall.functionName := FunctionSignature.name sig;
                    DecodedCall.functionSignature := FunctionSignature.signature sig;
                    DecodedCall.args := Some (default [] (Decoded.args decoded));
                    DecodedCall.rawCallData := callData |}) as Htry.
  { rewrite (trySignatures_skip _ _ _ _ Hbefore). simpl.
    unfold MulticallDecoder.decodeWithSignature. by rewrite Hparse, Hdecode. }
  rewrite Htry. by destruct (before ++ sig :: after)%list.
Qed.

(** X15. When the registry gives an interface that decodes the call data,
    the directory is not asked: the signature decoder is untouched and the
    world is the one the registry lookup left.  The call carries the name and
    the arguments viem decoded. *)
Theorem decodeCall_registry_first target callData d w abi c' w1 :
  EtherscanClient.getContractAbi target (MulticallDecoder.etherscanClient d) w
    = (Ok abi, c', w1) →
  registryDecodes abi callData = true →
  ∃ call decoded,
    decodeFunctionData abi callData = Ok decoded
    ∧ MulticallDecoder.decodeCall target callData d w
      = (Ok call, MulticallDecoder.set_etherscanClient c' d, w1)
    ∧ DecodedCall.functionName call = Decoded.functionName decoded
    ∧ DecodedCall.args call = Decoded.args decoded
    ∧ MulticallDecoder.signatureDecoder (MulticallDecoder.set_etherscanClient c' d)
      = MulticallDecoder.signatureDecoder d.
Proof.
  intros Habi Hdecodes. rewrite decodeCall_eq, Habi. cbv zeta.
  destruct (viaRegistry abi target callData) as [call|] eqn:Hreg.
  - apply viaRegistry_Some in Hreg as (decoded & _ & Hd & _ & Hname & Hargs & _).
    by exists call, decoded.
  - apply viaRegistry_None in Hreg. congruence.
Qed.

(** X29. A value of the registry that is no array ([null], a number, a
    string, an object: whatever [JSON.parse] gave) never yields a call,
    whatever viem makes of it: [abi.find] raises inside the [try] block at
    the latest.  The call is then resolved through the directory. *)
Theorem decodeCall_no_interface target callData d w abi c' w1 signatures sd' w2 :
  EtherscanClient.getContractAbi target (MulticallDecoder.etherscanClient d) w
    = (Ok abi, c', w1) →
  (∀ items, abi ≠ JArray items) →
  SignatureDecoder.lookupSelector (JsString.slice_to 10 callData)
    (MulticallDecoder.signatureDecoder d) w1 = (Ok signatures, sd', w2) →
  registryDecodes abi callData = false
  ∧ MulticallDecoder.decodeCall target callData d w
    = (Ok (viaDirectory signatures target callData),
       MulticallDecoder.set_signatureDecoder sd' (MulticallDecoder.set_etherscanClient c' d),
       w2).
Proof.
  intros Habi Hplain Hdir.
  assert (registryDecodes abi callData = false) as Hreg.
  { unfold registryDecodes. destruct (jtruthy (Some abi)); [|done]. cbn [andb].
    destruct (decodeFunctionData abi callData) as [decoded|e]; [|done].
    destruct abi; try done. by destruct (Hplain elems). }
  split; [done|]. by apply (decodeCall_directory _ _ _ _ abi c' w1).
Qed.

(** The traffic of one resolution. *)
Lemma decodeCall_effects target callData d w :
  ∃ call d' w' first second,
    MulticallDecoder.decodeCall target callData d w = (Ok call, d', w')
    ∧ outbound w' = (outbound w ++ first ++ second)%list
    ∧ match EtherscanClient.cache (MulticallDecoder.etherscanClient d)
              !! JsString.toLowerCase target with
      | Some _ => first = []
      | None => first = [(now w, etherscanRequest (MulticallDecoder.etherscanClient d)
                                   "getabi" target)]
      end
    ∧ (second = []
       ∨ ∃ sent, second = [(sent, directoryRequest (JsString.slice_to 10 callData))])
    ∧ extends (EtherscanClient.cache (MulticallDecoder.etherscanClient d))
        (EtherscanClient.cache (MulticallDecoder.etherscanClient d'))
    ∧ extends (SignatureDecoder.cache (MulticallDecoder.signatureDecoder d))
        (SignatureDecoder.cache (MulticallDecoder.signatureDecoder d'))
    ∧ MulticallDecoder.verbose d' = MulticallDecoder.verbose d.
Proof.
  rewrite decodeCall_eq.
  destruct (getContractAbi_effects target (MulticallDecoder.etherscanClient d) w)
    as (abi & c' & w1 & -> & _ & _ & Hext & _ & Hhit & Hmiss).
  cbv zeta.
  assert (Hfirst : ∃ first,
    outbound w1 = (outbound w ++ first)%list
    ∧ match EtherscanClient.cache (MulticallDecoder.etherscanClient d)
              !! JsString.toLowerCase target with
      | Some _ => first = []
      | None => first = [(now w, etherscanRequest (MulticallDecoder.etherscanClient d)
                                   "getabi" target)]
      end).
  { destruct (EtherscanClient.cache _ !! _) as [a|] eqn:Hc.
    - destruct Hhit as [_ ->]; [by eexists|]. exists []. by rewrite app_nil_r.
    - eexists. split; [by apply Hmiss|done]. }
  destruct Hfirst as (first & Hout1 & Hfirst).
  destruct (viaRegistry abi target callData) as [call|].
  { exists call, (MulticallDecoder.set_etherscanClient c' d), w1, first, [].
    rewrite app_nil_r. split_and!; try done; [by left|apply extends_refl]. }
  destruct (lookupSelector_effects (JsString.slice_to 10 callData)
              (MulticallDecoder.signatureDecoder d) w1)
    as (signatures & sd' & w2 & -> & _ & Hext2 & Hhit2 & Hmiss2 & _).
  assert (Hsecond : ∃ second,
    outbound w2 = (outbound w1 ++ second)%list
    ∧ (second = []
       ∨ ∃ sent, second = [(sent, directoryRequest (JsString.slice_to 10 callData))])).
  { destruct (SignatureDecoder.cache _ !! _) as [a|] eqn:Hc.
    - destruct Hhit2 as [_ ->]; [by eexists|]. exists []. rewrite app_nil_r. by split; [|left].
    - eexists. split; [by apply Hmiss2|]. right. by eexists. }
  destruct Hsecond as (second & Hout2 & Hsecond).
  exists (viaDirectory signatures target callData),
    (MulticallDecoder.set_signatureDecoder sd' (MulticallDecoder.set_etherscanClient c' d)),
    w2, first, second.
  split; [done|]. rewrite Hout2, Hout1, <- app_assoc. by split_and!.
Qed.

(** X16. One resolution sends at most two requests: at most one to
    Etherscan, and only when the interface of the target is not cached,
    then at most one to the directory.  It never removes or changes an entry
    of either cache. *)
Theorem decodeCall_traffic target callData d w :
  ∃ call d' w' first second,
    MulticallDecoder.decodeCall target callData d w = (Ok call, d', w')
    ∧ outbound w' = (outbound w ++ first ++ second)%list
    ∧ match EtherscanClient.cache (MulticallDecoder.etherscanClient d)
              !! JsString.toLowerCase target with
      | Some _ => first = []
      | None => first = [(now w, etherscanRequest (MulticallDecoder.etherscanClient d)
                                   "getabi" target)]
      end
    ∧ (second = []
       ∨ ∃ sent, second = [(sent, directoryRequest (JsString.slice_to 10 callData))])
    ∧ extends (EtherscanClient.cache (MulticallDecoder.etherscanClient d))
        (EtherscanClient.cache (MulticallDecoder.etherscanClient d'))
    ∧ extends (SignatureDecoder.cache (MulticallDecoder.signatureDecoder d))
        (SignatureDecoder.cache (MulticallDecoder.signatureDecoder d'))
    ∧ MulticallDecoder.verbose d' = MulticallDecoder.verbose d.
Proof. apply decodeCall_effects. Qed.

End CallResolverTraffic.

(* ------------------------------------------------------------------ *)
(** ** Decoding a batch *)

Section BatchDecoding.
Context `{Environment}.

Lemma decodeCallOf_answers call d w :
  Batch.wellTyped call = true →
  ∃ decoded d' w',
    Batch.decodeCallOf call d w = (Ok decoded, d', w') ∧ Batch.answers call decoded.
Proof.
  unfold Batch.wellTyped, Batch.decodeCallOf, Batch.answers.
  destruct (MulticallCall.target call) as [[| | |target| |]|]; try done.
  destruct (MulticallCall.callData call) as [[| | |callData| |]|]; try done.
  intros _.
  destruct (decodeCall_returns target callData d w)
    as (decoded & d' & w' & Hrun & Htarget & Hraw).
  exists decoded, d', w'. by rewrite Hrun, Htarget, Hraw.
Qed.

Lemma decodeEach_answers calls decodedCalls d w :
  forallb Batch.wellTyped calls = true →
  ∃ more d' w',
    Batch.decodeEach calls decodedCalls d w = (Ok (decodedCalls ++ more)%list, d', w')
    ∧ Forall2 Batch.answers calls more.
Proof.
  revert decodedCalls d w. induction calls as [|call calls IH]; intros acc d w Htyped.
  - exists [], d, w. simpl. unfold ret. by rewrite app_nil_r.
  - simpl in Htyped. apply andb_true_iff in Htyped as [Hcall Hcalls].
    destruct (decodeCallOf_answers call d w Hcall) as (decoded & d1 & w1 & Hrun & Hans).
    destruct (IH (acc ++ [decoded])%list d1 w1 Hcalls) as (more & d' & w' & Hrest & Hmore).
    exists (decoded :: more), d', w'. split; [|by constructor].
    simpl. unfold bind. rewrite Hrun, Hrest. by rewrite <- app_assoc.
Qed.

(** X17. When the envelope is recognised and every extracted call has a
    string target and string call data (which is what viem gives),
    [decodeMulticall] does not throw, whatever the gateways do: it returns
    one decoded call per extracted call, in the order of the envelope, each
    with the target and the call data of the call it answers. *)
Theorem decodeMulticall_in_order data d w calls d1 w1 :
  MulticallDecoder.parseMulticallData data d w = (Ok calls, d1, w1) →
  forallb Batch.wellTyped calls = true →
  ∃ decodedCalls d' w',
    Batch.decodeMulticall data d w = (Ok decodedCalls, d', w')
    ∧ Forall2 Batch.answers calls decodedCalls
    ∧ length decodedCalls = length calls.
Proof.
  intros Hparse Htyped. unfold Batch.decodeMulticall, bind. rewrite Hparse.
  destruct (decodeEach_answers calls [] d1 w1 Htyped) as (more & d' & w' & Hrun & Hmore).
  exists more, d', w'. split; [done|]. split; [done|].
  symmetry. by eapply Forall2_length.
Qed.

(** X18. A payload that none of the four probes recognises makes
    [decodeMulticall] throw the unknown-format error before anything is
    resolved: no request is sent and the decoder is unchanged. *)
Theorem decodeMulticall_unrecognized data d w :
  (∀ shape, shape ∈ shapes → probe shape data = None) →
  Batch.decodeMulticall data d w = (Thrown UnrecognizedEnvelope, d, reported d w)
  ∧ outbound (reported d w) = outbound w.
Proof.
  intros Hnone. unfold Batch.decodeMulticall, bind.
  rewrite parseMulticallData_eq. unfold shapes in Hnone.
  rewrite !Hnone by (repeat ((by left) || right)).
  split; [done|]. unfold reported. by destruct (MulticallDecoder.verbose d).
Qed.

(** X26. [parseMulticallData] sends no request and leaves the decoder and
    the clock as they are; it writes to the console only when it throws and
    the decoder is verbose. *)
Theorem parseMulticallData_quiet data d w :
  ∃ r w',
    MulticallDecoder.parseMulticallData data d w = (r, d, w')
    ∧ now w' = now w
    ∧ outbound w' = outbound w
    ∧ (w' = w ∨ (MulticallDecoder.verbose d = true ∧ r = Thrown UnrecognizedEnvelope)).
Proof.
  rewrite parseMulticallData_eq.
  repeat (match goal with |- context [probe ?s data] => destruct (probe s data) end;
          [by eexists _, w; split_and!; [done..|left]|]).
  exists (Thrown UnrecognizedEnvelope), (reported d w). unfold reported.
  destruct (MulticallDecoder.verbose d); split_and!; try done; [by right|by left].
Qed.

End BatchDecoding.

(* ------------------------------------------------------------------ *)
(** ** Presentation: the command line and the explainer *)

Section Presentation.
Context `{Runtime} `{Chalk}.

Lemma length_slice_to n s :
  String.length (JsString.slice_to n s) = Nat.min n (String.length s).
Proof.
  revert s; induction n as [|n IH]; intros [|c s]; simpl; try done. by rewrite IH.
Qed.

Lemma length_slice_from n s :
  String.length (JsString.slice_from n s) = (String.length s - n)%nat.
Proof.
  revert s; induction n as [|n IH]; intros [|c s]; simpl; try done; lia.
Qed.

Lemma length_append (s t : string) :
  String.length (s ++ t) = (String.length s + String.length t)%nat.
Proof.
  induction s as [|c s IH]; [done|].
  change (S (String.length (s ++ t)) = S (String.length s + String.length t)).
  by rewrite IH.
Qed.

Lemma slice_prefix str half :
  (half <= String.length str)%nat →
  Cli.slice str 0 (Z.of_nat half) = JsString.slice_to half str.
Proof.
  intros Hhalf. unfold Cli.slice, Cli.position.
  replace (0 <? 0) with false by done.
  destruct (Z.of_nat half <? 0) eqn:Hneg; [apply Z.ltb_lt in Hneg; lia|].
  replace (Z.to_nat (Z.min (Z.of_nat half) (Z.of_nat (String.length str))
                     - Z.min 0 (Z.of_nat (String.length str)))) with half by lia.
  by replace (Z.to_nat (Z.min 0 (Z.of_nat (String.length str)))) with 0%nat by lia.
Qed.

Lemma sliceFrom_suffix str half :
  (0 < half <= String.length str)%nat →
  Cli.sliceFrom str (- Z.of_nat half)
  = JsString.slice_from (String.length str - half) str.
Proof.
  intros Hhalf. unfold Cli.sliceFrom, Cli.slice, Cli.position.
  destruct (Z.of_nat (String.length str) <? 0) eqn:Hneg; [apply Z.ltb_lt in Hneg; lia|].
  destruct (- Z.of_nat half <? 0) eqn:Hzero; [|apply Z.ltb_ge in Hzero; lia].
  replace (Z.to_nat (Z.max (Z.of_nat (String.length str) + - Z.of_nat half) 0))
    with (String.length str - half)%nat by lia.
  apply slice_short. rewrite length_slice_from. lia.
Qed.

(** [str.slice(-0)] is [str.slice(0)]: the whole string. *)
Lemma sliceFrom_zero str : Cli.sliceFrom str (- 0) = str.
Proof.
  unfold Cli.sliceFrom, Cli.slice, Cli.position.
  destruct (Z.of_nat (String.length str) <? 0) eqn:Hneg; [apply Z.ltb_lt in Hneg; lia|].
  replace (- 0 <? 0) with false by done.
  replace (Z.to_nat (Z.min (- 0) (Z.of_nat (String.length str)))) with 0%nat by lia.
  apply slice_short. simpl. lia.
Qed.

(** The shape of a truncated string. *)
Lemma truncateString_long str maxLength :
  5 <= maxLength → maxLength < Z.of_nat (String.length str) →
  let half := Z.to_nat ((maxLength - 3) / 2) in
  Cli.truncateString str maxLength
  = (JsString.slice_to half str ++ "..."
     ++ JsString.slice_from (String.length str - half) str)%string
  ∧ Z.of_nat (String.length (Cli.truncateString str maxLength)) = 2 * Z.of_nat half + 3.
Proof.
  intros Hmax Hlong half.
  assert (Hhalf : (maxLength - 3) / 2 = Z.of_nat half).
  { unfold half. rewrite Z2Nat.id; [done|apply Z.div_pos; lia]. }
  assert (Hbound : 2 * Z.of_nat half + 3 <= maxLength).
  { rewrite <- Hhalf. pose proof (Z.mul_div_le (maxLength - 3) 2). lia. }
  assert (Hpos : (0 < half)%nat).
  { enough (1 <= (maxLength - 3) / 2) by lia. apply Z.div_le_lower_bound; lia. }
  assert (Heq : Cli.truncateString str maxLength
                = (JsString.slice_to half str ++ "..."
                   ++ JsString.slice_from (String.length str - half) str)%string).
  { unfold Cli.truncateString.
    destruct (_ <=? _) eqn:Hle; [apply Z.leb_le in Hle; lia|].
    cbv zeta. rewrite Hhalf, slice_prefix, sliceFrom_suffix by lia. done. }
  split; [done|]. rewrite Heq, !length_append, length_slice_to, length_slice_from.
  simpl String.length. lia.
Qed.

(** X19. For a limit of at least five characters, [truncateString] returns
    a string that fits the limit: a string within the limit is returned as
    it is, and a longer one is cut to its first and last
    floor((limit - 3) / 2) characters with "..." in between. *)
Theorem truncateString_fits str maxLength :
  5 <= maxLength →
  let half := Z.to_nat ((maxLength - 3) / 2) in
  Z.of_nat (String.length (Cli.truncateString str maxLength)) <= maxLength
  ∧ (Z.of_nat (String.length str) <= maxLength → Cli.truncateString str maxLength = str)
  ∧ (maxLength < Z.of_nat (String.length str) →
     Cli.truncateString str maxLength
     = (JsString.slice_to half str ++ "..."
        ++ JsString.slice_from (String.length str - half) str)%string).
Proof.
  intros Hmax half.
  assert (Hshort : Z.of_nat (String.length str) <= maxLength →
                   Cli.truncateString str maxLength = str).
  { intros Hle. unfold Cli.truncateString. apply Z.leb_le in Hle. by rewrite Hle. }
  split_and!; [|done|by apply truncateString_long].
  destruct (Z_le_gt_dec (Z.of_nat (String.length str)) maxLength) as [Hle|Hgt].
  - by rewrite Hshort.
  - destruct (truncateString_long str maxLength) as [_ ->]; [lia..|].
    pose proof (Z.mul_div_le (maxLength - 3) 2). fold half.
    assert ((maxLength - 3) / 2 = Z.of_nat half).
    { unfold half. rewrite Z2Nat.id; [done|apply Z.div_pos; lia]. }
    lia.
Qed.

(** X20. With a limit of three or four characters [truncateString] does not
    shorten a longer string: both halves have length zero, [slice(-0)] is
    the whole string, and the result is "..." followed by the string
    itself. *)
Theorem truncateString_small_limit str maxLength :
  3 <= maxLength <= 4 → maxLength < Z.of_nat (String.length str) →
  Cli.truncateString str maxLength = ("..." ++ str)%string
  ∧ (String.length str < String.length (Cli.truncateString str maxLength))%nat.
Proof.
  intros Hmax Hlong.
  assert (Heq : Cli.truncateString str maxLength = ("..." ++ str)%string).
  { unfold Cli.truncateString.
    destruct (_ <=? _) eqn:Hle; [apply Z.leb_le in Hle; lia|]. cbv zeta.
    assert ((maxLength - 3) / 2 = 0) as ->.
    { apply Z.div_small. lia. }
    pose proof (slice_prefix str 0 ltac:(lia)) as Hprefix.
    change (Z.of_nat 0) with 0 in Hprefix.
    replace (JsString.slice_to 0 str) with EmptyString in Hprefix by (by destruct str).
    by rewrite sliceFrom_zero, Hprefix. }
  split; [done|]. rewrite Heq, length_append. simpl. lia.
Qed.

(** X21. [formatArgument] shows a string argument as it is, except for a
    0x string of more than fifty characters: that one is shown as its first
    23 characters, "..." and its last 23 characters, 49 characters in
    all. *)
Theorem formatArgument_string s :
  (JsString.startsWith s "0x" = true ∧ (50 < String.length s)%nat →
   Cli.formatArgument (VString s)
   = (JsString.slice_to 23 s ++ "..." ++ JsString.slice_from (String.length s - 23) s)%string
   ∧ String.length (Cli.formatArgument (VString s)) = 49%nat)
  ∧ (JsString.startsWith s "0x" = false ∨ (String.length s <= 50)%nat →
     Cli.formatArgument (VString s) = s).
Proof.
  split.
  - intros [Hhex Hlong]. cbn [Cli.formatArgument]. rewrite Hhex.
    destruct (50 <? _) eqn:Hlt; [|apply Z.ltb_ge in Hlt; lia]. cbn [andb].
    destruct (truncateString_long s 50) as [Heq Hlen]; [lia..|].
    replace (Z.to_nat ((50 - 3) / 2)) with 23%nat in * by done.
    split; [done|]. lia.
  - intros Hplain. cbn [Cli.formatArgument].
    destruct Hplain as [->|Hshort]; [done|].
    destruct (50 <? _) eqn:Hlt; [apply Z.ltb_lt in Hlt; lia|]. by rewrite andb_false_r.
Qed.

Lemma split_cons sep s : ∃ line lines, Explainer.split sep s = line :: lines.
Proof.
  destruct s as [|c s]; simpl; [eauto|].
  destruct (Ascii.eqb c sep); [eauto|]. destruct (Explainer.split sep s); eauto.
Qed.

(** Joining the lines of a text with the separator gives the text back. *)
Lemma join_split sep s :
  JsString.join (String sep EmptyString) (Explainer.split sep s) = s.
Proof.
  induction s as [|c s IH]; [done|]. simpl.
  destruct (split_cons sep s) as (line & lines & Hsplit). rewrite Hsplit in *.
  destruct (Ascii.eqb c sep) eqn:Hc.
  - apply Ascii.eqb_eq in Hc as ->.
    change (JsString.join (String sep "") ("" :: line :: lines))
      with (String sep (JsString.join (String sep "") (line :: lines))).
    by rewrite IH.
  - destruct lines as [|line' lines].
    + simpl in *. by rewrite IH.
    + change (String c (line ++ String sep "" ++ JsString.join (String sep "") (line' :: lines))
              = String c s).
      f_equal. exact IH.
Qed.

Lemma formatLine_plain line :
  Explainer.isHeader line = false → Explainer.formatLine line = line.
Proof.
  unfold Explainer.isHeader, Explainer.formatLine.
  intros [[-> ->]%orb_false_iff ->]%orb_false_iff. done.
Qed.

(** X22. [formatOutput] returns a text unchanged when none of its lines
    starts with "# ", "## " or "### ": splitting into lines and joining them
    again loses nothing, not even a trailing newline. *)
Theorem formatOutput_plain text :
  forallb (fun line => negb (Explainer.isHeader line))
    (Explainer.split Explainer.newline text) = true →
  Explainer.formatOutput text = text.
Proof.
  intros Hplain. unfold Explainer.formatOutput. cbv zeta.
  rewrite <- (join_split Explainer.newline text) at 2. f_equal.
  induction (Explainer.split Explainer.newline text) as [|line lines IH]; [done|].
  simpl in Hplain. apply andb_true_iff in Hplain as [Hline Hlines].
  simpl. rewrite formatLine_plain by (by apply negb_true_iff). f_equal. by apply IH.
Qed.

Lemma slice_from_app p rest : JsString.slice_from (String.length p) (p ++ rest) = rest.
Proof.
  induction p as [|a p IH]; [done|].
  change (JsString.slice_from (String.length p) (p ++ rest) = rest). exact IH.
Qed.

Lemma replace_prefix pattern rest :
  Explainer.replace (pattern ++ rest) pattern "" = rest.
Proof.
  assert (Hunfold : ∀ s p r,
    Explainer.replace s p r
    = if JsString.startsWith s p
      then (r ++ JsString.slice_from (String.length p) s)%string
      else match s with
           | EmptyString => EmptyString
           | String c s' => String c (Explainer.replace s' p r)
           end) by (by intros [|c s'] p r).
  rewrite Hunfold, startsWith_app. apply slice_from_app.
Qed.

(** X23. Each of the three header markers is recognised, whatever the
    title: a line "## t" is shown as t in bold cyan, "# t" in bold blue and
    "### t" in bold yellow, the marker removed.  The order of the tests
    (two, one, three hashes) hides none of them. *)
Theorem formatLine_headers title :
  Explainer.formatLine ("## " ++ title) = bold_cyan title
  ∧ Explainer.formatLine ("# " ++ title) = bold_blue title
  ∧ Explainer.formatLine ("### " ++ title) = bold_yellow title.
Proof.
  unfold Explainer.formatLine. split_and!.
  - rewrite (startsWith_app "## " title). by rewrite replace_prefix.
  - rewrite (startsWith_app "# " title).
    replace (JsString.startsWith ("# " ++ title) "## ") with false by done.
    by rewrite replace_prefix.
  - rewrite (startsWith_app "### " title).
    replace (JsString.startsWith ("### " ++ title) "## ") with false by done.
    replace (JsString.startsWith ("### " ++ title) "# ") with false by done.
    by rewrite replace_prefix.
Qed.

End Presentation.

(* ------------------------------------------------------------------ *)
(** ** More runs on the fixtures *)

Section MoreRuns.
Local Existing Instance Fixture.environment.
Local Existing Instance Fixture2.hashing.
Local Existing Instance Fixture2.runtime.
Local Existing Instance Fixture2.chalk.

Lemma lookupSelector_any_spelling_witness :
  ∃ r sd1 w1,
    SignatureDecoder.lookupSelector "0xA9059CBB" Fixture.directory Fixture.world
    = (r, sd1, w1)
    ∧ SignatureDecoder.lookupSelector "a9059cbb" sd1 w1 = (r, sd1, w1)
    ∧ length (outbound w1) = 1%nat.
Proof.
  pose (run := SignatureDecoder.lookupSelector "0xA9059CBB" Fixture.directory Fixture.world).
  assert (Hrun : run = (run.1.1, run.1.2, run.2)) by (by destruct run as [[? ?] ?]).
  exists run.1.1, run.1.2, run.2. split; [exact Hrun|]. split; [|vm_compute; reflexivity].
  apply (lookupSelector_any_spelling "0xA9059CBB" "a9059cbb" _ _ _ _ _ Hrun).
  - vm_compute. eexists. reflexivity.
  - vm_compute. reflexivity.
Defined.

Lemma lookupSelector_reply_witness :
  (SignatureDecoder.lookupSelector "0x40c10f19" Fixture.directory Fixture.world).1.1
  = Ok [candidate "mint(address,uint256)"]
  ∧ FunctionSignature.name (candidate "mint(address,uint256)") = "mint".
Proof.
  destruct (lookupSelector_reply "0x40c10f19" Fixture.directory Fixture.world
              (Fixture.fourByteReply ["mint(address,uint256)"]) 80%N
              [JObject [("text_signature", JString "mint(address,uint256)")]]
              ["mint(address,uint256)"]) as [Hrun _].
  - vm_compute. reflexivity.
  - vm_compute. reflexivity.
  - reflexivity.
  - reflexivity.
  - repeat constructor.
  - rewrite Hrun. split; reflexivity.
Defined.

Lemma lookupSelector_failure_witness :
  (@SignatureDecoder.lookupSelector (offline Fixture.environment) "0xa9059cbb"
     Fixture.directory Fixture.world).1
  = (Ok [], Fixture.directory).
Proof.
  destruct (@lookupSelector_failure (offline Fixture.environment) "0xa9059cbb"
              Fixture.directory Fixture.world
              (LibraryError "AxiosError" "Network Error") 0%N) as [Hrun _].
  - vm_compute. reflexivity.
  - reflexivity.
  - rewrite Hrun. reflexivity.
Defined.

Lemma verifySignature_generated_witness :
  Selector.generateSelector "transfer(address,uint256)" = "0xa9059cbb"
  ∧ Selector.verifySignature "transfer(address,uint256)" "0xa9059cbb" = true
  ∧ Selector.verifySignature "transfer(address,uint256)" "a9059cbb" = false.
Proof.
  destruct (verifySignature_generated (H:=Fixture2.hashing) "transfer(address,uint256)")
    as [Hround Hprefix].
  - intros x. simpl. unfold Fixture2.keccak256. by destruct (String.eqb _ _).
  - intros x. simpl. unfold Fixture2.keccak256. by destruct (String.eqb _ _).
  - split; [vm_compute; reflexivity|]. split; [exact Hround|].
    destruct (Selector.verifySignature "transfer(address,uint256)" "a9059cbb") eqn:Hv;
      [|reflexivity].
    apply Hprefix in Hv. vm_compute in Hv. discriminate.
Defined.

Lemma getContractAbi_any_case_witness :
  ∃ r c1 w1,
    EtherscanClient.getContractAbi Fixture.usdc Fixture.etherscan Fixture.world = (r, c1, w1)
    ∧ EtherscanClient.getContractAbi "0xA0B86991C6218B36C1D19D4A2E9EB0CE3606EB48" c1 w1
      = (r, c1, w1)
    ∧ length (outbound w1) = 1%nat.
Proof.
  pose (run := EtherscanClient.getContractAbi Fixture.usdc Fixture.etherscan Fixture.world).
  assert (Hrun : run = (run.1.1, run.1.2, run.2)) by (by destruct run as [[? ?] ?]).
  exists run.1.1, run.1.2, run.2. split; [exact Hrun|]. split; [|vm_compute; reflexivity].
  apply (getContractAbi_any_case Fixture.usdc _ _ _ _ _ _ Hrun).
  - vm_compute. eexists. reflexivity.
  - vm_compute. reflexivity.
Defined.

Lemma getContractAbi_unverified_not_cached_witness :
  ∃ w' r c'' w'',
    EtherscanClient.getContractAbi Fixture.unverified Fixture.etherscan Fixture.world
    = (Ok JNull, Fixture.etherscan, w')
    ∧ EtherscanClient.getContractAbi Fixture.unverified Fixture.etherscan w' = (Ok r, c'', w'')
    ∧ length (outbound w'') = 2%nat.
Proof.
  destruct (getContractAbi_unverified_not_cached Fixture.unverified Fixture.etherscan
              Fixture.world
              (Fixture.etherscanReply "0" "NOTOK" "Contract source code not verified")
              20%N (Some (JString "0")))
    as (Hrun & r & c'' & w'' & Hagain & Hout).
  - vm_compute. reflexivity.
  - vm_compute. reflexivity.
  - reflexivity.
  - reflexivity.
  - eexists _, r, c'', w''. split; [exact Hrun|]. split; [exact Hagain|].
    rewrite Hout. reflexivity.
Defined.

(** A reply with status 1 whose result is the text null: [null] is
    returned, stored, and returned again without a request. *)
Lemma getContractAbi_parsed_cached_witness :
  ∃ c' w',
    @EtherscanClient.getContractAbi Fixture2.oddities Fixture2.nullified
      Fixture.etherscan Fixture.world = (Ok JNull, c', w')
    ∧ EtherscanClient.cache c' !! Fixture2.nullified = Some JNull
    ∧ @EtherscanClient.getContractAbi Fixture2.oddities Fixture2.nullified c' w'
      = (Ok JNull, c', w')
    ∧ length (outbound w') = 1%nat.
Proof.
  destruct (@getContractAbi_parsed_cached Fixture2.oddities Fixture2.nullified
              Fixture.etherscan Fixture.world
              (Fixture.etherscanReply "1" "OK" "null") 20%N
              (Some (JString "1")) (JString "null") JNull)
    as (c' & w' & Hrun & Hcached & Hout & Hagain).
  - vm_compute. reflexivity.
  - vm_compute. reflexivity.
  - reflexivity.
  - reflexivity.
  - reflexivity.
  - reflexivity.
  - reflexivity.
  - exists c', w'. split; [exact Hrun|]. split; [exact Hcached|]. split; [exact Hagain|].
    rewrite Hout. reflexivity.
Defined.

Lemma getContractAbi_failure_witness :
  ∃ w',
    EtherscanClient.getContractAbi Fixture.unreachable Fixture.etherscan Fixture.world
    = (Ok JNull, Fixture.etherscan, w')
    ∧ length (console w') = 1%nat.
Proof.
  eexists. split.
  - apply (getContractAbi_failure Fixture.unreachable Fixture.etherscan Fixture.world
             (Thrown (LibraryError "AxiosError" "timeout of 10000ms exceeded")) 10000%N
             (LibraryError "AxiosError" "timeout of 10000ms exceeded")).
    + vm_compute. reflexivity.
    + vm_compute. reflexivity.
    + left. reflexivity.
  - reflexivity.
Defined.

(** The verified-contract test after a [null] was stored: the answer is
    [false], the address has an entry, and no second request is sent. *)
Example isContractVerified_null :
  ∃ c' w',
    @Registry.isContractVerified Fixture2.oddities Fixture2.nullified
      Fixture.etherscan Fixture.world = (Ok false, c', w')
    ∧ is_Some (EtherscanClient.cache c' !! Fixture2.nullified)
    ∧ @Registry.isContractVerified Fixture2.oddities Fixture2.nullified c' w'
      = (Ok false, c', w')
    ∧ length (outbound w') = 1%nat.
Proof.
  pose (run := @Registry.isContractVerified Fixture2.oddities Fixture2.nullified
                 Fixture.etherscan Fixture.world).
  exists run.1.2, run.2. split_and!; try (vm_compute; reflexivity).
  vm_compute. eexists. reflexivity.
Qed.

Lemma setApiKey_requests_witness :
  ∃ c1 r c' w' req,
    Registry.setApiKey "AnotherKey" Fixture.etherscan Fixture.world
    = (Ok tt, c1, Fixture.world)
    ∧ EtherscanClient.minRequestInterval c1 = 250
    ∧ EtherscanClient.getContractAbi Fixture.unverified c1 Fixture.world = (Ok r, c', w')
    ∧ outbound w' = [(now Fixture.world, req)]
    ∧ assoc "apikey" (params req) = Some (PStr "AnotherKey").
Proof.
  destruct (setApiKey_requests "AnotherKey" Fixture.unverified Fixture.etherscan
              Fixture.world eq_refl)
    as (c1 & Hset & Hinterval & _ & Hsent).
  destruct Hsent as (r & c' & w' & req & Hrun & Hout & Hkey); [vm_compute; reflexivity|].
  exists c1, r, c', w', req. split; [exact Hset|]. split; [exact Hinterval|].
  split; [exact Hrun|]. split; [exact Hout|exact Hkey].
Defined.

Lemma getSourceCodeInfo_keeps_pace_witness :
  wellPaced Fixture.etherscan Fixture.world
  ∧ ∃ r c' w',
      Registry.getSourceCodeInfo Fixture2.proxy Fixture.etherscan Fixture.world = (r, c', w')
      ∧ wellPaced c' w'.
Proof.
  assert (Hpaced : wellPaced Fixture.etherscan Fixture.world).
  { split; [vm_compute; discriminate|]. split; [reflexivity|exact I]. }
  split; [exact Hpaced|].
  pose (run := Registry.getSourceCodeInfo Fixture2.proxy Fixture.etherscan Fixture.world).
  assert (Hrun : run = (run.1.1, run.1.2, run.2)) by (by destruct run as [[? ?] ?]).
  exists run.1.1, run.1.2, run.2. split; [exact Hrun|].
  exact (getSourceCodeInfo_keeps_pace _ _ _ _ _ _ Hpaced Hrun).
Defined.

(** Two source records fetched in a row: the second request waits for the
    interval, and both replies are reported on the console. *)
Example getSourceCodeInfo_twice :
  ∃ r1 c1 w1 r2 c2 w2,
    Registry.getSourceCodeInfo Fixture2.proxy Fixture.etherscan Fixture.world = (r1, c1, w1)
    ∧ Registry.getSourceCodeInfo Fixture.unverified c1 w1 = (r2, c2, w2)
    ∧ map fst (outbound w2) = [1700000000000; 1700000000250]
    ∧ paced 250 (outbound w2) = true
    ∧ EtherscanClient.lastRequestTime c2 = 1700000000250
    ∧ r2 = Ok (Some JNull)
    ∧ length (console w2) = 2%nat.
Proof.
  pose (first := Registry.getSourceCodeInfo Fixture2.proxy Fixture.etherscan Fixture.world).
  pose (second := Registry.getSourceCodeInfo Fixture.unverified first.1.2 first.2).
  exists first.1.1, first.1.2, first.2, second.1.1, second.1.2, second.2.
  split_and!; vm_compute; reflexivity.
Qed.

Lemma decodeCall_decoding_candidate_witness :
  (MulticallDecoder.decodeCall Fixture.usdc Fixture.transferCall
     Fixture.decoder Fixture.world).1.1
  = Ok {| DecodedCall.target := Fixture.usdc;
          DecodedCall.functionName := "many_msg_babbage";
          DecodedCall.functionSignature := "many_msg_babbage(bytes1)";
          DecodedCall.args := Some [VString "0x00"];
          DecodedCall.rawCallData := Fixture.transferCall |}.
Proof.
  pose (first := EtherscanClient.getContractAbi Fixture.usdc Fixture.etherscan Fixture.world).
  pose (second := SignatureDecoder.lookupSelector "0xa9059cbb" Fixture.directory first.2).
  rewrite (decodeCall_decoding_candidate Fixture.usdc Fixture.transferCall
             Fixture.decoder Fixture.world
             (JArray [Fixture.function "balanceOf" ["address"]]) first.1.2 first.2
             []
             {| FunctionSignature.name := "many_msg_babbage";
                FunctionSignature.signature := "many_msg_babbage(bytes1)" |}
             [{| FunctionSignature.name := "transfer";
                 FunctionSignature.signature := "transfer(address,uint256)" |}]
             second.1.2 second.2
             (Fixture.function "many_msg_babbage" ["bytes1"])
             {| Decoded.functionName := "many_msg_babbage";
                Decoded.args := Some [VString "0x00"] |}).
  - reflexivity.
  - vm_compute. reflexivity.
  - vm_compute. reflexivity.
  - vm_compute. reflexivity.
  - reflexivity.
  - vm_compute. reflexivity.
  - vm_compute. reflexivity.
Defined.

Lemma decodeCall_registry_first_witness :
  ∃ call d' w',
    MulticallDecoder.decodeCall Fixture.dai Fixture.mintCall Fixture.decoder Fixture.world
    = (Ok call, d', w')
    ∧ DecodedCall.functionName call = "mint"
    ∧ MulticallDecoder.signatureDecoder d' = Fixture.directory
    ∧ length (outbound w') = 1%nat.
Proof.
  pose (first := EtherscanClient.getContractAbi Fixture.dai Fixture.etherscan Fixture.world).
  destruct (decodeCall_registry_first Fixture.dai Fixture.mintCall Fixture.decoder
              Fixture.world
              (JArray [Fixture.function "mint" ["uint256"];
                       Fixture.function "mint" ["address"; "uint256"]])
              first.1.2 first.2)
    as (call & decoded & Hdecoded & Hrun & Hname & _ & Hdirectory).
  - vm_compute. reflexivity.
  - vm_compute. reflexivity.
  - exists call, (MulticallDecoder.set_etherscanClient first.1.2 Fixture.decoder), first.2.
    split; [exact Hrun|]. split.
    { rewrite Hname. vm_compute in Hdecoded. injection Hdecoded as <-. reflexivity. }
    split; [exact Hdirectory|]. vm_compute. reflexivity.
Defined.

(** An object in place of an interface: viem and [abi.find] both raise, and
    the call is resolved through the directory. *)
Lemma decodeCall_no_interface_witness :
  ∃ d' w',
    @MulticallDecoder.decodeCall Fixture2.oddities Fixture2.objected Fixture.mintCall
      Fixture.decoder Fixture.world
    = (Ok {| DecodedCall.target := Fixture2.objected;
             DecodedCall.functionName := "mint";
             DecodedCall.functionSignature := "mint(address,uint256)";
             DecodedCall.args :=
               Some [VString "0x000000000000000000000000000000000000a11c"; VBigInt 1000];
             DecodedCall.rawCallData := Fixture.mintCall |}, d', w')
    ∧ EtherscanClient.cache (MulticallDecoder.etherscanClient d') !! Fixture2.objected
      = Some (JObject [])
    ∧ length (outbound w') = 2%nat.
Proof.
  pose (first := @EtherscanClient.getContractAbi Fixture2.oddities Fixture2.objected
                   Fixture.etherscan Fixture.world).
  pose (second := @SignatureDecoder.lookupSelector Fixture2.oddities "0x40c10f19"
                    Fixture.directory first.2).
  destruct (@decodeCall_no_interface Fixture2.oddities Fixture2.objected Fixture.mintCall
              Fixture.decoder Fixture.world (JObject []) first.1.2 first.2
              [candidate "mint(address,uint256)"] second.1.2 second.2)
    as [_ Hrun].
  - vm_compute. reflexivity.
  - intros items. discriminate.
  - vm_compute. reflexivity.
  - eexists _, _. split; [exact Hrun|]. split; vm_compute; reflexivity.
Defined.

(** A function without parameters decoded through the registry: viem gives
    no arguments, and [args] is [undefined], not the empty list. *)
Example decodeCall_registry_no_parameters :
  (@MulticallDecoder.decodeCall Fixture2.oddities Fixture2.pausable Fixture2.pauseCall
     Fixture.decoder Fixture.world).1.1
  = Ok {| DecodedCall.target := Fixture2.pausable;
          DecodedCall.functionName := "pause";
          DecodedCall.functionSignature := "pause()";
          DecodedCall.args := None;
          DecodedCall.rawCallData := Fixture2.pauseCall |}.
Proof. vm_compute. reflexivity. Qed.

Lemma decodeMulticall_in_order_witness :
  ∃ decodedCalls d' w',
    Batch.decodeMulticall Fixture.aggregate3Payload Fixture.decoder Fixture.world
    = (Ok decodedCalls, d', w')
    ∧ map DecodedCall.target decodedCalls = [Fixture.usdc; Fixture.dai]
    ∧ map DecodedCall.rawCallData decodedCalls = [Fixture.transferCall; Fixture.mintCall].
Proof.
  destruct (decodeMulticall_in_order Fixture.aggregate3Payload Fixture.decoder Fixture.world
              (map toCall Fixture.batch) Fixture.decoder Fixture.world)
    as (decodedCalls & d' & w' & Hrun & Hanswers & _).
  - vm_compute. reflexivity.
  - reflexivity.
  - exists decodedCalls, d', w'. split; [exact Hrun|].
    inversion Hanswers as [|c1 a1 cs1 as1 [Ht1 Hd1] Hrest1]; subst.
    inversion Hrest1 as [|c2 a2 cs2 as2 [Ht2 Hd2] Hrest2]; subst.
    inversion Hrest2; subst. simpl in *.
    injection Ht1 as <-. injection Hd1 as <-. injection Ht2 as <-. injection Hd2 as <-.
    split; reflexivity.
Defined.

Lemma decodeMulticall_unrecognized_witness :
  Batch.decodeMulticall Fixture.transferCall Fixture.decoder Fixture.world
  = (Thrown UnrecognizedEnvelope, Fixture.decoder, Fixture.world).
Proof.
  destruct (decodeMulticall_unrecognized Fixture.transferCall Fixture.decoder Fixture.world)
    as [Hrun _].
  - intros shape Hin. unfold shapes in Hin.
    repeat (apply elem_of_cons in Hin as [->|Hin]; [vm_compute; reflexivity|]).
    by apply elem_of_nil in Hin.
  - exact Hrun.
Defined.

Lemma truncateString_fits_witness :
  Cli.truncateString Fixture.transferCall 100
  = ("0xa9059cbb00000000000000000000000000000000000000"
     ++ "..." ++ "0000000000000000000000000000000000000000000003e8")%string
  ∧ String.length (Cli.truncateString Fixture.transferCall 100) = 99%nat.
Proof.
  destruct (truncateString_fits Fixture.transferCall 100) as (_ & _ & Hlong); [lia|].
  split; [|vm_compute; reflexivity].
  rewrite Hlong by (vm_compute; reflexivity). vm_compute. reflexivity.
Defined.

Lemma truncateString_small_limit_witness :
  Cli.truncateString "0x1234" 3 = "...0x1234".
Proof.
  destruct (truncateString_small_limit "0x1234" 3) as [Heq _].
  - lia.
  - simpl. lia.
  - exact Heq.
Defined.

Lemma formatOutput_plain_witness :
  Explainer.formatOutput ("Transfers 1000 units." ++ String Explainer.newline "No header here.")
  = ("Transfers 1000 units." ++ String Explainer.newline "No header here.")%string.
Proof.
  apply formatOutput_plain. vm_compute. reflexivity.
Defined.

(** A markdown text with the three kinds of header, under the identity
    styles of the fixture. *)
Example formatOutput_headers :
  Explainer.formatOutput
    ("# Title" ++ String Explainer.newline ("## Section" ++ String Explainer.newline
     ("### Detail" ++ String Explainer.newline "text # not a header")))
  = ("Title" ++ String Explainer.newline ("Section" ++ String Explainer.newline
     ("Detail" ++ String Explainer.newline "text # not a header")))%string.
Proof. vm_compute. reflexivity. Qed.

Lemma lookupSelector_malformed_witness :
  ∃ w',
    @SignatureDecoder.lookupSelector Fixture2.garbled "0xa9059cbb"
      Fixture.directory Fixture.world = (Ok [], Fixture.directory, w')
    ∧ length (console w') = 1%nat.
Proof.
  destruct (@lookupSelector_malformed Fixture2.garbled "0xa9059cbb" Fixture.directory
              Fixture.world
              (JObject [("results",
                         JArray [JObject [("text_signature",
                                           JString "transfer(address,uint256)")];
                                 JObject [("id", JNumber 5)]])])
              80%N
              [JObject [("text_signature", JString "transfer(address,uint256)")];
               JObject [("id", JNumber 5)]])
    as (w' & Hrun & Hconsole & _).
  - vm_compute. reflexivity.
  - reflexivity.
  - reflexivity.
  - reflexivity.
  - right. left. intros text. vm_compute. discriminate.
  - exists w'. split; [exact Hrun|exact Hconsole].
Defined.

End MoreRuns.
